(** * Dense feed-forward network assembly (neural_network.py)

    A shallow embedding of the three graph builders [dense_relu],
    [dense_relu_bn_drop] and [dense_nn], of the TensorFlow 1.x calls they
    make, and of the execution of the assembled graph.

    - Graph construction is a state-and-exception monad over the default
      graph: every TensorFlow call registers one operation, a Python
      exception aborts the construction.
    - The host-side arithmetic [sqrt(2.0/dim_in)] is IEEE binary64, taken
      from [SpecFloat].
    - Values flowing through a run of the graph are [float32] elements
      modelled by their mathematical value (a rational) or one of the IEEE
      special values; rounding, overflow, underflow and the sign of zero
      are not modelled.

    What is modelled of the framework is what [dense_nn] exercises; the
    comment of each definition says where the framework does more. *)

From Stdlib Require Import String Bool ZArith QArith Qabs List Lia Lqa.
From Stdlib Require Import DecimalString SpecFloat.
Import ListNotations.

Local Open Scope Z_scope.

(** ** Python exceptions and results *)

Inductive exception : Type :=
| IndexError
| ZeroDivisionError
| TypeError
| ValueError
| OverflowError.

Inductive result (A : Type) : Type :=
| Ok (a : A)
| Raise (e : exception).

Arguments Ok {A} a.
Arguments Raise {A} e.

(** [l[i]] on a Python list: negative indices count from the end. *)
Definition py_getitem {A : Type} (l : list A) (i : Z) : result A :=
  let n := Z.of_nat (length l) in
  let j := if i <? 0 then i + n else i in
  if (j <? 0) || (n <=? j) then Raise IndexError
  else match nth_error l (Z.to_nat j) with
       | Some a => Ok a
       | None => Raise IndexError
       end.

(** [range(n)] *)
Definition py_range (n : Z) : list Z :=
  map Z.of_nat (seq 0 (Z.to_nat n)).

(** [str(n)] for a non-negative integer. *)
Definition py_str (n : Z) : string :=
  NilZero.string_of_uint (N.to_uint (Z.to_N n)).

(** ** Host-side floats (Python [float], IEEE binary64) *)

Module PyFloat.

Definition float : Type := spec_float.

Definition prec : Z := 53.
Definition emax : Z := 1024.

Definition zero : float := S754_zero false.

(** The literal [2.0]. *)
Definition two : float := S754_finite false 4503599627370496 (-51).

(** Conversion of a Python [int]: correctly rounded, [OverflowError] when
    the rounded value would not be finite. *)
Definition of_int (n : Z) : result float :=
  if 2 ^ 1024 - 2 ^ 970 <=? Z.abs n then Raise OverflowError
  else Ok (binary_normalize prec emax n 0 false).

(** [x / n] for a float [x] and an int [n]. *)
Definition truediv_int (x : float) (n : Z) : result float :=
  match of_int n with
  | Raise e => Raise e
  | Ok y => if n =? 0 then Raise ZeroDivisionError
            else Ok (SFdiv prec emax x y)
  end.

(** [math.sqrt]: a [ValueError] (math domain error) below zero. *)
Definition sqrt (x : float) : result float :=
  if SFltb x zero then Raise ValueError
  else Ok (SFsqrt prec emax x).

(** The exact rational value of a finite float. *)
Definition to_Q (x : float) : option Q :=
  match x with
  | S754_zero _ => Some 0%Q
  | S754_finite s m e =>
      let v := (inject_Z (Z.pos m) * Qpower 2 e)%Q in
      Some (if s then Qopp v else v)
  | _ => None
  end.

End PyFloat.

(** ** Run-time tensor elements ([tf.float32]) *)

(** An element is its mathematical value or an IEEE special value.
    Arithmetic on numbers is exact: there is no rounding, no overflow to
    an infinity, no underflow to zero or to a subnormal, and zero has no
    sign.  The theorems on runs are about these values. *)
Inductive float32 : Type :=
| Fin (q : Q)
| PInf
| NInf
| NaN.

Definition f32_zero : float32 := Fin 0.
Definition f32_one : float32 := Fin 1.

Definition f32_neg (x : float32) : float32 :=
  match x with
  | Fin q => Fin (- q)
  | PInf => NInf
  | NInf => PInf
  | NaN => NaN
  end.

Definition f32_abs (x : float32) : float32 :=
  match x with
  | Fin q => Fin (Qabs q)
  | PInf | NInf => PInf
  | NaN => NaN
  end.

Definition f32_add (x y : float32) : float32 :=
  match x, y with
  | NaN, _ | _, NaN => NaN
  | Fin a, Fin b => Fin (a + b)
  | PInf, NInf | NInf, PInf => NaN
  | PInf, _ | _, PInf => PInf
  | NInf, _ | _, NInf => NInf
  end.

Definition f32_sub (x y : float32) : float32 := f32_add x (f32_neg y).

(** An infinity of the sign of [c] times the sign [neg]. *)
Definition f32_inf_of (neg : bool) (c : comparison) : float32 :=
  match c with
  | Eq => NaN
  | Gt => if neg then NInf else PInf
  | Lt => if neg then PInf else NInf
  end.

Definition f32_mul (x y : float32) : float32 :=
  match x, y with
  | NaN, _ | _, NaN => NaN
  | Fin a, Fin b => Fin (a * b)
  | Fin a, PInf | PInf, Fin a => f32_inf_of false (a ?= 0)%Q
  | Fin a, NInf | NInf, Fin a => f32_inf_of true (a ?= 0)%Q
  | PInf, PInf | NInf, NInf => PInf
  | PInf, NInf | NInf, PInf => NInf
  end.

(** Division as IEEE 754 defines it at zero and at infinity: a non-zero
    number over zero is an infinity, zero over zero is [NaN].  Zero has no
    sign here, so that a number over zero gets the infinity of its own
    sign; over a negative zero IEEE 754 gives the opposite infinity.  Where
    a division by zero is involved, only what holds of both infinities and
    of [NaN] is concluded. *)
Definition f32_div (x y : float32) : float32 :=
  match x, y with
  | NaN, _ | _, NaN => NaN
  | Fin a, Fin b =>
      match (b ?= 0)%Q with
      | Eq => f32_inf_of false (a ?= 0)%Q
      | _ => Fin (a / b)
      end
  | Fin _, (PInf | NInf) => Fin 0
  | PInf, Fin b => match (b ?= 0)%Q with Lt => NInf | _ => PInf end
  | NInf, Fin b => match (b ?= 0)%Q with Lt => PInf | _ => NInf end
  | (PInf | NInf), (PInf | NInf) => NaN
  end.

(** [x < y]; false as soon as one side is [NaN]. *)
Definition f32_ltb (x y : float32) : bool :=
  match x, y with
  | NaN, _ | _, NaN => false
  | Fin a, Fin b => match (a ?= b)%Q with Lt => true | _ => false end
  | NInf, NInf | PInf, PInf => false
  | NInf, _ | _, PInf => true
  | PInf, _ | _, NInf => false
  end.

(** [x <= y]; false as soon as one side is [NaN]. *)
Definition f32_leb (x y : float32) : bool :=
  match x, y with
  | NaN, _ | _, NaN => false
  | Fin a, Fin b => match (a ?= b)%Q with Gt => false | _ => true end
  | NInf, _ | _, PInf => true
  | PInf, _ | _, NInf => false
  end.

(** [tf.greater] on one element. *)
Definition f32_greater (x y : float32) : bool := f32_ltb y x.

(** [tf.nn.relu] on one element: [max(x, 0)]. *)
Definition f32_relu (x : float32) : float32 :=
  if f32_ltb x f32_zero then f32_zero else x.

(** [tf.cast(_, tf.float32)] on one boolean. *)
Definition f32_of_bool (b : bool) : float32 :=
  if b then f32_one else f32_zero.

(** The element is a division-by-zero artifact. *)
Definition f32_is_artifact (x : float32) : bool :=
  match x with
  | Fin _ => false
  | _ => true
  end.

(** ** The computation graph *)

Inductive dtype : Type :=
| tf_float32
| tf_bool
| tf_string.

Definition dtype_eqb (a b : dtype) : bool :=
  match a, b with
  | tf_float32, tf_float32 | tf_bool, tf_bool | tf_string, tf_string => true
  | _, _ => false
  end.

(** One dimension of a static shape; [None] is Python's [None]. *)
Definition Dimension : Type := option Z.

(** A static shape; [None] is a shape of unknown rank. *)
Definition TensorShape : Type := option (list Dimension).

(** A tensor handle: the position of its operation in the graph, and the
    static type and shape the framework inferred for it. *)
Record Tensor : Type := mkTensor {
  tensor_id : nat;
  tensor_dtype : dtype;
  tensor_shape : TensorShape
}.

(** [tf.truncated_normal_initializer(stddev=..., seed=...)] *)
Inductive initializer : Type :=
| truncated_normal_initializer (stddev : PyFloat.float) (seed : Z).

Inductive activation : Type :=
| tf_nn_relu.

Inductive op : Type :=
| Placeholder (dt : dtype) (shape : TensorShape) (name : string)
| Dense (inputs : Tensor) (units : Z) (act : option activation)
        (kernel_initializer : initializer)
| BatchNormalization (inputs : Tensor) (center scale : bool)
                     (training : Tensor)
| Dropout (x : Tensor) (keep_prob : Tensor)
| Const (value : float32)
| Sub (x y : Tensor)
| RealDiv (x y : Tensor)
| Square (x : Tensor)
| Abs (x : Tensor)
| Greater (x y : Tensor)
| Cast (x : Tensor) (dt : dtype)
| Mean (x : Tensor)
| ScalarSummary (name : string) (x : Tensor).

(** An operation of the graph with the name scopes it was created under,
    outermost first. *)
Record node : Type := mkNode {
  node_scope : list string;
  node_op : op;
  node_dtype : dtype;
  node_shape : TensorShape
}.

(** The default graph: its operations in creation order, and the stack of
    name scopes currently open. *)
Record Graph : Type := mkGraph {
  nodes : list node;
  scopes : list string
}.

Definition empty_graph : Graph := mkGraph [] [].

(** ** The construction monad *)

Definition TF (A : Type) : Type := Graph -> result (A * Graph).

Definition ret {A : Type} (a : A) : TF A := fun g => Ok (a, g).

Definition bind {A B : Type} (c : TF A) (k : A -> TF B) : TF B :=
  fun g => match c g with
           | Ok (a, g') => k a g'
           | Raise e => Raise e
           end.

Definition raise {A : Type} (e : exception) : TF A := fun _ => Raise e.

Definition lift {A : Type} (r : result A) : TF A :=
  fun g => match r with
           | Ok a => Ok (a, g)
           | Raise e => Raise e
           end.

Declare Scope tf_scope.
Delimit Scope tf_scope with tf.

Notation "x <- c ;; k" := (bind c (fun x => k))
  (at level 61, c at next level, right associativity) : tf_scope.
Notation "c ;;; k" := (bind c (fun _ => k))
  (at level 61, right associativity) : tf_scope.

Local Open Scope tf_scope.

(** Registers an operation in the default graph and returns its handle. *)
Definition add_op (o : op) (dt : dtype) (shape : TensorShape) : TF Tensor :=
  fun g =>
    Ok (mkTensor (length (nodes g)) dt shape,
        mkGraph (nodes g ++ [mkNode (scopes g) o dt shape]) (scopes g)).

(** [with tf.name_scope(name): body], for a name the framework accepts
    and has not been given before in the graph, as are all the names
    [dense_nn] uses: the name is pushed on the stack of open scopes for
    the body and popped after it.  The framework raises [ValueError] for a
    name that is not a valid scope name, resets the stack for the empty
    name and makes a name unique when it has been used already; this is
    not modelled, so that the builders return here in every case in which
    the source returns. *)
Definition with_name_scope {A : Type} (name : string) (body : TF A) : TF A :=
  fun g =>
    match body (mkGraph (nodes g) (scopes g ++ [name])) with
    | Ok (a, g') => Ok (a, mkGraph (nodes g') (scopes g))
    | Raise e => Raise e
    end.

(** A handle can be consumed only by the graph that holds its operation. *)
Definition in_graph (t : Tensor) (g : Graph) : bool :=
  (tensor_id t <? length (nodes g))%nat.

Definition check_in_graph (t : Tensor) : TF unit :=
  fun g => if in_graph t g then Ok (tt, g) else Raise ValueError.

Definition check_dtype (t : Tensor) (dt : dtype) : TF unit :=
  if dtype_eqb (tensor_dtype t) dt then ret tt else raise TypeError.

(** Dimensions are signed 64-bit integers in the framework. *)
Definition dim_max : Z := 2 ^ 63 - 1.

(** A shape holds no negative and no oversized dimension. *)
Definition valid_dim (d : Dimension) : bool :=
  match d with
  | Some n => (0 <=? n) && (n <=? dim_max)
  | None => true
  end.

Definition valid_shape (s : TensorShape) : bool :=
  match s with
  | Some dims => forallb valid_dim dims
  | None => true
  end.

(** ** The TensorFlow calls of the source *)

(** [tf.reset_default_graph()], called outside of a [with graph.as_default()]
    block, where it cannot fail. *)
Definition tf_reset_default_graph : TF unit :=
  fun _ => Ok (tt, empty_graph).

(** The exception a dimension that is not valid raises: [ValueError] for a
    negative one, [TypeError] for one beyond the signed 64-bit range. *)
Definition dim_exception (d : Dimension) : option exception :=
  match d with
  | Some n =>
      if n <? 0 then Some ValueError
      else if dim_max <? n then Some TypeError
      else None
  | None => None
  end.

(** The exception of the first dimension that is not valid. *)
Fixpoint dims_exception (dims : list Dimension) : exception :=
  match dims with
  | [] => ValueError
  | d :: rest =>
      match dim_exception d with
      | Some e => e
      | None => dims_exception rest
      end
  end.

Definition shape_exception (s : TensorShape) : exception :=
  match s with
  | Some dims => dims_exception dims
  | None => ValueError
  end.

(** [tf.placeholder(dtype, shape, name=name)] *)
Definition tf_placeholder (dt : dtype) (shape : TensorShape) (name : string)
  : TF Tensor :=
  if valid_shape shape then add_op (Placeholder dt shape name) dt shape
  else raise (shape_exception shape).

(** [tensor.get_shape().as_list()]: undefined on a shape of unknown rank. *)
Definition as_list (t : Tensor) : result (list Dimension) :=
  match tensor_shape t with
  | Some dims => Ok dims
  | None => Raise ValueError
  end.

(** The framework refuses a tensor of more than [2^63 - 1] elements: a
    kernel of [dim_in] rows and [units] columns must stay below. *)
Definition kernel_fits (dim_in units : Z) : bool :=
  dim_in * units <=? dim_max.

(** [tf.layers.dense(inputs, units, activation=..., kernel_initializer=...)]:
    the input has rank two or more and a known last dimension, the kernel
    has the shape [[last dimension, units]] and must fit; the output
    replaces the last dimension by [units]. *)
Definition tf_layers_dense (inputs : Tensor) (units : Z)
    (act : option activation) (kernel_initializer : initializer) : TF Tensor :=
  check_in_graph inputs ;;;
  check_dtype inputs tf_float32 ;;;
  match tensor_shape inputs with
  | None => raise ValueError
  | Some dims =>
      if (length dims <? 2)%nat then raise ValueError
      else match last dims None with
           | None => raise ValueError
           | Some d =>
               if valid_dim (Some units) && kernel_fits d units
               then add_op (Dense inputs units act kernel_initializer)
                           tf_float32
                           (Some (removelast dims ++ [Some units]))
               else raise ValueError
           end
  end.

(** [tf.layers.batch_normalization(inputs, center=..., scale=...,
    training=...)] *)
Definition tf_layers_batch_normalization (inputs : Tensor)
    (center scale : bool) (training : Tensor) : TF Tensor :=
  check_in_graph inputs ;;;
  check_in_graph training ;;;
  check_dtype inputs tf_float32 ;;;
  check_dtype training tf_bool ;;;
  add_op (BatchNormalization inputs center scale training)
         tf_float32 (tensor_shape inputs).

(** [ops.convert_to_tensor(t, dtype=dt)] on a tensor: a [ValueError] when
    the tensor has another type. *)
Definition check_convertible (t : Tensor) (dt : dtype) : TF unit :=
  if dtype_eqb (tensor_dtype t) dt then ret tt else raise ValueError.

(** [tf.nn.dropout(x, keep_prob)]: the keep probability is converted to a
    tensor of the type of [x]. *)
Definition tf_nn_dropout (x keep_prob : Tensor) : TF Tensor :=
  check_in_graph x ;;;
  check_in_graph keep_prob ;;;
  check_dtype x tf_float32 ;;;
  check_convertible keep_prob tf_float32 ;;;
  add_op (Dropout x keep_prob) tf_float32 (tensor_shape x).

(** Static broadcasting of two dimensions. *)
Definition broadcast_dim (a b : Dimension) : result Dimension :=
  match a, b with
  | Some 1, d | d, Some 1 => Ok d
  | Some x, Some y => if x =? y then Ok (Some x) else Raise ValueError
  | Some x, None | None, Some x => Ok (Some x)
  | None, None => Ok None
  end.

(** Static broadcasting of two dimension lists given innermost first. *)
Fixpoint broadcast_rev (xs ys : list Dimension) : result (list Dimension) :=
  match xs, ys with
  | [], r | r, [] => Ok r
  | x :: xs', y :: ys' =>
      match broadcast_dim x y, broadcast_rev xs' ys' with
      | Ok d, Ok r => Ok (d :: r)
      | Raise e, _ | _, Raise e => Raise e
      end
  end.

Definition broadcast_shape (s t : TensorShape) : result TensorShape :=
  match s, t with
  | Some xs, Some ys =>
      match broadcast_rev (rev xs) (rev ys) with
      | Ok r => Ok (Some (rev r))
      | Raise e => Raise e
      end
  | _, _ => Ok None
  end.

(** An elementwise binary operation on two float tensors. *)
Definition binary_op (mk : Tensor -> Tensor -> op) (out : dtype)
    (x y : Tensor) : TF Tensor :=
  check_in_graph x ;;;
  check_in_graph y ;;;
  check_dtype x tf_float32 ;;;
  check_dtype y tf_float32 ;;;
  shape <- lift (broadcast_shape (tensor_shape x) (tensor_shape y)) ;;
  add_op (mk x y) out shape.

(** An elementwise unary operation on a float tensor. *)
Definition unary_op (mk : Tensor -> op) (x : Tensor) : TF Tensor :=
  check_in_graph x ;;;
  check_dtype x tf_float32 ;;;
  add_op (mk x) tf_float32 (tensor_shape x).

(** [x - y] on tensors *)
Definition tf_subtract : Tensor -> Tensor -> TF Tensor :=
  binary_op Sub tf_float32.

(** [x / y] on float tensors *)
Definition tf_truediv : Tensor -> Tensor -> TF Tensor :=
  binary_op RealDiv tf_float32.

(** [tf.square(x)] *)
Definition tf_square : Tensor -> TF Tensor := unary_op Square.

(** [tf.abs(x)] *)
Definition tf_abs : Tensor -> TF Tensor := unary_op Abs.

(** A Python number used where a tensor is expected becomes a constant. *)
Definition tf_constant (v : float32) : TF Tensor :=
  add_op (Const v) tf_float32 (Some []).

(** [tf.greater(x, c)] for a Python number [c] *)
Definition tf_greater (x : Tensor) (c : float32) : TF Tensor :=
  y <- tf_constant c ;;
  binary_op Greater tf_bool x y.

(** [tf.cast(x, dtype)] *)
Definition tf_cast (x : Tensor) (dt : dtype) : TF Tensor :=
  check_in_graph x ;;;
  add_op (Cast x dt) dt (tensor_shape x).

(** [tf.reduce_mean(x)]: the mean over all elements, a scalar. *)
Definition tf_reduce_mean (x : Tensor) : TF Tensor :=
  check_in_graph x ;;;
  check_dtype x tf_float32 ;;;
  add_op (Mean x) tf_float32 (Some []).

(** [tf.summary.scalar(name, x)] *)
Definition tf_summary_scalar (name : string) (x : Tensor) : TF Tensor :=
  check_in_graph x ;;;
  add_op (ScalarSummary name x) tf_string (Some []).

(** ** The builders of neural_network.py *)

(** [for x in xs: body], threading the variables the body rebinds. *)
Fixpoint for_each {A S : Type} (xs : list A) (body : A -> S -> TF S) (s : S)
  : TF S :=
  match xs with
  | [] => ret s
  | x :: xs' => s' <- body x s ;; for_each xs' body s'
  end.

(** [sqrt(2.0/dim_in)] *)
Definition he_stddev (dim_in : Dimension) : result PyFloat.float :=
  match dim_in with
  | None => Raise TypeError
  | Some d =>
      match PyFloat.truediv_int PyFloat.two d with
      | Ok ratio => PyFloat.sqrt ratio
      | Raise e => Raise e
      end
  end.

(** [dense_relu(inputs, units, seed, name)] *)
Definition dense_relu (inputs : Tensor) (units seed : Z) (name : string)
  : TF Tensor :=
  dims <- lift (as_list inputs) ;;
  dim_in <- lift (py_getitem dims 1) ;;
  with_name_scope name (
    stddev <- lift (he_stddev dim_in) ;;
    let kernel_init := truncated_normal_initializer stddev seed in
    dense_layer <- tf_layers_dense inputs units (Some tf_nn_relu)
                                   kernel_init ;;
    ret dense_layer).

(** [dense_relu_bn_drop(inputs, units, seed, training_phase, pkeep, name)],
    with the training flag and the keep probability given as tensors, as
    [dense_nn] gives them (its two placeholders); a Python [bool] or
    [float] in their place is not modelled. *)
Definition dense_relu_bn_drop (inputs : Tensor) (units seed : Z)
    (training_phase pkeep : Tensor) (name : string) : TF Tensor :=
  with_name_scope name (
    l1 <- dense_relu inputs units seed "dense_relu" ;;
    l2 <- tf_layers_batch_normalization l1 true true training_phase ;;
    output <- tf_nn_dropout l2 pkeep ;;
    ret output).

(** The named tuple ['nn'] returned by [dense_nn]. *)
Record NeuralNetwork : Type := mkNeuralNetwork {
  nn_inputs : Tensor;
  nn_labels : Tensor;
  nn_pkeep : Tensor;
  nn_training_phase : Tensor;
  nn_predictions : Tensor;
  nn_loss : Tensor;
  nn_err_2pc : Tensor;
  nn_err_1pc : Tensor
}.

(** The body of [with tf.name_scope('loss')] *)
Definition loss_block (prediction_layer labels : Tensor) : TF Tensor :=
  with_name_scope "loss" (
    diff <- tf_subtract prediction_layer labels ;;
    sq <- tf_square diff ;;
    loss <- tf_reduce_mean sq ;;
    tf_summary_scalar "loss" loss ;;;
    ret loss).

(** The body of [with tf.name_scope('accuracy')] *)
Definition accuracy_block (prediction_layer labels : Tensor)
  : TF (Tensor * Tensor) :=
  with_name_scope "accuracy" (
    diff <- tf_subtract prediction_layer labels ;;
    absdiff <- tf_abs diff ;;
    relative_error <- tf_truediv absdiff labels ;;
    close_prediction_2pc <- tf_greater relative_error (Fin (2 # 100)) ;;
    cast_2pc <- tf_cast close_prediction_2pc tf_float32 ;;
    err_2pc <- tf_reduce_mean cast_2pc ;;
    tf_summary_scalar "error_2pc" err_2pc ;;;
    close_prediction_1pc <- tf_greater relative_error (Fin (1 # 100)) ;;
    cast_1pc <- tf_cast close_prediction_1pc tf_float32 ;;
    err_1pc <- tf_reduce_mean cast_1pc ;;
    tf_summary_scalar "error_1pc" err_1pc ;;;
    ret (err_2pc, err_1pc)).

(** The body of the loop over the hidden layers after the first. *)
Definition hidden_layer_step (layer_sizes : list Z) (seed : Z)
    (training_phase pkeep : Tensor) (i : Z) (layers : list Tensor)
  : TF (list Tensor) :=
  previous <- lift (py_getitem layers i) ;;
  units <- lift (py_getitem layer_sizes (i + 1)) ;;
  hidden_layer <- dense_relu_bn_drop previous units seed training_phase pkeep
                    ("dense_hidden_" ++ py_str (i + 1)) ;;
  ret (layers ++ [hidden_layer]).

(** [dense_nn(nb_features, layer_sizes, nb_labels, seed)] *)
Definition dense_nn (nb_features : Z) (layer_sizes : list Z)
    (nb_labels seed : Z) : TF NeuralNetwork :=
  tf_reset_default_graph ;;;
  inputs <- tf_placeholder tf_float32 (Some [None; Some nb_features])
                           "inputs" ;;
  labels <- tf_placeholder tf_float32 (Some [None; Some nb_labels])
                           "labels" ;;
  training_phase <- tf_placeholder tf_bool None "training_phase" ;;
  pkeep <- tf_placeholder tf_float32 None "pkeep" ;;
  let nb_hidden_layers := Z.of_nat (length layer_sizes) in
  let layers := [] in
  units0 <- lift (py_getitem layer_sizes 0) ;;
  first_layer <- dense_relu_bn_drop inputs units0 seed training_phase pkeep
                   "dense_hidden_0" ;;
  let layers := layers ++ [first_layer] in
  layers <- for_each (py_range (nb_hidden_layers - 1))
              (hidden_layer_step layer_sizes seed training_phase pkeep)
              layers ;;
  last_layer <- lift (py_getitem layers (-1)) ;;
  prediction_layer <- dense_relu last_layer nb_labels seed "predictions" ;;
  loss <- loss_block prediction_layer labels ;;
  errs <- accuracy_block prediction_layer labels ;;
  ret (mkNeuralNetwork inputs labels pkeep training_phase prediction_layer
                       loss (fst errs) (snd errs)).

(** ** Facts about the host-side arithmetic *)

(** The float has its sign bit clear, or is not a number. *)
Definition sign_clear (x : spec_float) : Prop :=
  match x with
  | S754_zero s | S754_infinity s | S754_finite s _ _ => s = false
  | S754_nan => True
  end.

Lemma binary_round_aux_sign (prec emax : Z) (m e : Z) (l : location) :
  sign_clear (binary_round_aux prec emax false m e l).
Proof.
  unfold binary_round_aux.
  destruct (shr_fexp prec emax m e l) as [mrs' e'].
  destruct (shr_fexp prec emax _ e' loc_Exact) as [mrs'' e''].
  destruct (shr_m mrs''); simpl; trivial.
  destruct (e'' <=? emax - prec); simpl; trivial.
Qed.

Lemma of_pos_sign (prec emax : Z) (p : positive) :
  sign_clear (binary_normalize prec emax (Z.pos p) 0 false).
Proof.
  unfold binary_normalize, binary_round.
  destruct (shl_align _ _ _) as [mz ez].
  apply binary_round_aux_sign.
Qed.

Lemma SFdiv_sign (prec emax : Z) (x y : spec_float) :
  sign_clear x -> sign_clear y -> sign_clear (SFdiv prec emax x y).
Proof.
  destruct x as [sx|sx| |sx mx ex], y as [sy|sy| |sy my ey];
    simpl; intros Hx Hy; subst; trivial.
  destruct (SFdiv_core_binary _ _ _ _ _ _) as [[mz ez] lz].
  apply binary_round_aux_sign.
Qed.

Lemma sign_clear_not_below_zero (x : spec_float) :
  sign_clear x -> SFltb x PyFloat.zero = false.
Proof.
  destruct x as [s|s| |s m e]; simpl; intros H; subst; reflexivity.
Qed.

(** The value of [sqrt(2.0/d)] when no exception is raised. *)
Definition he_stddev_value (d : Z) : PyFloat.float :=
  SFsqrt PyFloat.prec PyFloat.emax
    (SFdiv PyFloat.prec PyFloat.emax PyFloat.two
       (binary_normalize PyFloat.prec PyFloat.emax d 0 false)).

Lemma dim_max_below_overflow : dim_max < 2 ^ 1024 - 2 ^ 970.
Proof. reflexivity. Qed.

Lemma he_stddev_positive_dim (d : Z) :
  0 < d <= dim_max -> he_stddev (Some d) = Ok (he_stddev_value d).
Proof.
  intros [Hpos Hmax].
  unfold he_stddev, PyFloat.truediv_int, PyFloat.of_int.
  pose proof dim_max_below_overflow as Hov.
  replace (2 ^ 1024 - 2 ^ 970 <=? Z.abs d) with false
    by (symmetry; apply Z.leb_gt; rewrite Z.abs_eq; lia).
  replace (d =? 0) with false by (symmetry; apply Z.eqb_neq; lia).
  unfold PyFloat.sqrt.
  rewrite sign_clear_not_below_zero; [reflexivity|].
  apply SFdiv_sign; [reflexivity|].
  destruct d as [|p|p]; try lia.
  apply of_pos_sign.
Qed.

(** ** Facts about the builders *)

Lemma py_getitem_nth {A : Type} (l : list A) (i : nat) (a : A) :
  nth_error l i = Some a -> py_getitem l (Z.of_nat i) = Ok a.
Proof.
  intros H. unfold py_getitem. cbv zeta.
  assert (Hlt : (i < length l)%nat) by (apply nth_error_Some; congruence).
  destruct (Z.ltb_spec (Z.of_nat i) 0) as [Hneg|_]; [lia|].
  destruct (Z.ltb_spec (Z.of_nat i) 0) as [Hneg|_]; [lia|].
  destruct (Z.leb_spec (Z.of_nat (length l)) (Z.of_nat i)) as [Hge|_]; [lia|].
  cbn [orb]. rewrite Nat2Z.id, H. reflexivity.
Qed.

Lemma py_getitem_last {A : Type} (l : list A) (a : A) :
  py_getitem (l ++ [a]) (-1) = Ok a.
Proof.
  unfold py_getitem. cbv zeta. rewrite length_app. cbn [length].
  change (-1 <? 0) with true. cbv iota.
  replace (-1 + Z.of_nat (length l + 1)) with (Z.of_nat (length l)) by lia.
  destruct (Z.ltb_spec (Z.of_nat (length l)) 0) as [Hneg|_]; [lia|].
  destruct (Z.leb_spec (Z.of_nat (length l + 1)) (Z.of_nat (length l)))
    as [Hge|_]; [lia|].
  cbn [orb]. rewrite Nat2Z.id, nth_error_app2, Nat.sub_diag by lia.
  reflexivity.
Qed.

(** *** One step of each framework call *)

Lemma in_graph_lt (t : Tensor) (g : Graph) :
  in_graph t g = true <-> (tensor_id t < length (nodes g))%nat.
Proof. unfold in_graph. apply Nat.ltb_lt. Qed.

(** Membership goals reduce to arithmetic on the lengths of node lists. *)
Ltac solve_in_graph :=
  rewrite ?in_graph_lt in *; cbn [nodes tensor_id] in *;
  rewrite ?length_app in *; cbn [length] in *; lia.

Lemma check_in_graph_ok (t : Tensor) (g : Graph) :
  in_graph t g = true -> check_in_graph t g = Ok (tt, g).
Proof. intros H. unfold check_in_graph. rewrite H. reflexivity. Qed.

Lemma check_dtype_ok (t : Tensor) (dt : dtype) (g : Graph) :
  tensor_dtype t = dt -> check_dtype t dt g = Ok (tt, g).
Proof.
  intros <-. unfold check_dtype.
  destruct (tensor_dtype t); reflexivity.
Qed.

Lemma tf_layers_batch_normalization_ok (inputs training : Tensor)
    (center scale : bool) (g : Graph) :
  in_graph inputs g = true -> in_graph training g = true ->
  tensor_dtype inputs = tf_float32 -> tensor_dtype training = tf_bool ->
  tf_layers_batch_normalization inputs center scale training g =
    add_op (BatchNormalization inputs center scale training) tf_float32
           (tensor_shape inputs) g.
Proof.
  intros Hi Ht Hdi Hdt. unfold tf_layers_batch_normalization, bind.
  rewrite (check_in_graph_ok _ _ Hi), (check_in_graph_ok _ _ Ht),
    (check_dtype_ok _ _ _ Hdi), (check_dtype_ok _ _ _ Hdt).
  reflexivity.
Qed.

Lemma check_convertible_ok (t : Tensor) (dt : dtype) (g : Graph) :
  tensor_dtype t = dt -> check_convertible t dt g = Ok (tt, g).
Proof.
  intros <-. unfold check_convertible.
  destruct (tensor_dtype t); reflexivity.
Qed.

Lemma tf_nn_dropout_ok (x keep_prob : Tensor) (g : Graph) :
  in_graph x g = true -> in_graph keep_prob g = true ->
  tensor_dtype x = tf_float32 -> tensor_dtype keep_prob = tf_float32 ->
  tf_nn_dropout x keep_prob g =
    add_op (Dropout x keep_prob) tf_float32 (tensor_shape x) g.
Proof.
  intros Hx Hk Hdx Hdk. unfold tf_nn_dropout, bind.
  rewrite (check_in_graph_ok _ _ Hx), (check_in_graph_ok _ _ Hk),
    (check_dtype_ok _ _ _ Hdx), (check_convertible_ok _ _ _ Hdk).
  reflexivity.
Qed.

Lemma binary_op_ok (mk : Tensor -> Tensor -> op) (out : dtype)
    (x y : Tensor) (shape : TensorShape) (g : Graph) :
  in_graph x g = true -> in_graph y g = true ->
  tensor_dtype x = tf_float32 -> tensor_dtype y = tf_float32 ->
  broadcast_shape (tensor_shape x) (tensor_shape y) = Ok shape ->
  binary_op mk out x y g = add_op (mk x y) out shape g.
Proof.
  intros Hx Hy Hdx Hdy Hb. unfold binary_op, bind, lift.
  rewrite (check_in_graph_ok _ _ Hx), (check_in_graph_ok _ _ Hy),
    (check_dtype_ok _ _ _ Hdx), (check_dtype_ok _ _ _ Hdy), Hb.
  reflexivity.
Qed.

Lemma unary_op_ok (mk : Tensor -> op) (x : Tensor) (g : Graph) :
  in_graph x g = true -> tensor_dtype x = tf_float32 ->
  unary_op mk x g = add_op (mk x) tf_float32 (tensor_shape x) g.
Proof.
  intros Hx Hdx. unfold unary_op, bind.
  rewrite (check_in_graph_ok _ _ Hx), (check_dtype_ok _ _ _ Hdx).
  reflexivity.
Qed.

Lemma tf_cast_ok (x : Tensor) (dt : dtype) (g : Graph) :
  in_graph x g = true ->
  tf_cast x dt g = add_op (Cast x dt) dt (tensor_shape x) g.
Proof.
  intros Hx. unfold tf_cast, bind.
  rewrite (check_in_graph_ok _ _ Hx). reflexivity.
Qed.

Lemma tf_reduce_mean_ok (x : Tensor) (g : Graph) :
  in_graph x g = true -> tensor_dtype x = tf_float32 ->
  tf_reduce_mean x g = add_op (Mean x) tf_float32 (Some []) g.
Proof.
  intros Hx Hdx. unfold tf_reduce_mean, bind.
  rewrite (check_in_graph_ok _ _ Hx), (check_dtype_ok _ _ _ Hdx).
  reflexivity.
Qed.

Lemma tf_summary_scalar_ok (name : string) (x : Tensor) (g : Graph) :
  in_graph x g = true ->
  tf_summary_scalar name x g =
    add_op (ScalarSummary name x) tf_string (Some []) g.
Proof.
  intros Hx. unfold tf_summary_scalar, bind.
  rewrite (check_in_graph_ok _ _ Hx). reflexivity.
Qed.

(** What [dense_relu] asks of its input: a float tensor of the current
    graph whose static shape has a positive second dimension [dim_in] and a
    known last dimension. *)
Record dense_input (g : Graph) (inputs : Tensor) (dims : list Dimension)
    (dim_in : Z) : Prop := {
  di_in_graph : in_graph inputs g = true;
  di_dtype : tensor_dtype inputs = tf_float32;
  di_shape : tensor_shape inputs = Some dims;
  di_dim_in : nth_error dims 1 = Some (Some dim_in);
  di_positive : 0 < dim_in <= dim_max;
  di_last : last dims None <> None
}.

(** The operation [dense_relu] registers. *)
Definition dense_relu_node (scope : list string) (inputs : Tensor)
    (units seed : Z) (dims : list Dimension) (dim_in : Z) : node :=
  mkNode scope
    (Dense inputs units (Some tf_nn_relu)
       (truncated_normal_initializer (he_stddev_value dim_in) seed))
    tf_float32 (Some (removelast dims ++ [Some units])).

(** The kernel of a dense layer of [units] units on an input of the static
    dimensions [dims] fits. *)
Definition kernel_ok (dims : list Dimension) (units : Z) : Prop :=
  forall d, last dims None = Some d -> kernel_fits d units = true.

Lemma dense_relu_ok (g : Graph) (inputs : Tensor) (dims : list Dimension)
    (dim_in units seed : Z) (name : string) :
  dense_input g inputs dims dim_in ->
  valid_dim (Some units) = true ->
  kernel_ok dims units ->
  dense_relu inputs units seed name g =
    Ok (mkTensor (length (nodes g)) tf_float32
          (Some (removelast dims ++ [Some units])),
        mkGraph
          (nodes g ++
             [dense_relu_node (scopes g ++ [name]) inputs units seed dims
                dim_in])
          (scopes g)).
Proof.
  intros [Hin Hdt Hshape Hdim Hpos Hlast] Hunits Hfits.
  assert (Hlen : (1 < length dims)%nat)
    by (apply nth_error_Some; congruence).
  unfold dense_relu, bind, lift, as_list.
  rewrite Hshape.
  change 1 with (Z.of_nat 1).
  rewrite (py_getitem_nth dims 1 (Some dim_in) Hdim).
  unfold with_name_scope, bind, lift.
  rewrite (he_stddev_positive_dim dim_in Hpos).
  unfold tf_layers_dense, bind, check_in_graph, check_dtype, in_graph in *.
  cbn [nodes scopes].
  rewrite Hin, Hdt, Hshape. cbn [dtype_eqb ret].
  replace (length dims <? 2)%nat with false
    by (symmetry; apply Nat.ltb_ge; lia).
  destruct (last dims None) as [dl|] eqn:El; [|congruence].
  rewrite Hunits, (Hfits dl El). reflexivity.
Qed.

(** The three operations [dense_relu_bn_drop] registers, in order. *)
Definition regularized_nodes (scope : list string) (base : nat)
    (inputs : Tensor) (units seed : Z) (training_phase pkeep : Tensor)
    (dims : list Dimension) (dim_in : Z) : list node :=
  let shape := Some (removelast dims ++ [Some units]) in
  [ dense_relu_node (scope ++ ["dense_relu"%string]) inputs units seed dims
      dim_in;
    mkNode scope
      (BatchNormalization (mkTensor base tf_float32 shape) true true
         training_phase)
      tf_float32 shape;
    mkNode scope
      (Dropout (mkTensor (S base) tf_float32 shape) pkeep)
      tf_float32 shape ].

Lemma dense_relu_bn_drop_ok (g : Graph) (inputs : Tensor)
    (dims : list Dimension) (dim_in units seed : Z)
    (training_phase pkeep : Tensor) (name : string) :
  dense_input g inputs dims dim_in ->
  valid_dim (Some units) = true ->
  kernel_ok dims units ->
  in_graph training_phase g = true -> tensor_dtype training_phase = tf_bool ->
  in_graph pkeep g = true -> tensor_dtype pkeep = tf_float32 ->
  dense_relu_bn_drop inputs units seed training_phase pkeep name g =
    Ok (mkTensor (S (S (length (nodes g)))) tf_float32
          (Some (removelast dims ++ [Some units])),
        mkGraph
          (nodes g ++
             regularized_nodes (scopes g ++ [name]) (length (nodes g)) inputs
               units seed training_phase pkeep dims dim_in)
          (scopes g)).
Proof.
  intros Hinput Hunits Hfits Htp Htpd Hpk Hpkd.
  unfold dense_relu_bn_drop, with_name_scope, bind.
  assert (Hinput' : dense_input (mkGraph (nodes g) (scopes g ++ [name]))
                      inputs dims dim_in)
    by (destruct Hinput; constructor; assumption).
  rewrite (dense_relu_ok _ inputs dims dim_in units seed _ Hinput' Hunits
             Hfits).
  cbn [nodes scopes].
  rewrite tf_layers_batch_normalization_ok;
    [ | solve_in_graph | solve_in_graph | reflexivity | assumption ].
  unfold add_op at 1. cbn [nodes scopes tensor_shape].
  rewrite tf_nn_dropout_ok;
    [ | solve_in_graph | solve_in_graph | reflexivity | assumption ].
  unfold add_op, ret, regularized_nodes.
  cbn [nodes scopes tensor_shape].
  rewrite !length_app. cbn [length].
  rewrite <- !app_assoc. cbn [app].
  rewrite ?Nat.add_0_r, ?Nat.add_1_r.
  reflexivity.
Qed.

(** *** The metric blocks *)

Lemma broadcast_same (n : Z) :
  broadcast_shape (Some [None; Some n]) (Some [None; Some n]) =
    Ok (Some [None; Some n]).
Proof.
  unfold broadcast_shape. cbn [rev app broadcast_rev broadcast_dim].
  destruct n as [|[p|p|]|p]; cbn; rewrite ?Pos.eqb_refl; reflexivity.
Qed.

(** The operations registered under the name scope ['loss']. *)
Definition loss_nodes (scope : list string) (base : nat)
    (prediction_layer labels : Tensor) (shape : TensorShape) : list node :=
  let sc := scope ++ ["loss"%string] in
  [ mkNode sc (Sub prediction_layer labels) tf_float32 shape;
    mkNode sc (Square (mkTensor base tf_float32 shape)) tf_float32 shape;
    mkNode sc (Mean (mkTensor (base + 1) tf_float32 shape)) tf_float32
      (Some []);
    mkNode sc (ScalarSummary "loss" (mkTensor (base + 2) tf_float32 (Some [])))
      tf_string (Some []) ].

(** The operations registered under the name scope ['accuracy']. *)
Definition accuracy_nodes (scope : list string) (base : nat)
    (prediction_layer labels : Tensor) (shape : TensorShape) : list node :=
  let sc := scope ++ ["accuracy"%string] in
  let f32 := fun k sh => mkTensor (base + k) tf_float32 sh in
  [ mkNode sc (Sub prediction_layer labels) tf_float32 shape;
    mkNode sc (Abs (f32 0%nat shape)) tf_float32 shape;
    mkNode sc (RealDiv (f32 1%nat shape) labels) tf_float32 shape;
    mkNode sc (Const (Fin (2 # 100))) tf_float32 (Some []);
    mkNode sc (Greater (f32 2%nat shape) (f32 3%nat (Some []))) tf_bool shape;
    mkNode sc (Cast (mkTensor (base + 4) tf_bool shape) tf_float32)
      tf_float32 shape;
    mkNode sc (Mean (f32 5%nat shape)) tf_float32 (Some []);
    mkNode sc (ScalarSummary "error_2pc" (f32 6%nat (Some []))) tf_string
      (Some []);
    mkNode sc (Const (Fin (1 # 100))) tf_float32 (Some []);
    mkNode sc (Greater (f32 2%nat shape) (f32 8%nat (Some []))) tf_bool shape;
    mkNode sc (Cast (mkTensor (base + 9) tf_bool shape) tf_float32)
      tf_float32 shape;
    mkNode sc (Mean (f32 10%nat shape)) tf_float32 (Some []);
    mkNode sc (ScalarSummary "error_1pc" (f32 11%nat (Some []))) tf_string
      (Some []) ].

(** One framework call whose checks pass: rewrite it into [add_op] and
    register the operation. *)
Ltac tf_call lem :=
  rewrite lem;
  [ unfold add_op at 1;
    cbn [nodes scopes tensor_shape tensor_dtype tensor_id];
    rewrite ?length_app; cbn [length];
    rewrite <- ?app_assoc; cbn [app]
  | first [ solve_in_graph | reflexivity | assumption
          | apply broadcast_same ] .. ].

Lemma loss_block_ok (g : Graph) (prediction_layer labels : Tensor) (n : Z) :
  in_graph prediction_layer g = true -> in_graph labels g = true ->
  tensor_dtype prediction_layer = tf_float32 ->
  tensor_dtype labels = tf_float32 ->
  tensor_shape prediction_layer = Some [None; Some n] ->
  tensor_shape labels = Some [None; Some n] ->
  loss_block prediction_layer labels g =
    Ok (mkTensor (length (nodes g) + 2) tf_float32 (Some []),
        mkGraph
          (nodes g ++
             loss_nodes (scopes g) (length (nodes g)) prediction_layer labels
               (Some [None; Some n]))
          (scopes g)).
Proof.
  intros Hp Hl Hdp Hdl Hsp Hsl.
  unfold loss_block, with_name_scope, tf_subtract, tf_square, bind.
  rewrite (binary_op_ok Sub tf_float32 _ _ (Some [None; Some n]));
    [ | solve_in_graph | solve_in_graph | assumption | assumption
      | rewrite Hsp, Hsl; apply broadcast_same ].
  unfold add_op at 1. cbn [nodes scopes].
  tf_call unary_op_ok.
  tf_call tf_reduce_mean_ok.
  tf_call tf_summary_scalar_ok.
  unfold ret, loss_nodes.
  rewrite ?Nat.add_0_r, <- ?Nat.add_assoc. cbn [Nat.add].
  reflexivity.
Qed.

Lemma broadcast_scalar (n : Z) :
  broadcast_shape (Some [None; Some n]) (Some []) = Ok (Some [None; Some n]).
Proof. reflexivity. Qed.

Lemma tf_greater_ok (x : Tensor) (c : float32) (n : Z) (g : Graph) :
  in_graph x g = true -> tensor_dtype x = tf_float32 ->
  tensor_shape x = Some [None; Some n] ->
  tf_greater x c g =
    Ok (mkTensor (length (nodes g) + 1) tf_bool (Some [None; Some n]),
        mkGraph
          (nodes g ++
             [ mkNode (scopes g) (Const c) tf_float32 (Some []);
               mkNode (scopes g)
                 (Greater x (mkTensor (length (nodes g)) tf_float32 (Some [])))
                 tf_bool (Some [None; Some n]) ])
          (scopes g)).
Proof.
  intros Hx Hdx Hsx.
  unfold tf_greater, tf_constant, bind.
  unfold add_op at 1.
  rewrite (binary_op_ok Greater tf_bool _ _ (Some [None; Some n]));
    [ | solve_in_graph | solve_in_graph | assumption | reflexivity
      | rewrite Hsx; apply broadcast_scalar ].
  unfold add_op. cbn [nodes scopes].
  rewrite length_app, <- app_assoc. reflexivity.
Qed.

Lemma accuracy_block_ok (g : Graph) (prediction_layer labels : Tensor)
    (n : Z) :
  in_graph prediction_layer g = true -> in_graph labels g = true ->
  tensor_dtype prediction_layer = tf_float32 ->
  tensor_dtype labels = tf_float32 ->
  tensor_shape prediction_layer = Some [None; Some n] ->
  tensor_shape labels = Some [None; Some n] ->
  accuracy_block prediction_layer labels g =
    Ok ((mkTensor (length (nodes g) + 6) tf_float32 (Some []),
         mkTensor (length (nodes g) + 11) tf_float32 (Some [])),
        mkGraph
          (nodes g ++
             accuracy_nodes (scopes g) (length (nodes g)) prediction_layer
               labels (Some [None; Some n]))
          (scopes g)).
Proof.
  intros Hp Hl Hdp Hdl Hsp Hsl.
  unfold accuracy_block, with_name_scope, tf_subtract, tf_abs, tf_truediv,
    bind.
  rewrite (binary_op_ok Sub tf_float32 _ _ (Some [None; Some n]));
    [ | solve_in_graph | solve_in_graph | assumption | assumption
      | rewrite Hsp, Hsl; apply broadcast_same ].
  unfold add_op at 1. cbn [nodes scopes].
  tf_call unary_op_ok.
  rewrite (binary_op_ok RealDiv tf_float32 _ _ (Some [None; Some n]));
    [ | solve_in_graph | solve_in_graph | reflexivity | assumption
      | rewrite Hsl; apply broadcast_same ].
  unfold add_op at 1. cbn [nodes scopes].
  rewrite ?length_app; cbn [length]; rewrite <- ?app_assoc; cbn [app].
  rewrite (tf_greater_ok _ _ n);
    [ | solve_in_graph | reflexivity | reflexivity ].
  cbn [nodes scopes].
  rewrite ?length_app; cbn [length]; rewrite <- ?app_assoc; cbn [app].
  tf_call tf_cast_ok.
  tf_call tf_reduce_mean_ok.
  tf_call tf_summary_scalar_ok.
  rewrite (tf_greater_ok _ _ n);
    [ | solve_in_graph | reflexivity | reflexivity ].
  cbn [nodes scopes].
  rewrite ?length_app; cbn [length]; rewrite <- ?app_assoc; cbn [app].
  tf_call tf_cast_ok.
  tf_call tf_reduce_mean_ok.
  tf_call tf_summary_scalar_ok.
  unfold ret, accuracy_nodes.
  rewrite ?Nat.add_0_r, <- ?Nat.add_assoc. cbn [Nat.add].
  reflexivity.
Qed.

(** *** The stack of hidden layers *)

Definition positive_dim (n : Z) : Prop := 0 < n <= dim_max.

Lemma positive_dim_valid (n : Z) :
  positive_dim n -> valid_dim (Some n) = true.
Proof.
  intros [Hpos Hmax]. unfold valid_dim.
  apply andb_true_intro; split; apply Z.leb_le; lia.
Qed.

(** The output handle of the regularized layer whose three operations
    start at position [base]. *)
Definition layer_output (base : nat) (units : Z) : Tensor :=
  mkTensor (base + 2) tf_float32 (Some [None; Some units]).

(** The operations of the hidden layers number [i], [i+1], ... of widths
    [sizes], the first one reading [previous] and registered at position
    [base]. *)
Fixpoint hidden_stack (seed : Z) (training_phase pkeep : Tensor)
    (base : nat) (previous : Tensor) (dim_in : Z) (i : nat) (sizes : list Z)
  : list node :=
  match sizes with
  | [] => []
  | units :: rest =>
      regularized_nodes [("dense_hidden_" ++ py_str (Z.of_nat i))%string]
        base previous units seed training_phase pkeep [None; Some dim_in]
        dim_in
      ++ hidden_stack seed training_phase pkeep (base + 3)
           (layer_output base units) units (S i) rest
  end.

(** The output handles of these layers. *)
Fixpoint stack_outputs (base : nat) (sizes : list Z) : list Tensor :=
  match sizes with
  | [] => []
  | units :: rest => layer_output base units :: stack_outputs (base + 3) rest
  end.

Lemma hidden_stack_length seed tp pk base previous dim_in i sizes :
  length (hidden_stack seed tp pk base previous dim_in i sizes) =
    (3 * length sizes)%nat.
Proof.
  revert base previous dim_in i.
  induction sizes as [|u rest IH]; intros; [reflexivity|].
  cbn [hidden_stack]. rewrite length_app, IH. cbn [length regularized_nodes].
  lia.
Qed.

Lemma stack_outputs_length base sizes :
  length (stack_outputs base sizes) = length sizes.
Proof.
  revert base. induction sizes as [|u rest IH]; intros; [reflexivity|].
  cbn [stack_outputs length]. rewrite IH. reflexivity.
Qed.

Lemma stack_outputs_last base sizes u d :
  last (stack_outputs base (sizes ++ [u])) d =
    layer_output (base + 3 * length sizes) u.
Proof.
  revert base. induction sizes as [|v rest IH]; intros base.
  - cbn. rewrite Nat.add_0_r. reflexivity.
  - cbn [app stack_outputs].
    change (last (?a :: stack_outputs ?b (rest ++ [u])) d)
      with (match stack_outputs b (rest ++ [u]) with
            | [] => a
            | _ :: _ => last (stack_outputs b (rest ++ [u])) d
            end).
    destruct (stack_outputs (base + 3) (rest ++ [u])) eqn:E.
    + apply (f_equal (@length _)) in E.
      rewrite stack_outputs_length, length_app in E. cbn in E. lia.
    + rewrite <- E, IH. cbn [length]. f_equal. lia.
Qed.

Lemma last_cons {A : Type} (a d : A) (l : list A) :
  last (a :: l) d = last l a.
Proof.
  revert a d. induction l as [|b l IH]; intros a d; [reflexivity|].
  change (last (a :: b :: l) d) with (last (b :: l) d).
  rewrite (IH b d), (IH b a). reflexivity.
Qed.

(** A layer of [units] units can be built on [dim_in] columns: the unit
    count is a dimension and the kernel fits. *)
Definition valid_units (dim_in units : Z) : bool :=
  valid_dim (Some units) && kernel_fits dim_in units.

Lemma valid_units_dim (dim_in units : Z) :
  valid_units dim_in units = true -> valid_dim (Some units) = true.
Proof. unfold valid_units. intros H. apply andb_prop in H. apply H. Qed.

Lemma valid_units_kernel (dim_in units : Z) :
  valid_units dim_in units = true -> kernel_ok [None; Some dim_in] units.
Proof.
  unfold valid_units. intros H d Hd. apply andb_prop in H.
  cbn in Hd. injection Hd as <-. apply H.
Qed.

(** [dense_relu] on a rank-two float input: the three outcomes. *)
Lemma dense_relu_zero_dim (g : Graph) (inputs : Tensor) (units seed : Z)
    (name : string) :
  tensor_shape inputs = Some [None; Some 0] ->
  dense_relu inputs units seed name g = Raise ZeroDivisionError.
Proof.
  intros Hsh. unfold dense_relu, bind, lift, as_list. rewrite Hsh.
  reflexivity.
Qed.

Lemma dense_relu_bad_units (g : Graph) (inputs : Tensor)
    (dim_in units seed : Z) (name : string) :
  in_graph inputs g = true ->
  tensor_dtype inputs = tf_float32 ->
  tensor_shape inputs = Some [None; Some dim_in] ->
  positive_dim dim_in ->
  valid_units dim_in units = false ->
  dense_relu inputs units seed name g = Raise ValueError.
Proof.
  intros Hin Hdt Hsh Hdim Hunits.
  unfold dense_relu, bind, lift, as_list. rewrite Hsh.
  change (py_getitem [None; Some dim_in] 1) with (Ok (Some dim_in)).
  unfold with_name_scope, bind, lift.
  rewrite (he_stddev_positive_dim dim_in Hdim).
  unfold tf_layers_dense, bind.
  rewrite check_in_graph_ok by exact Hin.
  rewrite (check_dtype_ok _ _ _ Hdt), Hsh.
  cbn [length Nat.ltb Nat.leb last].
  fold (valid_units dim_in units). rewrite Hunits. reflexivity.
Qed.

Lemma regularized_nodes_dense_nn (g : Graph) (previous : Tensor)
    (dim_in units seed : Z) (training_phase pkeep : Tensor) (name : string) :
  in_graph previous g = true ->
  tensor_dtype previous = tf_float32 ->
  tensor_shape previous = Some [None; Some dim_in] ->
  positive_dim dim_in -> valid_units dim_in units = true ->
  in_graph training_phase g = true -> tensor_dtype training_phase = tf_bool ->
  in_graph pkeep g = true -> tensor_dtype pkeep = tf_float32 ->
  dense_relu_bn_drop previous units seed training_phase pkeep name g =
    Ok (layer_output (length (nodes g)) units,
        mkGraph
          (nodes g ++
             regularized_nodes (scopes g ++ [name]) (length (nodes g))
               previous units seed training_phase pkeep [None; Some dim_in]
               dim_in)
          (scopes g)).
Proof.
  intros Hin Hdt Hsh Hdim Hunits Htp Htpd Hpk Hpkd.
  rewrite (dense_relu_bn_drop_ok g previous [None; Some dim_in] dim_in);
    try assumption.
  - unfold layer_output. rewrite Nat.add_comm. reflexivity.
  - constructor; try assumption; [reflexivity | cbn; discriminate].
  - apply (valid_units_dim dim_in), Hunits.
  - apply valid_units_kernel, Hunits.
Qed.

(** A regularized layer on a rank-two float input fails when the input
    has no column, the unit count is not a dimension or the kernel does
    not fit. *)
Lemma dense_relu_bn_drop_fails (g : Graph) (previous : Tensor)
    (dim_in units seed : Z) (training_phase pkeep : Tensor) (name : string) :
  in_graph previous g = true ->
  tensor_dtype previous = tf_float32 ->
  tensor_shape previous = Some [None; Some dim_in] ->
  valid_dim (Some dim_in) = true ->
  ~ (positive_dim dim_in /\ valid_units dim_in units = true) ->
  exists e,
    dense_relu_bn_drop previous units seed training_phase pkeep name g =
      Raise e.
Proof.
  intros Hin Hdt Hsh Hvalid Hbad.
  unfold dense_relu_bn_drop, with_name_scope, bind.
  destruct (Z.eq_dec dim_in 0) as [->|Hnz].
  - rewrite dense_relu_zero_dim by assumption. eexists. reflexivity.
  - assert (Hpos : positive_dim dim_in).
    { unfold valid_dim in Hvalid. apply andb_prop in Hvalid.
      destruct Hvalid as [H0 Hmax].
      apply Z.leb_le in H0. apply Z.leb_le in Hmax.
      unfold positive_dim. lia. }
    destruct (valid_units dim_in units) eqn:Hunits.
    + exfalso. apply Hbad. split; [assumption | reflexivity].
    + rewrite (dense_relu_bad_units _ _ dim_in) by assumption.
      eexists. reflexivity.
Qed.

(** The widths the loop can still build from an input of [dim_in]
    columns: every layer needs a positive number of input columns, a
    unit count that is a dimension and a kernel that fits. *)
Fixpoint chain_ok (dim_in : Z) (rest : list Z) : Prop :=
  match rest with
  | [] => True
  | units :: rest' =>
      positive_dim dim_in /\ valid_units dim_in units = true /\
      chain_ok units rest'
  end.

(** Every kernel of a chain of widths fits: the product of two
    consecutive widths is at most [dim_max]. *)
Fixpoint kernels_fit (dim_in : Z) (rest : list Z) : Prop :=
  match rest with
  | [] => True
  | units :: rest' => kernel_fits dim_in units = true /\ kernels_fit units rest'
  end.

Lemma kernels_fit_app (dim_in : Z) (front back : list Z) :
  kernels_fit dim_in (front ++ back) <->
  kernels_fit dim_in front /\ kernels_fit (last front dim_in) back.
Proof.
  revert dim_in. induction front as [|u front IH]; intros d; cbn [app].
  - cbn. tauto.
  - rewrite last_cons. cbn [kernels_fit]. rewrite IH. tauto.
Qed.

Lemma chain_ok_positive (dim_in : Z) (rest : list Z) :
  positive_dim dim_in -> Forall positive_dim rest ->
  kernels_fit dim_in rest -> chain_ok dim_in rest.
Proof.
  revert dim_in. induction rest as [|u rest IH]; intros d Hd Hrest Hfit;
    [exact I|].
  inversion Hrest; subst. destruct Hfit as [Hfit Hfits]. cbn [chain_ok].
  split; [assumption|]. split.
  - unfold valid_units. rewrite positive_dim_valid by assumption. exact Hfit.
  - apply IH; assumption.
Qed.

(** The state of [dense_nn] when it enters an iteration of its loop:
    [layers] holds one handle per width of [built], the last of them,
    [previous], has [dim_in] columns. *)
Record loop_ready (g : Graph) (training_phase pkeep : Tensor)
    (layers : list Tensor) (built : list Z) (previous : Tensor)
    (dim_in : Z) : Prop := {
  lr_length : length layers = length built;
  lr_previous : nth_error layers (length built - 1) = Some previous;
  lr_built : built <> [];
  lr_scopes : scopes g = [];
  lr_in_graph : in_graph previous g = true;
  lr_dtype : tensor_dtype previous = tf_float32;
  lr_shape : tensor_shape previous = Some [None; Some dim_in];
  lr_dim : valid_dim (Some dim_in) = true;
  lr_training : in_graph training_phase g = true;
  lr_training_dtype : tensor_dtype training_phase = tf_bool;
  lr_pkeep : in_graph pkeep g = true;
  lr_pkeep_dtype : tensor_dtype pkeep = tf_float32
}.

Lemma loop_ready_next (g : Graph) (training_phase pkeep : Tensor)
    (layers : list Tensor) (built : list Z) (previous : Tensor)
    (dim_in units seed : Z) (scope : list string) :
  loop_ready g training_phase pkeep layers built previous dim_in ->
  valid_dim (Some units) = true ->
  loop_ready
    (mkGraph
       (nodes g ++
          regularized_nodes scope (length (nodes g)) previous units seed
            training_phase pkeep [None; Some dim_in] dim_in)
       (scopes g))
    training_phase pkeep
    (layers ++ [layer_output (length (nodes g)) units]) (built ++ [units])
    (layer_output (length (nodes g)) units) units.
Proof.
  intros [Hlen Hprev Hne Hsc Hin Hdt Hsh Hdim Htp Htpd Hpk Hpkd] Hunits.
  constructor; try assumption; try reflexivity.
  - rewrite !length_app. cbn. lia.
  - rewrite length_app. cbn [length].
    rewrite nth_error_app2 by lia.
    replace (length built + 1 - 1 - length layers)%nat with 0%nat by lia.
    reflexivity.
  - destruct built; discriminate.
  - unfold layer_output, regularized_nodes. solve_in_graph.
  - unfold regularized_nodes. solve_in_graph.
  - unfold regularized_nodes. solve_in_graph.
Qed.

(** One iteration of the loop whose layer can be built. *)
Lemma hidden_layer_step_ok (seed : Z) (training_phase pkeep : Tensor)
    (built rest : list Z) (units : Z) (layers : list Tensor)
    (previous : Tensor) (dim_in : Z) (g : Graph) :
  loop_ready g training_phase pkeep layers built previous dim_in ->
  positive_dim dim_in -> valid_units dim_in units = true ->
  hidden_layer_step (built ++ units :: rest) seed training_phase pkeep
    (Z.of_nat (length built - 1)) layers g =
    Ok (layers ++ [layer_output (length (nodes g)) units],
        mkGraph
          (nodes g ++
             regularized_nodes
               [("dense_hidden_" ++ py_str (Z.of_nat (length built)))%string]
               (length (nodes g)) previous units seed training_phase pkeep
               [None; Some dim_in] dim_in)
          (scopes g)).
Proof.
  intros Hready Hdim Hunits.
  pose proof Hready as [Hlen Hprev Hne Hsc Hin Hdt Hsh _ Htp Htpd Hpk Hpkd].
  assert (Hpos : (0 < length built)%nat)
    by (destruct built; [congruence | cbn; lia]).
  unfold hidden_layer_step, bind, lift.
  rewrite (py_getitem_nth layers _ previous Hprev).
  replace (Z.of_nat (length built - 1) + 1) with (Z.of_nat (length built))
    by lia.
  rewrite (py_getitem_nth (built ++ units :: rest) (length built) units)
    by (rewrite nth_error_app2, Nat.sub_diag by lia; reflexivity).
  rewrite (regularized_nodes_dense_nn g previous dim_in units);
    try assumption.
  rewrite Hsc. reflexivity.
Qed.

(** One iteration of the loop whose layer cannot be built. *)
Lemma hidden_layer_step_fails (seed : Z) (training_phase pkeep : Tensor)
    (built rest : list Z) (units : Z) (layers : list Tensor)
    (previous : Tensor) (dim_in : Z) (g : Graph) :
  loop_ready g training_phase pkeep layers built previous dim_in ->
  ~ (positive_dim dim_in /\ valid_units dim_in units = true) ->
  exists e,
    hidden_layer_step (built ++ units :: rest) seed training_phase pkeep
      (Z.of_nat (length built - 1)) layers g = Raise e.
Proof.
  intros Hready Hbad.
  pose proof Hready as [Hlen Hprev Hne Hsc Hin Hdt Hsh Hd Htp Htpd Hpk Hpkd].
  assert (Hpos : (0 < length built)%nat)
    by (destruct built; [congruence | cbn; lia]).
  unfold hidden_layer_step, bind, lift.
  rewrite (py_getitem_nth layers _ previous Hprev).
  replace (Z.of_nat (length built - 1) + 1) with (Z.of_nat (length built))
    by lia.
  rewrite (py_getitem_nth (built ++ units :: rest) (length built) units)
    by (rewrite nth_error_app2, Nat.sub_diag by lia; reflexivity).
  destruct (dense_relu_bn_drop_fails g previous dim_in units seed
              training_phase pkeep
              ("dense_hidden_" ++ py_str (Z.of_nat (length built)))
              Hin Hdt Hsh Hd Hbad) as [e He].
  rewrite He. exists e. reflexivity.
Qed.

Lemma loop_indices (built rest : list Z) (units : Z) :
  built <> [] ->
  map Z.of_nat (seq (length built - 1) (length (units :: rest))) =
    Z.of_nat (length built - 1)
    :: map Z.of_nat (seq (length (built ++ [units]) - 1) (length rest)).
Proof.
  intros Hne. cbn [length seq map]. rewrite length_app. cbn [length].
  replace (length built + 1 - 1)%nat with (S (length built - 1))
    by (destruct built; [congruence | cbn; lia]).
  reflexivity.
Qed.

(** The loop of [dense_nn] after the hidden layers of widths [built] have
    been built, when those of widths [rest] can be. *)
Lemma hidden_loop_ok (seed : Z) (training_phase pkeep : Tensor)
    (rest built : list Z) :
  forall (layers : list Tensor) (previous : Tensor) (dim_in : Z) (g : Graph),
    loop_ready g training_phase pkeep layers built previous dim_in ->
    chain_ok dim_in rest ->
    for_each (map Z.of_nat (seq (length built - 1) (length rest)))
      (hidden_layer_step (built ++ rest) seed training_phase pkeep) layers g =
      Ok (layers ++ stack_outputs (length (nodes g)) rest,
          mkGraph
            (nodes g ++
               hidden_stack seed training_phase pkeep (length (nodes g))
                 previous dim_in (length built) rest)
            []).
Proof.
  revert built.
  induction rest as [|units rest IH];
    intros built layers previous dim_in g Hready Hchain.
  - cbn. unfold ret. rewrite !app_nil_r, <- (lr_scopes _ _ _ _ _ _ _ Hready).
    destruct g; reflexivity.
  - destruct Hchain as [Hdim [Hunits Hchain]].
    rewrite (loop_indices built rest units (lr_built _ _ _ _ _ _ _ Hready)).
    cbn [for_each]. unfold bind at 1.
    rewrite (hidden_layer_step_ok seed training_phase pkeep built rest units
               layers previous dim_in g Hready Hdim Hunits).
    replace (built ++ units :: rest) with ((built ++ [units]) ++ rest)
      by (rewrite <- app_assoc; reflexivity).
    rewrite (IH (built ++ [units]) _ (layer_output (length (nodes g)) units)
               units _
               (loop_ready_next g training_phase pkeep layers built previous
                  dim_in units seed _ Hready (valid_units_dim _ _ Hunits))
               Hchain).
    cbn [nodes hidden_stack stack_outputs].
    rewrite !length_app. cbn [length regularized_nodes].
    rewrite <- !app_assoc. cbn [app].
    replace (length built + 1)%nat with (S (length built)) by lia.
    reflexivity.
Qed.

(** When the loop succeeds, every layer in it could be built. *)
Lemma hidden_loop_inv (seed : Z) (training_phase pkeep : Tensor)
    (rest built : list Z) :
  forall (layers : list Tensor) (previous : Tensor) (dim_in : Z) (g : Graph)
         (res : list Tensor * Graph),
    loop_ready g training_phase pkeep layers built previous dim_in ->
    for_each (map Z.of_nat (seq (length built - 1) (length rest)))
      (hidden_layer_step (built ++ rest) seed training_phase pkeep) layers g =
      Ok res ->
    chain_ok dim_in rest.
Proof.
  revert built.
  induction rest as [|units rest IH];
    intros built layers previous dim_in g res Hready Hrun; [exact I|].
  rewrite (loop_indices built rest units (lr_built _ _ _ _ _ _ _ Hready))
    in Hrun.
  cbn [for_each] in Hrun. unfold bind at 1 in Hrun.
  assert (Hgood : positive_dim dim_in /\ valid_units dim_in units = true).
  { destruct (valid_units dim_in units) eqn:Hunits.
    - destruct (Z_lt_dec 0 dim_in) as [Hpos|Hnpos].
      + split; [|reflexivity]. split; [exact Hpos|].
        pose proof (lr_dim _ _ _ _ _ _ _ Hready) as Hd.
        unfold valid_dim in Hd. apply andb_prop in Hd.
        destruct Hd as [_ Hmax]. apply Z.leb_le in Hmax. exact Hmax.
      + exfalso.
        destruct (hidden_layer_step_fails seed training_phase pkeep built
                    rest units layers previous dim_in g Hready) as [e He].
        * intros [[Hpos _] _]. contradiction.
        * rewrite He in Hrun. discriminate.
    - exfalso.
      destruct (hidden_layer_step_fails seed training_phase pkeep built
                  rest units layers previous dim_in g Hready) as [e He].
      + intros [_ Hu]. rewrite Hunits in Hu. discriminate.
      + rewrite He in Hrun. discriminate. }
  destruct Hgood as [Hdim Hunits].
  rewrite (hidden_layer_step_ok seed training_phase pkeep built rest units
             layers previous dim_in g Hready Hdim Hunits) in Hrun.
  replace (built ++ units :: rest) with ((built ++ [units]) ++ rest) in Hrun
    by (rewrite <- app_assoc; reflexivity).
  cbn [chain_ok]. split; [assumption|]. split; [assumption|].
  eapply (IH (built ++ [units])); [|exact Hrun].
  apply loop_ready_next; [assumption | apply (valid_units_dim dim_in), Hunits].
Qed.

(** *** The assembled network *)

Definition inputs_placeholder (nb_features : Z) : Tensor :=
  mkTensor 0 tf_float32 (Some [None; Some nb_features]).
Definition labels_placeholder (nb_labels : Z) : Tensor :=
  mkTensor 1 tf_float32 (Some [None; Some nb_labels]).
Definition training_placeholder : Tensor := mkTensor 2 tf_bool None.
Definition pkeep_placeholder : Tensor := mkTensor 3 tf_float32 None.

Definition placeholder_nodes (nb_features nb_labels : Z) : list node :=
  [ mkNode [] (Placeholder tf_float32 (Some [None; Some nb_features]) "inputs")
      tf_float32 (Some [None; Some nb_features]);
    mkNode [] (Placeholder tf_float32 (Some [None; Some nb_labels]) "labels")
      tf_float32 (Some [None; Some nb_labels]);
    mkNode [] (Placeholder tf_bool None "training_phase") tf_bool None;
    mkNode [] (Placeholder tf_float32 None "pkeep") tf_float32 None ].

(** Position of the prediction head in the graph of [dense_nn]. *)
Definition prediction_id (layer_sizes : list Z) : nat :=
  4 + 3 * length layer_sizes.

(** The handle the prediction head reads when there are hidden layers:
    the output of the last of them. *)
Definition last_hidden_output (layer_sizes : list Z) : Tensor :=
  layer_output (4 + 3 * (length layer_sizes - 1)) (last layer_sizes 0).

Definition prediction_tensor (layer_sizes : list Z) (nb_labels : Z) : Tensor :=
  mkTensor (prediction_id layer_sizes) tf_float32 (Some [None; Some nb_labels]).

Definition prediction_node (layer_sizes : list Z) (nb_labels seed : Z) : node :=
  dense_relu_node ["predictions"%string] (last_hidden_output layer_sizes)
    nb_labels seed [None; Some (last layer_sizes 0)] (last layer_sizes 0).

(** The graph [dense_nn] leaves behind for a non-empty [layer_sizes]. *)
Definition dense_nn_nodes (nb_features : Z) (layer_sizes : list Z)
    (nb_labels seed : Z) : list node :=
  let p := prediction_id layer_sizes in
  let prediction_layer := prediction_tensor layer_sizes nb_labels in
  let labels := labels_placeholder nb_labels in
  placeholder_nodes nb_features nb_labels
  ++ hidden_stack seed training_placeholder pkeep_placeholder 4
       (inputs_placeholder nb_features) nb_features 0 layer_sizes
  ++ [prediction_node layer_sizes nb_labels seed]
  ++ loss_nodes [] (p + 1) prediction_layer labels
       (Some [None; Some nb_labels])
  ++ accuracy_nodes [] (p + 5) prediction_layer labels
       (Some [None; Some nb_labels]).

(** The bundle [dense_nn] returns for a non-empty [layer_sizes]. *)
Definition dense_nn_bundle (nb_features : Z) (layer_sizes : list Z)
    (nb_labels : Z) : NeuralNetwork :=
  let p := prediction_id layer_sizes in
  mkNeuralNetwork
    (inputs_placeholder nb_features) (labels_placeholder nb_labels)
    pkeep_placeholder training_placeholder
    (prediction_tensor layer_sizes nb_labels)
    (mkTensor (p + 3) tf_float32 (Some []))
    (mkTensor (p + 11) tf_float32 (Some []))
    (mkTensor (p + 16) tf_float32 (Some [])).

(** The topologies [dense_nn] can build: a positive feature count,
    positive widths, a label count that is a dimension, and kernels that
    fit, from the one of the first hidden layer to the one of the
    prediction head. *)
Record valid_topology (nb_features : Z) (layer_sizes : list Z)
    (nb_labels : Z) : Prop := {
  vt_features : positive_dim nb_features;
  vt_sizes : Forall positive_dim layer_sizes;
  vt_labels : valid_dim (Some nb_labels) = true;
  vt_kernels : kernels_fit nb_features (layer_sizes ++ [nb_labels])
}.

Lemma py_getitem_minus_one {A : Type} (l : list A) (d : A) :
  l <> [] -> py_getitem l (-1) = Ok (last l d).
Proof.
  intros Hne. destruct (exists_last Hne) as [front [a ->]].
  rewrite py_getitem_last, last_last. reflexivity.
Qed.

Lemma stack_outputs_last_hidden (layer_sizes : list Z) (d : Tensor) :
  layer_sizes <> [] ->
  last (stack_outputs 4 layer_sizes) d = last_hidden_output layer_sizes.
Proof.
  intros Hne. destruct (exists_last Hne) as [front [u ->]].
  rewrite stack_outputs_last. unfold last_hidden_output.
  rewrite last_last, length_app. cbn [length].
  f_equal. lia.
Qed.

Lemma last_positive_dim (layer_sizes : list Z) :
  layer_sizes <> [] -> Forall positive_dim layer_sizes ->
  positive_dim (last layer_sizes 0).
Proof.
  intros Hne Hall. destruct (exists_last Hne) as [front [u ->]].
  rewrite last_last. apply Forall_app in Hall. destruct Hall as [_ Hu].
  inversion Hu; assumption.
Qed.

Lemma valid_shape_matrix (n : Z) :
  valid_dim (Some n) = true -> valid_shape (Some [None; Some n]) = true.
Proof.
  intros H. cbn [valid_shape forallb]. rewrite H. reflexivity.
Qed.

Lemma tf_placeholder_ok (dt : dtype) (shape : TensorShape) (name : string)
    (g : Graph) :
  valid_shape shape = true ->
  tf_placeholder dt shape name g = add_op (Placeholder dt shape name) dt shape g.
Proof. intros H. unfold tf_placeholder. rewrite H. reflexivity. Qed.

Ltac solve_in_stack :=
  rewrite in_graph_lt;
  repeat (progress (cbn [nodes tensor_id length placeholder_nodes loss_nodes];
                    rewrite ?length_app, ?hidden_stack_length));
  lia.

Lemma loop_ready_first (nb_features nb_labels units seed : Z) :
  valid_dim (Some units) = true ->
  loop_ready
    (mkGraph
       (placeholder_nodes nb_features nb_labels ++
          regularized_nodes ["dense_hidden_0"%string] 4
            (inputs_placeholder nb_features) units seed training_placeholder
            pkeep_placeholder [None; Some nb_features] nb_features)
       [])
    training_placeholder pkeep_placeholder [layer_output 4 units] [units]
    (layer_output 4 units) units.
Proof.
  intros Hunits. constructor; try reflexivity; try assumption.
  discriminate.
Qed.

(** The part of [dense_nn] before the first hidden layer. *)
Lemma dense_nn_placeholders (nb_features : Z) (layer_sizes : list Z)
    (nb_labels seed : Z) (g : Graph) (r : NeuralNetwork * Graph) :
  dense_nn nb_features layer_sizes nb_labels seed g = Ok r ->
  valid_dim (Some nb_features) = true /\ valid_dim (Some nb_labels) = true.
Proof.
  unfold dense_nn, bind, tf_reset_default_graph, tf_placeholder.
  cbn [valid_shape forallb valid_dim andb].
  destruct ((0 <=? nb_features) && (nb_features <=? dim_max));
    [|discriminate].
  unfold add_op at 1. cbn [nodes scopes empty_graph].
  destruct ((0 <=? nb_labels) && (nb_labels <=? dim_max)); [|discriminate].
  intros _. split; reflexivity.
Qed.

Lemma chain_ok_last_valid (dim_in : Z) (rest : list Z) :
  chain_ok dim_in rest -> valid_dim (Some dim_in) = true ->
  valid_dim (Some (last rest dim_in)) = true.
Proof.
  revert dim_in. induction rest as [|u rest IH]; intros d Hchain Hd;
    [exact Hd|].
  destruct Hchain as [_ [Hu Hchain]]. rewrite last_cons.
  apply IH; [assumption | apply (valid_units_dim d), Hu].
Qed.

Lemma chain_ok_kernels_fit (dim_in : Z) (rest : list Z) :
  chain_ok dim_in rest -> kernels_fit dim_in rest.
Proof.
  revert dim_in. induction rest as [|u rest IH]; intros d Hchain; [exact I|].
  destruct Hchain as [_ [Hu Hchain]]. split; [|apply IH, Hchain].
  unfold valid_units in Hu. apply andb_prop in Hu. apply Hu.
Qed.

Lemma chain_ok_all_positive (dim_in : Z) (rest : list Z) :
  chain_ok dim_in rest -> positive_dim (last rest dim_in) ->
  Forall positive_dim (dim_in :: rest).
Proof.
  revert dim_in. induction rest as [|u rest IH]; intros d Hchain Hlast.
  - constructor; [exact Hlast | constructor].
  - destruct Hchain as [Hd [Hu Hchain]]. rewrite last_cons in Hlast.
    constructor; [exact Hd|]. apply IH; assumption.
Qed.

(** [dense_nn] up to and including the hidden layers, for widths that can
    be built. *)
Definition hidden_graph (nb_features : Z) (layer_sizes : list Z)
    (nb_labels seed : Z) : Graph :=
  mkGraph
    (placeholder_nodes nb_features nb_labels ++
       hidden_stack seed training_placeholder pkeep_placeholder 4
         (inputs_placeholder nb_features) nb_features 0 layer_sizes)
    [].

(** The prediction head and the metrics, registered after the hidden
    layers. *)
Lemma dense_nn_head_ok (nb_features : Z) (layer_sizes : list Z)
    (nb_labels seed : Z) :
  layer_sizes <> [] ->
  positive_dim (last layer_sizes 0) ->
  valid_units (last layer_sizes 0) nb_labels = true ->
  (prediction_layer <-
     dense_relu (last_hidden_output layer_sizes) nb_labels seed
       "predictions" ;;
   loss <- loss_block prediction_layer (labels_placeholder nb_labels) ;;
   errs <- accuracy_block prediction_layer (labels_placeholder nb_labels) ;;
   ret (mkNeuralNetwork (inputs_placeholder nb_features)
          (labels_placeholder nb_labels) pkeep_placeholder
          training_placeholder prediction_layer loss (fst errs) (snd errs)))
    (hidden_graph nb_features layer_sizes nb_labels seed) =
    Ok (dense_nn_bundle nb_features layer_sizes nb_labels,
        mkGraph (dense_nn_nodes nb_features layer_sizes nb_labels seed) []).
Proof.
  intros Hne Hlast Hl. unfold hidden_graph.
  unfold bind at 1.
  rewrite (dense_relu_ok _ _ [None; Some (last layer_sizes 0)]
             (last layer_sizes 0));
    [ | constructor; try reflexivity; try assumption;
        [ unfold last_hidden_output, layer_output; rewrite in_graph_lt;
          cbn [nodes tensor_id length]; rewrite length_app,
            hidden_stack_length;
          cbn [length placeholder_nodes];
          destruct layer_sizes; [congruence | cbn [length]; lia]
        | cbn; discriminate ]
      | apply (valid_units_dim (last layer_sizes 0)), Hl
      | apply valid_units_kernel, Hl ].
  cbn [nodes scopes removelast app length].
  rewrite length_app, hidden_stack_length.
  cbn [length placeholder_nodes].
  unfold bind at 1.
  rewrite (loss_block_ok _ _ _ nb_labels);
    try reflexivity; try solve_in_stack.
  cbn [nodes scopes].
  unfold bind at 1.
  rewrite (accuracy_block_ok _ _ _ nb_labels);
    try reflexivity; try (unfold loss_nodes; solve_in_stack).
  cbn [nodes scopes fst snd]. unfold ret.
  unfold dense_nn_bundle, dense_nn_nodes, prediction_tensor, prediction_id,
    prediction_node.
  rewrite ?length_app, ?hidden_stack_length.
  cbn [length placeholder_nodes loss_nodes].
  rewrite ?length_app, ?hidden_stack_length.
  cbn [length placeholder_nodes loss_nodes].
  rewrite <- ?app_assoc. cbn [app].
  repeat first [ reflexivity | lia | progress f_equal ].
Qed.

(** [dense_nn] from its first hidden layer on, when the widths can be
    built. *)
Lemma dense_nn_layers_ok (nb_features u0 : Z) (us : list Z)
    (nb_labels seed : Z) :
  positive_dim nb_features ->
  valid_units nb_features u0 = true ->
  chain_ok u0 us ->
  (first_layer <-
     dense_relu_bn_drop (inputs_placeholder nb_features) u0 seed
       training_placeholder pkeep_placeholder "dense_hidden_0" ;;
   for_each (py_range (Z.of_nat (length (u0 :: us)) - 1))
     (hidden_layer_step (u0 :: us) seed training_placeholder
        pkeep_placeholder)
     ([] ++ [first_layer]))
    (mkGraph (placeholder_nodes nb_features nb_labels) []) =
    Ok (stack_outputs 4 (u0 :: us),
        hidden_graph nb_features (u0 :: us) nb_labels seed).
Proof.
  intros Hf Hu0 Hchain.
  unfold bind at 1.
  rewrite (regularized_nodes_dense_nn _ _ nb_features u0);
    try assumption; try reflexivity.
  cbn [nodes scopes app length].
  change (length (placeholder_nodes nb_features nb_labels)) with 4%nat.
  replace (py_range (Z.of_nat (S (length us)) - 1))
    with (map Z.of_nat (seq (length [u0] - 1) (length us)))
    by (unfold py_range; cbn [length];
        replace (Z.of_nat (S (length us)) - 1) with (Z.of_nat (length us))
          by lia;
        rewrite Nat2Z.id; reflexivity).
  change (u0 :: us) with ([u0] ++ us) at 1.
  rewrite (hidden_loop_ok seed training_placeholder pkeep_placeholder us [u0]
             _ (layer_output 4 u0) u0 _
             (loop_ready_first nb_features nb_labels u0 seed
                (valid_units_dim _ _ Hu0)) Hchain).
  unfold hidden_graph.
  cbn [nodes length app placeholder_nodes regularized_nodes hidden_stack
         stack_outputs].
  rewrite <- ?app_assoc. cbn [app].
  reflexivity.
Qed.

Lemma dense_nn_ok (nb_features : Z) (layer_sizes : list Z)
    (nb_labels seed : Z) (g : Graph) :
  valid_topology nb_features layer_sizes nb_labels ->
  layer_sizes <> [] ->
  dense_nn nb_features layer_sizes nb_labels seed g =
    Ok (dense_nn_bundle nb_features layer_sizes nb_labels,
        mkGraph (dense_nn_nodes nb_features layer_sizes nb_labels seed) []).
Proof.
  intros [Hf Hs Hl Hk] Hne.
  destruct layer_sizes as [|u0 us]; [congruence|].
  inversion Hs as [|? ? Hu0 Hus]; subst.
  cbn [app kernels_fit] in Hk. destruct Hk as [Hk0 Hk].
  apply kernels_fit_app in Hk. destruct Hk as [Hks [Hkl _]].
  assert (Hhead : valid_units (last (u0 :: us) 0) nb_labels = true)
    by (unfold valid_units; rewrite Hl, last_cons; exact Hkl).
  assert (Hfirst : valid_units nb_features u0 = true)
    by (unfold valid_units; rewrite positive_dim_valid by assumption;
        exact Hk0).
  unfold dense_nn, bind at 1, tf_reset_default_graph.
  unfold bind at 1.
  rewrite tf_placeholder_ok
    by (apply valid_shape_matrix, positive_dim_valid, Hf).
  unfold add_op at 1, empty_graph. cbn [nodes scopes app length].
  unfold bind at 1.
  rewrite tf_placeholder_ok by (apply valid_shape_matrix, Hl).
  unfold add_op at 1. cbn [nodes scopes app length].
  unfold bind at 1.
  rewrite tf_placeholder_ok by reflexivity.
  unfold add_op at 1. cbn [nodes scopes app length].
  unfold bind at 1.
  rewrite tf_placeholder_ok by reflexivity.
  unfold add_op at 1. cbn [nodes scopes app length].
  unfold bind at 1, lift at 1.
  change 0 with (Z.of_nat 0).
  rewrite (py_getitem_nth (u0 :: us) 0 u0 eq_refl).
  fold (inputs_placeholder nb_features) (labels_placeholder nb_labels)
    training_placeholder pkeep_placeholder
    (placeholder_nodes nb_features nb_labels).
  rewrite <- (dense_nn_head_ok nb_features (u0 :: us) nb_labels seed Hne
                (last_positive_dim (u0 :: us) Hne Hs) Hhead).
  pose proof (dense_nn_layers_ok nb_features u0 us nb_labels seed Hf
                Hfirst (chain_ok_positive _ _ Hu0 Hus Hks))
    as Hlayers.
  unfold bind at 1 in Hlayers. cbn [length app] in Hlayers.
  unfold bind at 1 2.
  destruct (dense_relu_bn_drop (inputs_placeholder nb_features) u0 seed
              training_placeholder pkeep_placeholder "dense_hidden_0" _)
    as [[first g1]|e]; [|discriminate].
  rewrite Hlayers.
  unfold bind at 1, lift at 1.
  rewrite (py_getitem_minus_one _ (inputs_placeholder nb_features))
    by discriminate.
  rewrite (stack_outputs_last_hidden (u0 :: us)) by discriminate.
  reflexivity.
Qed.

(** *** When [dense_nn] succeeds *)

(** With no hidden layer [dense_nn] raises: the widths are indexed at 0
    after the placeholders are declared. *)
Lemma dense_nn_empty_raises (nb_features nb_labels seed : Z) (g : Graph) :
  exists e, dense_nn nb_features [] nb_labels seed g = Raise e.
Proof.
  unfold dense_nn, bind, tf_reset_default_graph, tf_placeholder.
  destruct (valid_shape (Some [None; Some nb_features]));
    [|eexists; reflexivity].
  unfold add_op at 1. cbn [nodes scopes empty_graph].
  destruct (valid_shape (Some [None; Some nb_labels]));
    [|eexists; reflexivity].
  eexists. reflexivity.
Qed.

Lemma dense_nn_empty_index_error (nb_features nb_labels seed : Z)
    (g : Graph) :
  valid_dim (Some nb_features) = true -> valid_dim (Some nb_labels) = true ->
  dense_nn nb_features [] nb_labels seed g = Raise IndexError.
Proof.
  intros Hf Hl.
  unfold dense_nn, bind, tf_reset_default_graph.
  rewrite tf_placeholder_ok by (apply valid_shape_matrix, Hf).
  unfold add_op at 1. cbn [nodes scopes empty_graph].
  rewrite tf_placeholder_ok by (apply valid_shape_matrix, Hl).
  reflexivity.
Qed.

Lemma valid_dim_positive (d : Z) :
  valid_dim (Some d) = true -> d <> 0 -> positive_dim d.
Proof.
  intros Hd Hnz. unfold valid_dim in Hd. apply andb_prop in Hd.
  destruct Hd as [H0 Hmax]. apply Z.leb_le in H0. apply Z.leb_le in Hmax.
  unfold positive_dim. lia.
Qed.

Lemma dense_relu_inv (g : Graph) (inputs : Tensor) (dim_in units seed : Z)
    (name : string) (r : Tensor * Graph) :
  in_graph inputs g = true ->
  tensor_dtype inputs = tf_float32 ->
  tensor_shape inputs = Some [None; Some dim_in] ->
  valid_dim (Some dim_in) = true ->
  dense_relu inputs units seed name g = Ok r ->
  positive_dim dim_in /\ valid_units dim_in units = true.
Proof.
  intros Hin Hdt Hsh Hd Hrun.
  destruct (Z.eq_dec dim_in 0) as [->|Hnz].
  - rewrite dense_relu_zero_dim in Hrun by assumption. discriminate.
  - pose proof (valid_dim_positive dim_in Hd Hnz) as Hpos.
    split; [exact Hpos|].
    destruct (valid_units dim_in units) eqn:Hunits; [reflexivity|].
    rewrite (dense_relu_bad_units _ _ dim_in) in Hrun by assumption.
    discriminate.
Qed.

Lemma dense_relu_bn_drop_inv (g : Graph) (previous : Tensor)
    (dim_in units seed : Z) (training_phase pkeep : Tensor) (name : string)
    (r : Tensor * Graph) :
  in_graph previous g = true ->
  tensor_dtype previous = tf_float32 ->
  tensor_shape previous = Some [None; Some dim_in] ->
  valid_dim (Some dim_in) = true ->
  dense_relu_bn_drop previous units seed training_phase pkeep name g = Ok r ->
  positive_dim dim_in /\ valid_units dim_in units = true.
Proof.
  intros Hin Hdt Hsh Hd Hrun.
  unfold dense_relu_bn_drop, with_name_scope, bind in Hrun.
  destruct (dense_relu previous units seed "dense_relu" _) as [[l1 g1]|e]
    eqn:E; [|discriminate].
  eapply dense_relu_inv in E; eassumption.
Qed.

(** [dense_nn] returns a bundle only for a topology it can build, with at
    least one hidden layer. *)
Lemma dense_nn_inv (nb_features : Z) (layer_sizes : list Z)
    (nb_labels seed : Z) (g0 : Graph) (r : NeuralNetwork * Graph) :
  dense_nn nb_features layer_sizes nb_labels seed g0 = Ok r ->
  valid_topology nb_features layer_sizes nb_labels /\ layer_sizes <> [].
Proof.
  intros H.
  destruct (dense_nn_placeholders _ _ _ _ _ _ H) as [Vf Vl].
  destruct layer_sizes as [|u0 us].
  { rewrite (dense_nn_empty_index_error _ _ _ _ Vf Vl) in H. discriminate. }
  split; [|discriminate].
  unfold dense_nn, bind at 1, tf_reset_default_graph in H.
  unfold bind at 1 in H.
  rewrite tf_placeholder_ok in H by (apply valid_shape_matrix, Vf).
  unfold add_op at 1, empty_graph in H. cbn [nodes scopes app length] in H.
  unfold bind at 1 in H.
  rewrite tf_placeholder_ok in H by (apply valid_shape_matrix, Vl).
  unfold add_op at 1 in H. cbn [nodes scopes app length] in H.
  unfold bind at 1 in H.
  rewrite tf_placeholder_ok in H by reflexivity.
  unfold add_op at 1 in H. cbn [nodes scopes app length] in H.
  unfold bind at 1 in H.
  rewrite tf_placeholder_ok in H by reflexivity.
  unfold add_op at 1 in H. cbn [nodes scopes app length] in H.
  unfold bind at 1, lift at 1 in H.
  change 0 with (Z.of_nat 0) in H.
  rewrite (py_getitem_nth (u0 :: us) 0 u0 eq_refl) in H.
  fold (inputs_placeholder nb_features) (labels_placeholder nb_labels)
    training_placeholder pkeep_placeholder
    (placeholder_nodes nb_features nb_labels) in H.
  unfold bind at 1 in H.
  destruct (dense_relu_bn_drop (inputs_placeholder nb_features) u0 seed
              training_placeholder pkeep_placeholder "dense_hidden_0" _)
    as [[first g1]|e] eqn:E1; [|discriminate].
  pose proof E1 as Hfirst.
  apply (dense_relu_bn_drop_inv _ _ nb_features) in Hfirst;
    [ | reflexivity | reflexivity | reflexivity | exact Vf ].
  destruct Hfirst as [Hf Hu0].
  rewrite (regularized_nodes_dense_nn _ _ nb_features u0) in E1;
    try assumption; try reflexivity.
  cbn [nodes scopes app length] in E1.
  change (length (placeholder_nodes nb_features nb_labels)) with 4%nat in E1.
  injection E1 as <- <-.
  unfold bind at 1 in H.
  replace (py_range (Z.of_nat (S (length us)) - 1))
    with (map Z.of_nat (seq (length [u0] - 1) (length us))) in H
    by (unfold py_range; cbn [length];
        replace (Z.of_nat (S (length us)) - 1) with (Z.of_nat (length us))
          by lia;
        rewrite Nat2Z.id; reflexivity).
  change (u0 :: us) with ([u0] ++ us) in H at 1.
  destruct (for_each _ _ _ _) as [[layers g2]|e] eqn:E2; [|discriminate].
  pose proof (hidden_loop_inv seed training_placeholder pkeep_placeholder us
                [u0] _ (layer_output 4 u0) u0 _ _
                (loop_ready_first nb_features nb_labels u0 seed
                   (valid_units_dim _ _ Hu0)) E2)
    as Hchain.
  pose proof (eq_trans (eq_sym E2)
                (hidden_loop_ok seed training_placeholder pkeep_placeholder
                   us [u0] _ (layer_output 4 u0) u0 _
                   (loop_ready_first nb_features nb_labels u0 seed
                      (valid_units_dim _ _ Hu0))
                   Hchain)) as Eloop.
  injection Eloop as -> ->. clear E2.
  unfold bind at 1, lift at 1 in H.
  change ([layer_output 4 u0] ++ stack_outputs _ us)
    with (stack_outputs 4 (u0 :: us)) in H.
  rewrite (py_getitem_minus_one _ (inputs_placeholder nb_features)) in H
    by discriminate.
  rewrite (stack_outputs_last_hidden (u0 :: us)) in H by discriminate.
  unfold bind at 1 in H.
  destruct (dense_relu (last_hidden_output (u0 :: us)) nb_labels seed
              "predictions" _) as [[prediction g3]|e] eqn:E3; [|discriminate].
  apply (dense_relu_inv _ _ (last (u0 :: us) 0)) in E3.
  - destruct E3 as [Hlast Hhead].
    constructor; [exact Hf | | exact Vl | ].
    + apply chain_ok_all_positive; [exact Hchain|].
      rewrite <- (last_cons u0 0 us). exact Hlast.
    + cbn [app kernels_fit]. unfold valid_units in Hu0, Hhead.
      apply andb_prop in Hu0. apply andb_prop in Hhead.
      split; [apply Hu0|]. apply kernels_fit_app.
      split; [apply chain_ok_kernels_fit, Hchain|].
      rewrite last_cons in Hhead. cbn [kernels_fit].
      split; [apply Hhead | exact I].
  - unfold last_hidden_output, layer_output, regularized_nodes.
    cbn [hidden_stack app]. solve_in_stack.
  - reflexivity.
  - reflexivity.
  - rewrite (last_cons u0 0 us).
    apply chain_ok_last_valid;
      [assumption | apply (valid_units_dim nb_features), Hu0].
Qed.

(** ** Running the graph *)

Definition matrix : Type := list (list float32).

(** The values a run produces: scalars and rank-two tensors of floats or
    booleans. *)
Inductive value : Type :=
| VScalar (x : float32)
| VMatrix (m : matrix)
| VBool (b : bool)
| VBoolMatrix (m : list (list bool)).

(** What normalization and dropout compute in ONE run of the graph; this
    development leaves both abstract.  An instance stands for a single
    call of [session.run]: for the normalization at a position, the map
    from [center], [scale], the training flag and the input to the output
    with the statistics of that run; for the dropout at a position, the
    map from the keep probability and the input to the output under the
    mask drawn in that run.  [tf.nn.dropout] is called without a seed
    (line 79), so a second run draws another mask and is another
    instance: nothing here relates two runs to each other. *)
Class Kernels : Type := {
  batch_normalization_kernel :
    nat -> bool -> bool -> bool -> matrix -> matrix;
  dropout_kernel : nat -> float32 -> matrix -> matrix
}.

(** The trainable variables of a dense layer, kernel and bias, as they
    stand when the graph is run.  Their initial values are drawn by
    TensorFlow's sampler from the initializer recorded in the [Dense]
    operation; the sampler is not part of the source and has no
    counterpart here. *)
Definition variables : Type := nat -> option (matrix * list float32).

Definition feed_dict : Type := list (Tensor * value).

Fixpoint feed_lookup (feed : feed_dict) (id : nat) : option value :=
  match feed with
  | [] => None
  | (t, v) :: rest =>
      if (tensor_id t =? id)%nat then Some v else feed_lookup rest id
  end.

Definition dim_matches (d : Dimension) (n : nat) : bool :=
  match d with
  | None => true
  | Some z => z =? Z.of_nat n
  end.

Definition rectangular {A : Type} (m : list (list A)) : bool :=
  match m with
  | [] => true
  | row :: rows => forallb (fun r => (length r =? length row)%nat) rows
  end.

Definition rows_fit {A : Type} (shape : TensorShape) (m : list (list A))
  : bool :=
  rectangular m &&
  match shape with
  | None => true
  | Some [r; c] =>
      dim_matches r (length m) &&
      forallb (fun row => dim_matches c (length row)) m
  | Some _ => false
  end.

Definition scalar_fits (shape : TensorShape) : bool :=
  match shape with
  | None | Some [] => true
  | Some _ => false
  end.

(** A fed value must agree with the placeholder's type and static shape. *)
Definition value_fits (dt : dtype) (shape : TensorShape) (v : value) : bool :=
  match v, dt with
  | VScalar _, tf_float32 | VBool _, tf_bool => scalar_fits shape
  | VMatrix m, tf_float32 => rows_fit shape m
  | VBoolMatrix m, tf_bool => rows_fit shape m
  | _, _ => false
  end.

Fixpoint all_some {A : Type} (l : list (option A)) : option (list A) :=
  match l with
  | [] => Some []
  | None :: _ => None
  | Some a :: rest =>
      match all_some rest with
      | Some r => Some (a :: r)
      | None => None
      end
  end.

(** Broadcasting along one axis: an axis of length one is repeated. *)
Definition broadcast_zip {A B C : Type} (f : A -> B -> option C)
    (xs : list A) (ys : list B) : option (list C) :=
  match xs, ys with
  | [x], _ => all_some (map (f x) ys)
  | _, [y] => all_some (map (fun x => f x y) xs)
  | _, _ =>
      if (length xs =? length ys)%nat
      then all_some (map (fun p => f (fst p) (snd p)) (combine xs ys))
      else None
  end.

Definition broadcast_matrix {C : Type} (f : float32 -> float32 -> C)
    (m1 m2 : matrix) : option (list (list C)) :=
  broadcast_zip (broadcast_zip (fun a b => Some (f a b))) m1 m2.

Definition eval_binary {C : Type} (f : float32 -> float32 -> C)
    (scalar : C -> value) (tensor : list (list C) -> value) (x y : value)
  : option value :=
  match x, y with
  | VScalar a, VScalar b => Some (scalar (f a b))
  | VMatrix m, VScalar b => Some (tensor (map (map (fun a => f a b)) m))
  | VScalar a, VMatrix m => Some (tensor (map (map (f a)) m))
  | VMatrix m1, VMatrix m2 => option_map tensor (broadcast_matrix f m1 m2)
  | _, _ => None
  end.

Definition eval_unary (f : float32 -> float32) (x : value) : option value :=
  match x with
  | VScalar a => Some (VScalar (f a))
  | VMatrix m => Some (VMatrix (map (map f) m))
  | _ => None
  end.

Definition eval_sub : value -> value -> option value :=
  eval_binary f32_sub VScalar VMatrix.
Definition eval_div : value -> value -> option value :=
  eval_binary f32_div VScalar VMatrix.
Definition eval_greater : value -> value -> option value :=
  eval_binary f32_greater VBool VBoolMatrix.
Definition eval_abs : value -> option value := eval_unary f32_abs.
Definition eval_square : value -> option value :=
  eval_unary (fun a => f32_mul a a).

Definition eval_cast (dt : dtype) (x : value) : option value :=
  match x, dt with
  | VBool b, tf_float32 => Some (VScalar (f32_of_bool b))
  | VBoolMatrix m, tf_float32 => Some (VMatrix (map (map f32_of_bool) m))
  | (VScalar _ | VMatrix _), tf_float32 => Some x
  | (VBool _ | VBoolMatrix _), tf_bool => Some x
  | _, _ => None
  end.

Definition f32_sum (xs : list float32) : float32 :=
  fold_left f32_add xs f32_zero.

Definition f32_of_nat (n : nat) : float32 := Fin (inject_Z (Z.of_nat n)).

(** The mean over all elements: their sum over their number. *)
Definition f32_mean (xs : list float32) : float32 :=
  f32_div (f32_sum xs) (f32_of_nat (length xs)).

Definition eval_mean (x : value) : option value :=
  match x with
  | VScalar a => Some (VScalar a)
  | VMatrix m => Some (VScalar (f32_mean (concat m)))
  | _ => None
  end.

Definition apply_activation (act : option activation) (x : float32)
  : float32 :=
  match act with
  | Some tf_nn_relu => f32_relu x
  | None => x
  end.

Definition dot (xs ys : list float32) : float32 :=
  f32_sum (map (fun p => f32_mul (fst p) (snd p)) (combine xs ys)).

Definition column (k : nat) (kernel : matrix) : list float32 :=
  map (fun row => nth k row f32_zero) kernel.

(** One row of [activation(x . kernel + bias)]. *)
Definition dense_row (act : option activation) (kernel : matrix)
    (bias : list float32) (units : nat) (x : list float32) : list float32 :=
  map (fun k =>
         apply_activation act
           (f32_add (dot x (column k kernel)) (nth k bias f32_zero)))
      (seq 0 units).

Definition eval_dense (units : Z) (act : option activation) (kernel : matrix)
    (bias : list float32) (x : value) : option value :=
  match x with
  | VMatrix m =>
      let u := Z.to_nat units in
      if forallb (fun row => (length row =? length kernel)%nat) m
         && forallb (fun row => (length row =? u)%nat) kernel
         && (length bias =? u)%nat
      then Some (VMatrix (map (dense_row act kernel bias u) m))
      else None
  | _ => None
  end.

Section Run.

Context {K : Kernels}.
Variable feed : feed_dict.
Variable vars : variables.

(** The value of a handle among the values computed so far. *)
Definition get (vals : list (option value)) (t : Tensor) : option value :=
  match nth_error vals (tensor_id t) with
  | Some (Some v) => Some v
  | _ => None
  end.

Definition bind2 (f : value -> value -> option value)
    (x y : option value) : option value :=
  match x, y with
  | Some a, Some b => f a b
  | _, _ => None
  end.

Definition bind1 (f : value -> option value) (x : option value)
  : option value :=
  match x with
  | Some a => f a
  | None => None
  end.

(** The value of the operation at position [id], if its inputs have one.
    The feed is read at placeholders only, as in the runs this
    development covers, which feed the placeholders of the bundle;
    [feed_dict] entries that override the value of another operation are
    not modelled. *)
Definition eval_op (vals : list (option value)) (id : nat) (o : op)
  : option value :=
  match o with
  | Placeholder dt shape _ =>
      match feed_lookup feed id with
      | Some v => if value_fits dt shape v then Some v else None
      | None => None
      end
  | Dense x units act _ =>
      match vars id with
      | Some (kernel, bias) =>
          bind1 (eval_dense units act kernel bias) (get vals x)
      | None => None
      end
  | BatchNormalization x center scale training =>
      match get vals x, get vals training with
      | Some (VMatrix m), Some (VBool t) =>
          Some (VMatrix (batch_normalization_kernel id center scale t m))
      | _, _ => None
      end
  | Dropout x keep_prob =>
      match get vals x, get vals keep_prob with
      | Some (VMatrix m), Some (VScalar p) =>
          Some (VMatrix (dropout_kernel id p m))
      | _, _ => None
      end
  | Const c => Some (VScalar c)
  | Sub x y => bind2 eval_sub (get vals x) (get vals y)
  | RealDiv x y => bind2 eval_div (get vals x) (get vals y)
  | Square x => bind1 eval_square (get vals x)
  | Abs x => bind1 eval_abs (get vals x)
  | Greater x y => bind2 eval_greater (get vals x) (get vals y)
  | Cast x dt => bind1 (eval_cast dt) (get vals x)
  | Mean x => bind1 eval_mean (get vals x)
  | ScalarSummary _ _ => None
  end.

(** Operations are evaluated in creation order; each one reads the values
    of operations created before it. *)
Fixpoint run_nodes (ns : list node) (vals : list (option value))
  : list (option value) :=
  match ns with
  | [] => vals
  | n :: rest =>
      run_nodes rest (vals ++ [eval_op vals (length vals) (node_op n)])
  end.

(** [session.run(fetch, feed_dict=feed)] *)
Definition session_run (g : Graph) (fetch : Tensor) : option value :=
  get (run_nodes (nodes g) []) fetch.

End Run.

(** Stand-in kernels for concrete runs: inference-mode normalization with
    unit statistics and dropout that keeps every unit both return their
    input. *)
#[local] Instance passthrough_kernels : Kernels := {
  batch_normalization_kernel := fun _ _ _ _ m => m;
  dropout_kernel := fun _ _ m => m
}.

(** Every dense layer with a one-by-one identity kernel and no bias. *)
Definition unit_variables : variables :=
  fun _ => Some ([[f32_one]], [f32_zero]).

(** ** Facts about runs *)

Section RunFacts.

Context {K : Kernels}.
Variable feed : feed_dict.
Variable vars : variables.

Lemma run_nodes_app (a b : list node) (vals : list (option value)) :
  run_nodes feed vars (a ++ b) vals =
    run_nodes feed vars b (run_nodes feed vars a vals).
Proof.
  revert vals. induction a as [|n a IH]; intros vals; [reflexivity|].
  cbn [app run_nodes]. apply IH.
Qed.

Lemma run_nodes_length (ns : list node) (vals : list (option value)) :
  length (run_nodes feed vars ns vals) = (length vals + length ns)%nat.
Proof.
  revert vals. induction ns as [|n ns IH]; intros vals.
  - cbn. lia.
  - cbn [run_nodes length]. rewrite IH, length_app. cbn. lia.
Qed.

Lemma get_app_old (vals extra : list (option value)) (t : Tensor) :
  (tensor_id t < length vals)%nat -> get (vals ++ extra) t = get vals t.
Proof.
  intros H. unfold get. rewrite nth_error_app1 by assumption. reflexivity.
Qed.

Lemma get_app_new (vals extra : list (option value)) (k : nat) (dt : dtype)
    (sh : TensorShape) :
  get (vals ++ extra) (mkTensor (length vals + k) dt sh) =
    match nth_error extra k with
    | Some (Some v) => Some v
    | _ => None
    end.
Proof.
  unfold get. cbn [tensor_id].
  rewrite nth_error_app2 by lia.
  replace (length vals + k - length vals)%nat with k by lia.
  reflexivity.
Qed.

(** A value, once computed, is not changed by the operations that
    follow. *)
Lemma get_run_nodes (ns : list node) (vals : list (option value))
    (t : Tensor) :
  (tensor_id t < length vals)%nat ->
  get (run_nodes feed vars ns vals) t = get vals t.
Proof.
  revert vals. induction ns as [|n ns IH]; intros vals H; [reflexivity|].
  cbn [run_nodes]. rewrite IH by (rewrite length_app; lia).
  apply get_app_old, H.
Qed.

(** The operation at position [length vals] gets the value [eval_op]
    gives it there. *)
Lemma get_run_nodes_head (n : node) (ns : list node)
    (vals : list (option value)) (dt : dtype) (sh : TensorShape) :
  get (run_nodes feed vars (n :: ns) vals) (mkTensor (length vals) dt sh) =
    eval_op feed vars vals (length vals) (node_op n).
Proof.
  cbn [run_nodes].
  rewrite get_run_nodes by (cbn [tensor_id]; rewrite length_app; cbn; lia).
  replace (length vals) with (length vals + 0)%nat at 2 by lia.
  rewrite get_app_new. cbn [nth_error].
  destruct (eval_op feed vars vals (length vals) (node_op n)); reflexivity.
Qed.

(** The handles an operation reads. *)
Definition op_inputs (o : op) : list Tensor :=
  match o with
  | Placeholder _ _ _ | Const _ => []
  | Dense x _ _ _ | Square x | Abs x | Cast x _ | Mean x
  | ScalarSummary _ x => [x]
  | BatchNormalization x _ _ y | Dropout x y | Sub x y | RealDiv x y
  | Greater x y => [x; y]
  end.

Lemma eval_op_ext (vals1 vals2 : list (option value)) (id : nat) (o : op) :
  Forall (fun t => get vals1 t = get vals2 t) (op_inputs o) ->
  eval_op feed vars vals1 id o = eval_op feed vars vals2 id o.
Proof.
  intros H. destruct o; cbn [op_inputs eval_op] in *;
    repeat match goal with
           | H : Forall _ (_ :: _) |- _ => inversion H; clear H; subst
           | H : get vals1 ?t = _ |- _ => rewrite H; clear H
           end;
    reflexivity.
Qed.

Lemma get_same_id (vals : list (option value)) (t1 t2 : Tensor) :
  tensor_id t1 = tensor_id t2 -> get vals t1 = get vals t2.
Proof. intros H. unfold get. rewrite H. reflexivity. Qed.

(** In a graph whose operations read only operations created before
    them, the value of every operation of a run is [eval_op] applied to
    the values of the run itself. *)
Lemma run_nodes_at (ns : list node) (i : nat) (n : node) (t : Tensor) :
  nth_error ns i = Some n ->
  tensor_id t = i ->
  Forall (fun x => (tensor_id x < i)%nat) (op_inputs (node_op n)) ->
  get (run_nodes feed vars ns []) t =
    eval_op feed vars (run_nodes feed vars ns []) i (node_op n).
Proof.
  intros Hnth Hid Hinputs.
  destruct (nth_error_split ns i Hnth) as [pre [post [-> Hlen]]].
  rewrite run_nodes_app.
  set (vals0 := run_nodes feed vars pre []).
  assert (Hl0 : length vals0 = i)
    by (unfold vals0; rewrite run_nodes_length; cbn; lia).
  rewrite (get_same_id _ t (mkTensor (length vals0) tf_float32 None))
    by (cbn; lia).
  rewrite get_run_nodes_head, Hl0.
  apply eval_op_ext.
  eapply Forall_impl; [|exact Hinputs].
  intros x Hx. cbn beta in Hx.
  symmetry. apply get_run_nodes. lia.
Qed.

End RunFacts.

(** *** The metrics as functions of predictions and labels *)

(** [tf.abs(prediction_layer-labels)/labels] *)
Definition relative_error_value (P L : option value) : option value :=
  bind2 eval_div (bind1 eval_abs (bind2 eval_sub P L)) L.

(** [tf.reduce_mean(tf.cast(tf.greater(relative_error, c), tf.float32))] *)
Definition error_rate_value (c : float32) (R : option value) : option value :=
  bind1 eval_mean
    (bind1 (eval_cast tf_float32)
       (bind2 eval_greater R (Some (VScalar c)))).

(** [tf.reduce_mean(tf.square(prediction_layer-labels))] *)
Definition loss_value (P L : option value) : option value :=
  bind1 eval_mean (bind1 eval_square (bind2 eval_sub P L)).

Section AssembledRun.

Context {K : Kernels}.
Variable feed : feed_dict.
Variable vars : variables.
Variables (nb_features : Z) (layer_sizes : list Z) (nb_labels seed : Z).

Let G : Graph :=
  mkGraph (dense_nn_nodes nb_features layer_sizes nb_labels seed) [].
Let nn : NeuralNetwork := dense_nn_bundle nb_features layer_sizes nb_labels.
Let p : nat := prediction_id layer_sizes.

Lemma dense_nn_nodes_prediction :
  nth_error (nodes G) p = Some (prediction_node layer_sizes nb_labels seed).
Proof.
  unfold G, p, dense_nn_nodes, prediction_id. cbn [nodes].
  rewrite nth_error_app2 by (cbn; lia).
  rewrite nth_error_app2
    by (rewrite hidden_stack_length; cbn [length placeholder_nodes]; lia).
  rewrite hidden_stack_length. cbn [length placeholder_nodes].
  replace (4 + 3 * length layer_sizes - 4 - 3 * length layer_sizes)%nat
    with 0%nat by lia.
  reflexivity.
Qed.

Lemma dense_nn_nodes_loss (k : nat) :
  (k < 4)%nat ->
  nth_error (nodes G) (p + 1 + k) =
    nth_error
      (loss_nodes [] (p + 1) (prediction_tensor layer_sizes nb_labels)
         (labels_placeholder nb_labels) (Some [None; Some nb_labels])) k.
Proof.
  intros Hk. unfold G, dense_nn_nodes. fold p. cbn [nodes].
  rewrite nth_error_app2 by (unfold p, prediction_id; cbn; lia).
  rewrite nth_error_app2
    by (rewrite hidden_stack_length; unfold p, prediction_id;
        cbn [length placeholder_nodes]; lia).
  rewrite nth_error_app2
    by (rewrite hidden_stack_length; unfold p, prediction_id;
        cbn [length placeholder_nodes]; lia).
  rewrite hidden_stack_length. unfold p, prediction_id.
  cbn [length placeholder_nodes].
  rewrite nth_error_app1 by (cbn [length loss_nodes]; lia).
  f_equal. lia.
Qed.

Lemma dense_nn_nodes_accuracy (k : nat) :
  nth_error (nodes G) (p + 5 + k) =
    nth_error
      (accuracy_nodes [] (p + 5) (prediction_tensor layer_sizes nb_labels)
         (labels_placeholder nb_labels) (Some [None; Some nb_labels])) k.
Proof.
  unfold G, dense_nn_nodes. fold p. cbn [nodes].
  rewrite nth_error_app2 by (unfold p, prediction_id; cbn; lia).
  rewrite nth_error_app2
    by (rewrite hidden_stack_length; unfold p, prediction_id;
        cbn [length placeholder_nodes]; lia).
  rewrite nth_error_app2
    by (rewrite hidden_stack_length; unfold p, prediction_id;
        cbn [length placeholder_nodes]; lia).
  rewrite nth_error_app2
    by (rewrite hidden_stack_length; unfold p, prediction_id;
        cbn [length placeholder_nodes loss_nodes]; lia).
  rewrite hidden_stack_length. unfold p, prediction_id.
  cbn [length placeholder_nodes loss_nodes].
  f_equal. lia.
Qed.

(** The value of an operation of the accuracy block. *)
Lemma run_accuracy_node (k : nat) (n : node) (t : Tensor) :
  nth_error
    (accuracy_nodes [] (p + 5) (prediction_tensor layer_sizes nb_labels)
       (labels_placeholder nb_labels) (Some [None; Some nb_labels])) k =
    Some n ->
  tensor_id t = (p + 5 + k)%nat ->
  Forall (fun x => (tensor_id x < p + 5 + k)%nat) (op_inputs (node_op n)) ->
  session_run feed vars G t =
    eval_op feed vars (run_nodes feed vars (nodes G) []) (p + 5 + k)
      (node_op n).
Proof.
  intros Hn Hid Hin. unfold session_run.
  apply run_nodes_at; [|assumption|assumption].
  rewrite dense_nn_nodes_accuracy. exact Hn.
Qed.

Let P : option value := session_run feed vars G (nn_predictions nn).
Let L : option value := session_run feed vars G (nn_labels nn).

(** Unfolds the value of the operation number [k] of the accuracy
    block. *)
Ltac accuracy_node k :=
  rewrite (run_accuracy_node k _ _ eq_refl);
  [ cbn [node_op eval_op]
  | unfold nn, dense_nn_bundle, p;
    cbn [tensor_id nn_err_2pc nn_err_1pc]; lia
  | cbn [node_op op_inputs];
    repeat (apply Forall_cons;
            [ cbn [tensor_id prediction_tensor labels_placeholder];
              unfold p, prediction_id; lia | ]);
    apply Forall_nil ].

Ltac fold_run k sh :=
  fold (session_run feed vars G (mkTensor (p + 5 + k) tf_float32 sh)).

Lemma run_relative_error (t : Tensor) :
  tensor_id t = (p + 7)%nat ->
  session_run feed vars G t = relative_error_value P L.
Proof.
  intros Hid. unfold relative_error_value.
  accuracy_node 2%nat.
  fold_run 1%nat (Some [None; Some nb_labels]).
  fold (session_run feed vars G (labels_placeholder nb_labels)).
  accuracy_node 1%nat.
  fold_run 0%nat (Some [None; Some nb_labels]).
  accuracy_node 0%nat.
  reflexivity.
Qed.

Lemma run_err_2pc :
  session_run feed vars G (nn_err_2pc nn) =
    error_rate_value (Fin (2 # 100)) (relative_error_value P L).
Proof.
  unfold error_rate_value.
  rewrite <- (run_relative_error
                (mkTensor (p + 5 + 2) tf_float32
                   (Some [None; Some nb_labels])))
    by (cbn [tensor_id]; lia).
  accuracy_node 6%nat.
  fold_run 5%nat (Some [None; Some nb_labels]).
  accuracy_node 5%nat.
  fold (session_run feed vars G
          (mkTensor (p + 5 + 4) tf_bool (Some [None; Some nb_labels]))).
  accuracy_node 4%nat.
  fold_run 2%nat (Some [None; Some nb_labels]).
  fold_run 3%nat (Some (@nil Dimension)).
  rewrite (run_accuracy_node 3%nat _
             (mkTensor (p + 5 + 3) tf_float32 (Some [])) eq_refl);
    [ | reflexivity | apply Forall_nil ].
  reflexivity.
Qed.

Lemma run_err_1pc :
  session_run feed vars G (nn_err_1pc nn) =
    error_rate_value (Fin (1 # 100)) (relative_error_value P L).
Proof.
  unfold error_rate_value.
  rewrite <- (run_relative_error
                (mkTensor (p + 5 + 2) tf_float32
                   (Some [None; Some nb_labels])))
    by (cbn [tensor_id]; lia).
  accuracy_node 11%nat.
  fold_run 10%nat (Some [None; Some nb_labels]).
  accuracy_node 10%nat.
  fold (session_run feed vars G
          (mkTensor (p + 5 + 9) tf_bool (Some [None; Some nb_labels]))).
  accuracy_node 9%nat.
  fold_run 2%nat (Some [None; Some nb_labels]).
  fold_run 8%nat (Some (@nil Dimension)).
  rewrite (run_accuracy_node 8%nat _
             (mkTensor (p + 5 + 8) tf_float32 (Some [])) eq_refl);
    [ | reflexivity | apply Forall_nil ].
  reflexivity.
Qed.

Ltac inputs_precede :=
  cbn [node_op op_inputs];
  repeat (apply Forall_cons;
          [ cbn [tensor_id prediction_tensor labels_placeholder];
            unfold p, prediction_id; lia | ]);
  apply Forall_nil.

(** The loss is the mean of the squared differences. *)
Lemma run_loss :
  session_run feed vars G (nn_loss nn) = loss_value P L.
Proof.
  unfold loss_value, session_run.
  rewrite (run_nodes_at feed vars (nodes G) (p + 1 + 2) _ (nn_loss nn)
             (eq_trans (dense_nn_nodes_loss 2 ltac:(lia)) eq_refl));
    [ | unfold nn, dense_nn_bundle, p; cbn [tensor_id nn_loss]; lia
      | inputs_precede ].
  cbn [node_op eval_op].
  rewrite (run_nodes_at feed vars (nodes G) (p + 1 + 1) _ _
             (eq_trans (dense_nn_nodes_loss 1 ltac:(lia)) eq_refl));
    [ | cbn [tensor_id]; lia | inputs_precede ].
  cbn [node_op eval_op].
  rewrite (run_nodes_at feed vars (nodes G) (p + 1 + 0) _ _
             (eq_trans (dense_nn_nodes_loss 0 ltac:(lia)) eq_refl));
    [ | cbn [tensor_id]; lia | inputs_precede ].
  reflexivity.
Qed.

(** The prediction head applies its variables to the output of the last
    hidden layer and rectifies. *)
Lemma run_predictions :
  layer_sizes <> [] ->
  P = match vars p with
      | Some (kernel, bias) =>
          bind1 (eval_dense nb_labels (Some tf_nn_relu) kernel bias)
            (session_run feed vars G (last_hidden_output layer_sizes))
      | None => None
      end.
Proof.
  intros Hne. unfold P, session_run.
  rewrite (run_nodes_at feed vars (nodes G) p
             (prediction_node layer_sizes nb_labels seed)).
  - reflexivity.
  - apply dense_nn_nodes_prediction.
  - reflexivity.
  - cbn [prediction_node dense_relu_node node_op op_inputs].
    apply Forall_cons; [|apply Forall_nil].
    unfold last_hidden_output, layer_output, p, prediction_id.
    cbn [tensor_id].
    destruct layer_sizes; [congruence | cbn [length]; lia].
Qed.

(** The labels are the fed value, when it fits the placeholder. *)
Lemma run_labels :
  L = match feed_lookup feed 1 with
      | Some v =>
          if value_fits tf_float32 (Some [None; Some nb_labels]) v
          then Some v else None
      | None => None
      end.
Proof.
  unfold L, session_run.
  rewrite (run_nodes_at feed vars (nodes G) 1
             (mkNode []
                (Placeholder tf_float32 (Some [None; Some nb_labels])
                   "labels")
                tf_float32 (Some [None; Some nb_labels]))).
  - reflexivity.
  - reflexivity.
  - reflexivity.
  - apply Forall_nil.
Qed.

End AssembledRun.

(** *** Elementwise facts *)

Lemma f32_relu_not_negative (x : float32) :
  f32_ltb (f32_relu x) f32_zero = false.
Proof.
  unfold f32_relu. destruct (f32_ltb x f32_zero) eqn:E; [reflexivity|exact E].
Qed.

Lemma f32_relu_number_nonneg (x : float32) :
  x <> NaN -> f32_leb f32_zero (f32_relu x) = true.
Proof.
  intros Hx. unfold f32_relu, f32_ltb, f32_zero.
  destruct x as [q| | |]; try congruence; try reflexivity.
  destruct (q ?= 0)%Q eqn:E; unfold f32_leb.
  - rewrite <- (Qcompare_antisym q 0), E. reflexivity.
  - reflexivity.
  - rewrite <- (Qcompare_antisym q 0), E. reflexivity.
Qed.

(** Every element of a tensor has the property. *)
Definition all_elements (Q : float32 -> Prop) (m : matrix) : Prop :=
  Forall (Forall Q) m.

(** *** Means of boolean masks *)

Definition count_true (bs : list bool) : nat :=
  length (filter (fun b => b) bs).

(** The fraction of true entries of a non-empty mask. *)
Definition fraction_true (bs : list bool) : Q :=
  inject_Z (Z.of_nat (count_true bs)) / inject_Z (Z.of_nat (length bs)).

Lemma f32_sum_bools_from (bs : list bool) (a : Q) :
  exists q,
    fold_left f32_add (map f32_of_bool bs) (Fin a) = Fin q /\
    (q == a + inject_Z (Z.of_nat (count_true bs)))%Q.
Proof.
  revert a. induction bs as [|b bs IH]; intros a.
  - exists a. split; [reflexivity|]. unfold count_true. cbn. ring.
  - cbn [map fold_left].
    destruct b; cbn [f32_of_bool f32_one f32_zero f32_add].
    + destruct (IH (a + 1)%Q) as [q [Hq Heq]].
      exists q. split; [exact Hq|].
      rewrite Heq. unfold count_true. cbn [filter length].
      rewrite Nat2Z.inj_succ, <- Z.add_1_r, inject_Z_plus. ring.
    + destruct (IH (a + 0)%Q) as [q [Hq Heq]].
      exists q. split; [exact Hq|].
      rewrite Heq. unfold count_true. cbn [filter]. ring.
Qed.

Lemma inject_nat_pos (n : nat) :
  (0 < n)%nat -> (inject_Z (Z.of_nat n) ?= 0)%Q = Gt.
Proof.
  intros H. apply Qgt_alt. change 0%Q with (inject_Z 0).
  rewrite <- Zlt_Qlt. lia.
Qed.

(** The mean of a non-empty mask cast to floats is the fraction of its
    true entries, a number. *)
Lemma f32_mean_bools (bs : list bool) :
  bs <> [] ->
  exists q, f32_mean (map f32_of_bool bs) = Fin q /\
            (q == fraction_true bs)%Q.
Proof.
  intros Hne. unfold f32_mean, f32_sum, f32_zero.
  destruct (f32_sum_bools_from bs 0) as [s [Hs Heq]].
  rewrite Hs, length_map. unfold f32_of_nat, f32_div.
  rewrite inject_nat_pos by (destruct bs; [congruence | cbn; lia]).
  eexists. split; [reflexivity|].
  unfold fraction_true. rewrite Heq. field.
  intros H0. apply Qeq_alt in H0.
  rewrite inject_nat_pos in H0 by (destruct bs; [congruence | cbn; lia]).
  discriminate.
Qed.

(** The mean of an empty tensor is not a number. *)
Lemma f32_mean_empty : f32_mean [] = NaN.
Proof. reflexivity. Qed.

Lemma count_true_le_length (bs : list bool) :
  (count_true bs <= length bs)%nat.
Proof. unfold count_true. apply filter_length_le. Qed.

(** A pointwise weaker test has at least as many true entries. *)
Lemma count_true_mono {A : Type} (f g : A -> bool) (xs : list A) :
  (forall x, f x = true -> g x = true) ->
  (count_true (map f xs) <= count_true (map g xs))%nat.
Proof.
  intros Himp. unfold count_true.
  induction xs as [|x xs IH]; [apply Nat.le_refl|].
  cbn [map filter].
  destruct (f x) eqn:Ef.
  - rewrite (Himp x Ef). cbn [length]. lia.
  - destruct (g x); cbn [length]; lia.
Qed.

(** Exceeding the two-percent threshold implies exceeding the one-percent
    threshold. *)
Lemma exceeds_2pc_exceeds_1pc (x : float32) :
  f32_greater x (Fin (2 # 100)) = true ->
  f32_greater x (Fin (1 # 100)) = true.
Proof.
  unfold f32_greater, f32_ltb.
  destruct x as [q| | |]; try discriminate; try reflexivity.
  destruct (2 # 100 ?= q)%Q eqn:E; try discriminate. intros _.
  assert (H : ((1 # 100) ?= q)%Q = Lt).
  { apply Qlt_alt. apply Qlt_trans with (y := (2 # 100)%Q);
      [reflexivity | apply Qlt_alt, E]. }
  rewrite H. reflexivity.
Qed.

Lemma fraction_true_mono (bs cs : list bool) :
  length bs = length cs -> bs <> [] ->
  (count_true bs <= count_true cs)%nat ->
  (fraction_true bs <= fraction_true cs)%Q.
Proof.
  intros Hlen Hne Hle. unfold fraction_true. rewrite <- Hlen.
  assert (Hpos : (0 < inject_Z (Z.of_nat (length bs)))%Q).
  { change 0%Q with (inject_Z 0). rewrite <- Zlt_Qlt.
    destruct bs; [congruence | cbn [length]; lia]. }
  unfold Qdiv. apply Qmult_le_compat_r.
  - rewrite <- Zle_Qle. lia.
  - apply Qlt_le_weak, Qinv_lt_0_compat, Hpos.
Qed.

(** The rate over the one-percent mask is never below the rate over the
    two-percent mask. *)
Lemma error_rates_ordered (xs : list float32) :
  let e2 := f32_mean (map f32_of_bool
                        (map (fun x => f32_greater x (Fin (2 # 100))) xs)) in
  let e1 := f32_mean (map f32_of_bool
                        (map (fun x => f32_greater x (Fin (1 # 100))) xs)) in
  f32_greater e2 e1 = false /\ (xs <> [] -> f32_leb e2 e1 = true).
Proof.
  intros e2 e1. subst e2 e1.
  destruct xs as [|x xs]; [split; [reflexivity | congruence]|].
  set (b2 := map (fun x => f32_greater x (Fin (2 # 100))) (x :: xs)).
  set (b1 := map (fun x => f32_greater x (Fin (1 # 100))) (x :: xs)).
  destruct (f32_mean_bools b2) as [q2 [H2 E2]]; [discriminate|].
  destruct (f32_mean_bools b1) as [q1 [H1 E1]]; [discriminate|].
  rewrite H2, H1.
  assert (Hle : (q2 <= q1)%Q).
  { rewrite E2, E1. apply fraction_true_mono.
    - unfold b2, b1. rewrite !length_map. reflexivity.
    - discriminate.
    - apply count_true_mono, exceeds_2pc_exceeds_1pc. }
  pose proof (proj1 (Qle_alt q2 q1) Hle) as Hc.
  unfold f32_greater, f32_ltb, f32_leb.
  rewrite <- (Qcompare_antisym q2 q1).
  destruct (q2 ?= q1)%Q eqn:E.
  - split; reflexivity.
  - split; reflexivity.
  - exfalso. apply Hc. reflexivity.
Qed.

(** *** The metric functions on tensors *)

(** The elements of a tensor that exceed [c]. *)
Definition exceeds_mask (c : float32) (r : matrix) : list bool :=
  map (fun x => f32_greater x c) (concat r).

Lemma error_rate_matrix (c : float32) (r : matrix) :
  error_rate_value c (Some (VMatrix r)) =
    Some (VScalar (f32_mean (map f32_of_bool (exceeds_mask c r)))).
Proof.
  unfold error_rate_value, exceeds_mask.
  cbn [bind2 eval_greater eval_binary bind1 eval_cast eval_mean].
  rewrite <- !concat_map. reflexivity.
Qed.

(** [|p - l| / l] on one element. *)
Definition relative_error_elt (p l : float32) : float32 :=
  f32_div (f32_abs (f32_sub p l)) l.

(** Elementwise combination of two tensors of the same shape. *)
Definition zip_rows {C : Type} (f : float32 -> float32 -> C)
    (xs ys : list float32) : list C :=
  map (fun q => f (fst q) (snd q)) (combine xs ys).

Definition zip_matrix {C : Type} (f : float32 -> float32 -> C)
    (m1 m2 : matrix) : list (list C) :=
  map (fun rows => zip_rows f (fst rows) (snd rows)) (combine m1 m2).

(** The element at row [i], column [j]. *)
Definition elt {A : Type} (m : list (list A)) (i j : nat) : option A :=
  match nth_error m i with
  | Some row => nth_error row j
  | None => None
  end.

Lemma all_some_map_Some {A B : Type} (f : A -> B) (l : list A) :
  all_some (map (fun a => Some (f a)) l) = Some (map f l).
Proof.
  induction l as [|a l IH]; [reflexivity|].
  cbn [map all_some]. rewrite IH. reflexivity.
Qed.

Lemma broadcast_zip_same_length {A B C : Type} (f : A -> B -> option C)
    (xs : list A) (ys : list B) :
  length xs = length ys ->
  broadcast_zip f xs ys =
    all_some (map (fun q => f (fst q) (snd q)) (combine xs ys)).
Proof.
  intros Hlen. unfold broadcast_zip.
  destruct xs as [|x [|x' xs]], ys as [|y [|y' ys]];
    cbn [length] in Hlen; try discriminate; try reflexivity.
  cbn [length]. injection Hlen as Hlen. rewrite Hlen, Nat.eqb_refl.
  reflexivity.
Qed.

Lemma broadcast_rows_same_length {C : Type} (f : float32 -> float32 -> C)
    (xs ys : list float32) :
  length xs = length ys ->
  broadcast_zip (fun a b => Some (f a b)) xs ys = Some (zip_rows f xs ys).
Proof.
  intros Hlen. rewrite broadcast_zip_same_length by assumption.
  apply (all_some_map_Some (fun q => f (fst q) (snd q))).
Qed.

(** Two tensors with as many rows and [n] columns each. *)
Definition same_shape (n : nat) (m1 m2 : matrix) : Prop :=
  length m1 = length m2 /\
  Forall (fun row => length row = n) m1 /\
  Forall (fun row => length row = n) m2.

Lemma all_some_zip_rows {C : Type} (f : float32 -> float32 -> C) (n : nat)
    (m1 m2 : matrix) :
  Forall (fun row => length row = n) m1 ->
  Forall (fun row => length row = n) m2 ->
  all_some
    (map (fun q => broadcast_zip (fun a b => Some (f a b)) (fst q) (snd q))
       (combine m1 m2)) =
    Some (zip_matrix f m1 m2).
Proof.
  revert m2. induction m1 as [|r1 m1 IH]; intros m2 H1 H2; [reflexivity|].
  destruct m2 as [|r2 m2]; [reflexivity|].
  inversion H1; inversion H2; subst.
  cbn [combine map all_some fst snd].
  rewrite broadcast_rows_same_length by congruence.
  unfold zip_matrix in *. rewrite IH by assumption. reflexivity.
Qed.

Lemma broadcast_matrix_same_shape {C : Type} (f : float32 -> float32 -> C)
    (n : nat) (m1 m2 : matrix) :
  same_shape n m1 m2 ->
  broadcast_matrix f m1 m2 = Some (zip_matrix f m1 m2).
Proof.
  intros [Hlen [H1 H2]]. unfold broadcast_matrix.
  rewrite broadcast_zip_same_length by assumption.
  apply (all_some_zip_rows f n); assumption.
Qed.

Lemma zip_rows_length {C : Type} (f : float32 -> float32 -> C)
    (xs ys : list float32) :
  length xs = length ys -> length (zip_rows f xs ys) = length xs.
Proof.
  intros H. unfold zip_rows. rewrite length_map, length_combine. lia.
Qed.

Lemma zip_matrix_shape (f : float32 -> float32 -> float32)
    (n : nat) (m1 m2 : matrix) :
  same_shape n m1 m2 -> same_shape n (zip_matrix f m1 m2) m2.
Proof.
  intros [Hlen [H1 H2]]. split; [|split; [|assumption]].
  - unfold zip_matrix. rewrite length_map, length_combine. lia.
  - clear Hlen. revert m2 H2.
    induction H1 as [|r1 m1 Hr1 H1 IH]; intros m2 H2; [constructor|].
    destruct m2 as [|r2 m2]; [constructor|].
    inversion H2; subst.
    unfold zip_matrix. cbn [combine map fst snd]. constructor.
    + rewrite zip_rows_length; congruence.
    + apply IH; assumption.
Qed.

Lemma map_shape (f : float32 -> float32) (n : nat) (m1 m2 : matrix) :
  same_shape n m1 m2 -> same_shape n (map (map f) m1) m2.
Proof.
  intros [Hlen [H1 H2]]. split; [|split; [|assumption]].
  - rewrite length_map. assumption.
  - apply Forall_map. eapply Forall_impl; [|exact H1].
    intros row Hrow. cbn beta. rewrite length_map. assumption.
Qed.

Lemma elt_zip_matrix {C : Type} (f : float32 -> float32 -> C)
    (m1 m2 : matrix) (i j : nat) (a b : float32) :
  elt m1 i j = Some a -> elt m2 i j = Some b ->
  elt (zip_matrix f m1 m2) i j = Some (f a b).
Proof.
  unfold elt, zip_matrix, zip_rows.
  destruct (nth_error m1 i) as [r1|] eqn:E1; [|discriminate].
  destruct (nth_error m2 i) as [r2|] eqn:E2; [|discriminate].
  intros Ha Hb.
  rewrite nth_error_map.
  assert (Hc : nth_error (combine m1 m2) i = Some (r1, r2)).
  { clear Ha Hb. revert m2 i E1 E2.
    induction m1 as [|x m1 IH]; intros m2 i E1 E2;
      [destruct i; discriminate|].
    destruct m2 as [|y m2]; [destruct i; discriminate|].
    destruct i as [|i]; cbn in *; [congruence|]. apply IH; assumption. }
  rewrite Hc. cbn [option_map fst snd].
  rewrite nth_error_map.
  assert (Hd : nth_error (combine r1 r2) j = Some (a, b)).
  { clear E1 E2 Hc. revert r2 j Ha Hb.
    induction r1 as [|x r1 IH]; intros r2 j Ha Hb;
      [destruct j; discriminate|].
    destruct r2 as [|y r2]; [destruct j; discriminate|].
    destruct j as [|j]; cbn in *; [congruence|]. apply IH; assumption. }
  rewrite Hd. reflexivity.
Qed.

Lemma elt_map {A B : Type} (f : A -> B) (m : list (list A)) (i j : nat)
    (a : A) :
  elt m i j = Some a -> elt (map (map f) m) i j = Some (f a).
Proof.
  unfold elt. rewrite nth_error_map.
  destruct (nth_error m i) as [row|]; [|discriminate].
  cbn [option_map]. rewrite nth_error_map. intros ->. reflexivity.
Qed.

Lemma elt_in_concat {A : Type} (m : list (list A)) (i j : nat) (a : A) :
  elt m i j = Some a -> In a (concat m).
Proof.
  unfold elt. destruct (nth_error m i) as [row|] eqn:E; [|discriminate].
  intros Hj. apply in_concat. exists row. split.
  - eapply nth_error_In, E.
  - eapply nth_error_In, Hj.
Qed.

(** On two tensors of the same shape the relative error exists, has that
    shape, and is [relative_error_elt] position by position. *)
Lemma relative_error_same_shape (n : nat) (Pm Lm : matrix) :
  same_shape n Pm Lm ->
  exists r,
    relative_error_value (Some (VMatrix Pm)) (Some (VMatrix Lm)) =
      Some (VMatrix r) /\
    same_shape n r Lm /\
    forall i j p l,
      elt Pm i j = Some p -> elt Lm i j = Some l ->
      elt r i j = Some (relative_error_elt p l).
Proof.
  intros Hs.
  pose proof (zip_matrix_shape f32_sub n Pm Lm Hs) as Hs1.
  pose proof (map_shape f32_abs n _ Lm Hs1) as Hs2.
  pose proof (zip_matrix_shape f32_div n _ Lm Hs2) as Hs3.
  eexists. split; [|split].
  - unfold relative_error_value.
    cbn [bind2 eval_sub eval_binary].
    rewrite (broadcast_matrix_same_shape f32_sub n) by assumption.
    cbn [option_map bind1 eval_abs eval_unary bind2 eval_div eval_binary].
    rewrite (broadcast_matrix_same_shape f32_div n) by assumption.
    reflexivity.
  - exact Hs3.
  - intros i j p l Hp Hl. unfold relative_error_elt.
    apply elt_zip_matrix; [|assumption].
    apply elt_map. apply elt_zip_matrix; assumption.
Qed.

(** *** The relative error of one element *)

Lemma Qdiv_nonneg_neg (x q : Q) :
  (0 <= x)%Q -> (q < 0)%Q -> (x / q <= 0)%Q.
Proof.
  intros Hx Hq.
  assert (Hnz : ~ (q == 0)%Q) by (intros H0; rewrite H0 in Hq; discriminate).
  assert (Hpos : (0 < - q)%Q).
  { apply Qopp_lt_compat in Hq. exact Hq. }
  assert (Hdiv : (0 <= x / - q)%Q).
  { apply Qle_shift_div_l; [exact Hpos|]. rewrite Qmult_0_l. exact Hx. }
  assert (Heq : (x / q == - (x / - q))%Q).
  { field. exact Hnz. }
  rewrite Heq. apply Qopp_le_compat in Hdiv. exact Hdiv.
Qed.

Lemma f32_ltb_Fin (a b : Q) :
  f32_ltb (Fin a) (Fin b) = true <-> (a < b)%Q.
Proof.
  unfold f32_ltb. rewrite Qlt_alt.
  destruct (a ?= b)%Q; split; congruence.
Qed.

Lemma f32_leb_Fin (a b : Q) :
  f32_leb (Fin a) (Fin b) = true <-> (a <= b)%Q.
Proof.
  unfold f32_leb. rewrite Qle_alt.
  destruct (a ?= b)%Q; split; congruence.
Qed.

(** A value that is not above zero is not above a positive threshold. *)
Lemma not_positive_not_exceeding (r : float32) (c : Q) :
  (0 < c)%Q -> f32_ltb f32_zero r = false -> f32_greater r (Fin c) = false.
Proof.
  intros Hc Hr. unfold f32_greater.
  destruct r as [q| | |]; try reflexivity; try discriminate.
  destruct (f32_ltb (Fin c) (Fin q)) eqn:E; [|reflexivity].
  apply f32_ltb_Fin in E.
  assert (H0 : f32_ltb f32_zero (Fin q) = true).
  { apply f32_ltb_Fin. apply Qlt_trans with (y := c); assumption. }
  congruence.
Qed.

(** Under a strictly negative label the relative error is never above
    zero, whatever the prediction; it is at most zero when the label is
    finite and the prediction is a number. *)
Lemma relative_error_negative_label (p l : float32) :
  f32_ltb l f32_zero = true ->
  f32_ltb f32_zero (relative_error_elt p l) = false /\
  (forall q, l = Fin q -> p <> NaN ->
             f32_leb (relative_error_elt p l) f32_zero = true).
Proof.
  intros Hl. unfold relative_error_elt.
  destruct l as [q| | |]; try discriminate.
  - apply f32_ltb_Fin in Hl.
    assert (Hcmp : (q ?= 0)%Q = Lt) by (apply Qlt_alt, Hl).
    destruct p as [a| | |];
      cbn [f32_sub f32_neg f32_add f32_abs]; unfold f32_div; rewrite ?Hcmp.
    + assert (Hle : (Qabs (a + - q) / q <= 0)%Q)
        by (apply Qdiv_nonneg_neg; [apply Qabs_nonneg | exact Hl]).
      split.
      * destruct (f32_ltb f32_zero (Fin (Qabs (a + - q) / q))) eqn:E;
          [|reflexivity].
        apply f32_ltb_Fin in E. apply Qlt_not_le in E. contradiction.
      * intros _ _ _. apply f32_leb_Fin. exact Hle.
    + split; [reflexivity | intros; reflexivity].
    + split; [reflexivity | intros; reflexivity].
    + split; [reflexivity | intros; congruence].
  - split; [|intros; discriminate].
    destruct p; reflexivity.
Qed.

(** Under a zero label the relative error is an infinity or not a
    number. *)
Lemma relative_error_zero_label (p : float32) (q : Q) :
  (q == 0)%Q -> f32_is_artifact (relative_error_elt p (Fin q)) = true.
Proof.
  intros Hq. unfold relative_error_elt.
  assert (Hcmp : (q ?= 0)%Q = Eq) by (apply Qeq_alt, Hq).
  destruct p as [a| | |];
    cbn [f32_sub f32_neg f32_add f32_abs]; unfold f32_div; rewrite ?Hcmp;
    try reflexivity.
  destruct (Qabs (a + - q) ?= 0)%Q; reflexivity.
Qed.

(** ** What a call that returns has done *)

Lemma py_getitem_inv {A : Type} (l : list A) (i : nat) (a : A) :
  py_getitem l (Z.of_nat i) = Ok a -> nth_error l i = Some a.
Proof.
  unfold py_getitem. cbv zeta.
  destruct (Z.ltb_spec (Z.of_nat i) 0) as [Hneg|_]; [lia|].
  destruct (Z.ltb_spec (Z.of_nat i) 0) as [Hneg|_]; [lia|].
  cbn [orb]. destruct (Z.of_nat (length l) <=? Z.of_nat i); [discriminate|].
  rewrite Nat2Z.id. destruct (nth_error l i); congruence.
Qed.

Lemma py_getitem_short {A : Type} (l : list A) (i : nat) :
  (length l <= i)%nat -> py_getitem l (Z.of_nat i) = Raise IndexError.
Proof.
  intros H. unfold py_getitem. cbv zeta.
  destruct (Z.ltb_spec (Z.of_nat i) 0) as [Hneg|_]; [lia|].
  destruct (Z.ltb_spec (Z.of_nat i) 0) as [Hneg|_]; [lia|].
  destruct (Z.leb_spec (Z.of_nat (length l)) (Z.of_nat i)) as [_|Hlt]; [|lia].
  reflexivity.
Qed.

(** The operation a call of [dense_relu] registers, whatever standard
    deviation the initializer got. *)
Definition dense_node (scope : list string) (inputs : Tensor)
    (units seed : Z) (stddev : PyFloat.float) (dims : list Dimension) : node :=
  mkNode scope
    (Dense inputs units (Some tf_nn_relu)
       (truncated_normal_initializer stddev seed))
    tf_float32 (Some (removelast dims ++ [Some units])).

Lemma dense_relu_success (inputs : Tensor) (units seed : Z) (name : string)
    (g g' : Graph) (out : Tensor) :
  dense_relu inputs units seed name g = Ok (out, g') ->
  exists dims d stddev,
    tensor_shape inputs = Some dims /\
    nth_error dims 1 = Some (Some d) /\
    he_stddev (Some d) = Ok stddev /\
    in_graph inputs g = true /\
    tensor_dtype inputs = tf_float32 /\
    valid_dim (Some units) = true /\
    out = mkTensor (length (nodes g)) tf_float32
            (Some (removelast dims ++ [Some units])) /\
    g' = mkGraph
           (nodes g ++
              [dense_node (scopes g ++ [name]) inputs units seed stddev dims])
           (scopes g).
Proof.
  unfold dense_relu, bind, lift, as_list. intros H.
  destruct (tensor_shape inputs) as [dims|] eqn:Hs; [|discriminate].
  destruct (py_getitem dims 1) as [d|e] eqn:Hd; [|discriminate].
  change 1 with (Z.of_nat 1) in Hd. apply py_getitem_inv in Hd.
  unfold with_name_scope, bind, lift in H.
  destruct d as [d|]; [|discriminate].
  destruct (he_stddev (Some d)) as [sd|e] eqn:Hsd; [|discriminate].
  unfold tf_layers_dense, bind, check_in_graph, check_dtype in H.
  unfold in_graph in *. cbn [nodes scopes] in H.
  destruct (tensor_id inputs <? length (nodes g))%nat eqn:Hin; [|discriminate].
  destruct (tensor_dtype inputs) eqn:Hdt; cbn [dtype_eqb] in H;
    try discriminate.
  unfold ret at 1 in H. rewrite Hs in H.
  destruct (length dims <? 2)%nat; [discriminate|].
  destruct (last dims None) as [dl|]; [|discriminate].
  destruct (valid_dim (Some units)) eqn:Hu; [|discriminate].
  destruct (kernel_fits dl units); [|discriminate].
  unfold add_op, ret in H. cbn [nodes scopes] in H.
  injection H as <- <-.
  exists dims, d, sd. repeat split; assumption.
Qed.








(** * The claims *)

(** ** Construction *)

(** The seed of the kernel initializer of every dense layer of a graph, in
    creation order. *)
Definition dense_seeds (ns : list node) : list Z :=
  flat_map (fun n => match node_op n with
                     | Dense _ _ _ (truncated_normal_initializer _ s) => [s]
                     | _ => []
                     end) ns.

Lemma dense_seeds_app (a b : list node) :
  dense_seeds (a ++ b) = dense_seeds a ++ dense_seeds b.
Proof. unfold dense_seeds. apply flat_map_app. Qed.

Lemma hidden_stack_seeds seed tp pk base previous dim_in i sizes :
  dense_seeds (hidden_stack seed tp pk base previous dim_in i sizes) =
    repeat seed (length sizes).
Proof.
  revert base previous dim_in i.
  induction sizes as [|u rest IH]; intros; [reflexivity|].
  cbn [hidden_stack]. rewrite dense_seeds_app, IH. reflexivity.
Qed.

(** The float is within half a unit of the fourth decimal of [d]. *)
Definition rounds_to_4_decimals (x : PyFloat.float) (d : Q) : Prop :=
  exists q, PyFloat.to_Q x = Some q /\ (Qabs (q - d) < 5 # 100000)%Q.

(** The square of the float is [v] up to [10^-15]. *)
Definition squares_to (x : PyFloat.float) (v : Q) : Prop :=
  exists q, PyFloat.to_Q x = Some q /\
            (Qabs (q * q - v) < 1 # 1000000000000000)%Q.

Lemma he_stddev_10 :
  he_stddev (Some 10) = Ok (S754_finite false 8056283928194521 (-54)).
Proof. vm_compute. reflexivity. Qed.

Lemma he_stddev_256 :
  he_stddev (Some 256) = Ok (S754_finite false 6369051672525773 (-56)).
Proof. vm_compute. reflexivity. Qed.

(** C2 -- Whenever [dense_relu] returns, the static shape of its input
    has a known second dimension [dim_in] and the call has registered
    exactly one operation: a dense layer on the input, with the given
    number of units and ReLU activation, whose kernel initializer is the
    truncated normal with standard deviation [sqrt(2.0/dim_in)] and the
    given seed; the handle returned is the one of that operation.  The
    standard deviation is the double [he_stddev_value dim_in] for every
    positive [dim_in] up to [2^63 - 1]; [dim_in = 10] gives 0.4472 and
    [dim_in = 256] gives 0.0884 to four decimals, each squaring to
    [2/dim_in]. *)
Theorem dense_relu_he_initializer (g g' : Graph) (inputs out : Tensor)
    (units seed : Z) (name : string) :
  dense_relu inputs units seed name g = Ok (out, g') ->
  (exists dims dim_in stddev n,
      tensor_shape inputs = Some dims /\
      nth_error dims 1 = Some (Some dim_in) /\
      he_stddev (Some dim_in) = Ok stddev /\
      (0 < dim_in <= dim_max -> stddev = he_stddev_value dim_in) /\
      nodes g' = nodes g ++ [n] /\
      tensor_id out = length (nodes g) /\
      node_op n =
        Dense inputs units (Some tf_nn_relu)
          (truncated_normal_initializer stddev seed)) /\
  he_stddev (Some 10) = Ok (he_stddev_value 10) /\
  rounds_to_4_decimals (he_stddev_value 10) (4472 # 10000) /\
  squares_to (he_stddev_value 10) (2 # 10) /\
  he_stddev (Some 256) = Ok (he_stddev_value 256) /\
  rounds_to_4_decimals (he_stddev_value 256) (884 # 10000) /\
  squares_to (he_stddev_value 256) (2 # 256).
Proof.
  intros H.
  destruct (dense_relu_success _ _ _ _ _ _ _ H)
    as [dims [d [sd [Hs [Hd [Hsd [_ [_ [_ [-> ->]]]]]]]]]].
  split.
  { exists dims, d, sd,
      (dense_node (scopes g ++ [name]) inputs units seed sd dims).
    split; [exact Hs|]. split; [exact Hd|]. split; [exact Hsd|].
    split; [|repeat split].
    intros Hrange. rewrite (he_stddev_positive_dim d Hrange) in Hsd.
    injection Hsd as <-. reflexivity. }
  split; [vm_compute; reflexivity|].
  split; [eexists; split; [vm_compute; reflexivity|]; vm_compute; reflexivity|].
  split; [eexists; split; [vm_compute; reflexivity|]; vm_compute; reflexivity|].
  split; [vm_compute; reflexivity|].
  split; eexists; (split; [vm_compute; reflexivity|]); vm_compute; reflexivity.
Qed.

Lemma dense_relu_he_initializer_witness :
  let inputs := mkTensor 0 tf_float32 (Some [None; Some 10]) in
  let g := mkGraph (placeholder_nodes 10 1) [] in
  let out := mkTensor 4 tf_float32 (Some [None; Some 32]) in
  let g' :=
    mkGraph
      (placeholder_nodes 10 1 ++
         [dense_relu_node ["dense_relu"%string] inputs 32 7 [None; Some 10]
            10])
      [] in
  dense_relu inputs 32 7 "dense_relu" g = Ok (out, g') /\
  (exists dims dim_in stddev n,
      tensor_shape inputs = Some dims /\
      nth_error dims 1 = Some (Some dim_in) /\
      he_stddev (Some dim_in) = Ok stddev /\
      (0 < dim_in <= dim_max -> stddev = he_stddev_value dim_in) /\
      nodes g' = nodes g ++ [n] /\
      tensor_id out = length (nodes g) /\
      node_op n =
        Dense inputs 32 (Some tf_nn_relu)
          (truncated_normal_initializer stddev 7)) /\
  he_stddev (Some 10) = Ok (he_stddev_value 10) /\
  rounds_to_4_decimals (he_stddev_value 10) (4472 # 10000) /\
  squares_to (he_stddev_value 10) (2 # 10) /\
  he_stddev (Some 256) = Ok (he_stddev_value 256) /\
  rounds_to_4_decimals (he_stddev_value 256) (884 # 10000) /\
  squares_to (he_stddev_value 256) (2 # 256).
Proof.
  cbv zeta.
  assert (Hrun :
    dense_relu (mkTensor 0 tf_float32 (Some [None; Some 10])) 32 7
      "dense_relu" (mkGraph (placeholder_nodes 10 1) []) =
    Ok (mkTensor 4 tf_float32 (Some [None; Some 32]),
        mkGraph
          (placeholder_nodes 10 1 ++
             [dense_relu_node ["dense_relu"%string]
                (mkTensor 0 tf_float32 (Some [None; Some 10])) 32 7
                [None; Some 10] 10])
          []))
    by (vm_compute; reflexivity).
  split; [exact Hrun|].
  exact (dense_relu_he_initializer _ _ _ _ _ _ _ Hrun).
Defined.



(** The last operation of a stack of hidden layers is a dropout. *)
Lemma hidden_stack_last_dropout seed tp pk base previous dim_in i front u :
  exists n x,
    nth_error (hidden_stack seed tp pk base previous dim_in i (front ++ [u]))
      (3 * length front + 2) = Some n /\
    node_op n = Dropout x pk.
Proof.
  revert base previous dim_in i.
  induction front as [|v front IH]; intros base previous dim_in i.
  - cbn. eexists _, _. split; reflexivity.
  - cbn [app hidden_stack length].
    rewrite nth_error_app2 by (cbn [length regularized_nodes]; lia).
    cbn [length regularized_nodes].
    replace (3 * S (length front) + 2 - 3)%nat
      with (3 * length front + 2)%nat by lia.
    apply IH.
Qed.

(** C1, as stated, fails: with [layer_sizes = []] the assembler raises
    [IndexError] instead of returning a bundle. *)
Lemma dense_nn_no_hidden_layer_fails :
  dense_nn 3 [] 1 7 empty_graph = Raise IndexError /\
  ~ (exists nn g, dense_nn 3 [] 1 7 empty_graph = Ok (nn, g)).
Proof.
  split; [reflexivity|].
  intros [nn [g H]]. discriminate H.
Qed.

(** C1, amended -- For every topology whose [layer_sizes] is empty,
    [dense_nn] raises an exception and returns no bundle ([IndexError] at
    [layer_sizes[0]] when the feature and label counts pass the
    placeholders).  Whenever [dense_nn] returns a bundle, [layer_sizes] has
    at least one width and the prediction head is a [dense_relu] layer of
    [nb_labels] units that reads the output of the dropout of the last
    hidden layer, not the input placeholder. *)
Theorem dense_nn_prediction_head (nb_features : Z) (layer_sizes : list Z)
    (nb_labels seed : Z) (g : Graph) :
  (layer_sizes = [] ->
     (exists e, dense_nn nb_features layer_sizes nb_labels seed g = Raise e) /\
     (valid_dim (Some nb_features) = true ->
      valid_dim (Some nb_labels) = true ->
      dense_nn nb_features layer_sizes nb_labels seed g = Raise IndexError)) /\
  (forall nn g',
      dense_nn nb_features layer_sizes nb_labels seed g = Ok (nn, g') ->
      layer_sizes <> [] /\
      exists head last_hidden init,
        nth_error (nodes g') (tensor_id (nn_predictions nn)) = Some head /\
        node_op head =
          Dense (last_hidden_output layer_sizes) nb_labels (Some tf_nn_relu)
            init /\
        nth_error (nodes g') (tensor_id (last_hidden_output layer_sizes)) =
          Some last_hidden /\
        (exists x, node_op last_hidden = Dropout x (nn_pkeep nn)) /\
        tensor_id (last_hidden_output layer_sizes) <>
          tensor_id (nn_inputs nn)).
Proof.
  split.
  - intros ->. split.
    + apply dense_nn_empty_raises.
    + apply dense_nn_empty_index_error.
  - intros nn g' Hnn.
    destruct (dense_nn_inv _ _ _ _ _ _ Hnn) as [Hvalid Hne].
    rewrite (dense_nn_ok _ _ _ _ g Hvalid Hne) in Hnn.
    injection Hnn as <- <-.
    split; [exact Hne|].
    destruct (exists_last Hne) as [front [u Hfront]].
    assert (Hlast :
      exists n x,
        nth_error (dense_nn_nodes nb_features layer_sizes nb_labels seed)
          (tensor_id (last_hidden_output layer_sizes)) = Some n /\
        node_op n = Dropout x pkeep_placeholder).
    { subst layer_sizes. unfold last_hidden_output, layer_output.
      rewrite length_app. cbn [length tensor_id].
      unfold dense_nn_nodes.
      rewrite nth_error_app2 by (cbn [length placeholder_nodes]; lia).
      cbn [length placeholder_nodes].
      rewrite nth_error_app1
        by (rewrite hidden_stack_length, length_app; cbn [length]; lia).
      replace (4 + 3 * (length front + 1 - 1) + 2 - 4)%nat
        with (3 * length front + 2)%nat by lia.
      apply hidden_stack_last_dropout. }
    destruct Hlast as [n [x [Hn Hx]]].
    exists (prediction_node layer_sizes nb_labels seed), n,
      (truncated_normal_initializer (he_stddev_value (last layer_sizes 0))
         seed).
    cbn [nodes nn_predictions nn_inputs nn_pkeep dense_nn_bundle
           prediction_tensor tensor_id inputs_placeholder].
    split; [apply (dense_nn_nodes_prediction nb_features layer_sizes
                     nb_labels seed)|].
    split; [reflexivity|].
    split; [exact Hn|].
    split; [exists x; exact Hx|].
    unfold last_hidden_output, layer_output. cbn [tensor_id]. lia.
Qed.

Lemma dense_nn_prediction_head_witness :
  exists nn g',
    dense_nn 10 [32; 16] 1 7 empty_graph = Ok (nn, g') /\
    [32; 16] <> [] /\
    exists head last_hidden init,
      nth_error (nodes g') (tensor_id (nn_predictions nn)) = Some head /\
      node_op head =
        Dense (last_hidden_output [32; 16]) 1 (Some tf_nn_relu) init /\
      nth_error (nodes g') (tensor_id (last_hidden_output [32; 16])) =
        Some last_hidden /\
      (exists x, node_op last_hidden = Dropout x (nn_pkeep nn)) /\
      tensor_id (last_hidden_output [32; 16]) <> tensor_id (nn_inputs nn).
Proof.
  destruct (dense_nn_prediction_head 10 [32; 16] 1 7 empty_graph)
    as [_ Hhead].
  exists (dense_nn_bundle 10 [32; 16] 1),
    (mkGraph (dense_nn_nodes 10 [32; 16] 1 7) []).
  assert (Hrun : dense_nn 10 [32; 16] 1 7 empty_graph =
                 Ok (dense_nn_bundle 10 [32; 16] 1,
                     mkGraph (dense_nn_nodes 10 [32; 16] 1 7) []))
    by (vm_compute; reflexivity).
  split; [exact Hrun|]. exact (Hhead _ _ Hrun).
Defined.

(** [dense_nn] resets the default graph first: what it does is the same
    whatever graph was current. *)
Lemma dense_nn_resets (nb_features : Z) (layer_sizes : list Z)
    (nb_labels seed : Z) (g : Graph) :
  dense_nn nb_features layer_sizes nb_labels seed g =
    dense_nn nb_features layer_sizes nb_labels seed empty_graph.
Proof. unfold dense_nn, bind, tf_reset_default_graph. reflexivity. Qed.

(** C10 -- In every graph [dense_nn] returns, the kernel initializers of
    the dense layers, one per hidden layer and one for the prediction head,
    all carry the seed given to [dense_nn]. *)
Theorem dense_nn_single_seed (nb_features : Z) (layer_sizes : list Z)
    (nb_labels seed : Z) (g g' : Graph) (nn : NeuralNetwork) :
  dense_nn nb_features layer_sizes nb_labels seed g = Ok (nn, g') ->
  dense_seeds (nodes g') = repeat seed (length layer_sizes + 1).
Proof.
  intros Hnn.
  destruct (dense_nn_inv _ _ _ _ _ _ Hnn) as [Hvalid Hne].
  rewrite (dense_nn_ok _ _ _ _ g Hvalid Hne) in Hnn.
  injection Hnn as <- <-.
  cbn [nodes]. unfold dense_nn_nodes.
  rewrite !dense_seeds_app, hidden_stack_seeds.
  cbn [dense_seeds flat_map placeholder_nodes node_op app prediction_node
         dense_relu_node loss_nodes accuracy_nodes].
  rewrite repeat_app. reflexivity.
Qed.

Lemma dense_nn_single_seed_witness :
  dense_seeds (dense_nn_nodes 10 [32; 16] 1 7) = [7; 7; 7].
Proof.
  apply (dense_nn_single_seed 10 [32; 16] 1 7 empty_graph
           (mkGraph (dense_nn_nodes 10 [32; 16] 1 7) [])
           (dense_nn_bundle 10 [32; 16] 1)).
  vm_compute. reflexivity.
Defined.

(** ** Runs of the assembled graph *)

Lemma dense_nn_result (nb_features : Z) (layer_sizes : list Z)
    (nb_labels seed : Z) (g0 g : Graph) (nn : NeuralNetwork) :
  dense_nn nb_features layer_sizes nb_labels seed g0 = Ok (nn, g) ->
  layer_sizes <> [] /\
  nn = dense_nn_bundle nb_features layer_sizes nb_labels /\
  g = mkGraph (dense_nn_nodes nb_features layer_sizes nb_labels seed) [].
Proof.
  intros H.
  destruct (dense_nn_inv _ _ _ _ _ _ H) as [Hvalid Hne].
  rewrite (dense_nn_ok _ _ _ _ g0 Hvalid Hne) in H.
  injection H as <- <-. repeat split. exact Hne.
Qed.

Lemma f32_relu_range (x : float32) :
  f32_ltb (f32_relu x) f32_zero = false /\
  (f32_relu x <> NaN -> f32_leb f32_zero (f32_relu x) = true).
Proof.
  split; [apply f32_relu_not_negative|].
  intros Hy. apply f32_relu_number_nonneg.
  intros ->. apply Hy. reflexivity.
Qed.

(** What holds of every output of a rectifier: it is not below zero, and
    it is at least zero unless it is not a number. *)
Definition rectified (y : float32) : Prop :=
  f32_ltb y f32_zero = false /\ (y <> NaN -> f32_leb f32_zero y = true).

Lemma eval_dense_relu_rectified (units : Z) (kernel : matrix)
    (bias : list float32) (x v : value) :
  eval_dense units (Some tf_nn_relu) kernel bias x = Some v ->
  exists m, v = VMatrix m /\
            all_elements rectified m /\
            Forall (fun row => length row = Z.to_nat units) m.
Proof.
  unfold eval_dense. destruct x as [a|m|b|m]; try discriminate.
  destruct (_ && _); [|discriminate].
  intros [= <-]. eexists; split; [reflexivity|]. split.
  - apply Forall_map, Forall_forall. intros row _.
    unfold dense_row. apply Forall_map, Forall_forall.
    intros k _. apply f32_relu_range.
  - apply Forall_map, Forall_forall. intros row _.
    unfold dense_row. rewrite length_map, length_seq. reflexivity.
Qed.

Lemma value_fits_matrix (n : Z) (v : value) :
  value_fits tf_float32 (Some [None; Some n]) v = true ->
  exists m, v = VMatrix m /\ Forall (fun row => length row = Z.to_nat n) m.
Proof.
  destruct v as [a|m|b|m]; cbn [value_fits scalar_fits]; try discriminate.
  unfold rows_fit. intros H.
  apply andb_prop in H. destruct H as [_ H].
  apply andb_prop in H. destruct H as [_ H].
  exists m. split; [reflexivity|].
  apply Forall_forall. intros row Hrow.
  rewrite forallb_forall in H. specialize (H row Hrow).
  unfold dim_matches in H. apply Z.eqb_eq in H. rewrite H.
  rewrite Nat2Z.id. reflexivity.
Qed.

Section AssembledShapes.

Context {K : Kernels}.
Variable feed : feed_dict.
Variable vars : variables.
Variables (nb_features : Z) (layer_sizes : list Z) (nb_labels seed : Z).

Let G : Graph :=
  mkGraph (dense_nn_nodes nb_features layer_sizes nb_labels seed) [].
Let nn : NeuralNetwork := dense_nn_bundle nb_features layer_sizes nb_labels.

Lemma predictions_rectified (v : value) :
  layer_sizes <> [] ->
  session_run feed vars G (nn_predictions nn) = Some v ->
  exists m, v = VMatrix m /\
            all_elements rectified m /\
            Forall (fun row => length row = Z.to_nat nb_labels) m.
Proof.
  intros Hne Hrun. unfold G, nn in Hrun.
  rewrite (run_predictions feed vars nb_features layer_sizes nb_labels seed
             Hne) in Hrun.
  destruct (vars (prediction_id layer_sizes)) as [[kernel bias]|];
    [|discriminate].
  destruct (session_run feed vars _ (last_hidden_output layer_sizes))
    as [x|]; [|discriminate].
  cbn [bind1] in Hrun.
  eapply eval_dense_relu_rectified, Hrun.
Qed.

Lemma labels_matrix (v : value) :
  session_run feed vars G (nn_labels nn) = Some v ->
  exists m, v = VMatrix m /\
            Forall (fun row => length row = Z.to_nat nb_labels) m.
Proof.
  intros Hrun. unfold G, nn in Hrun.
  rewrite (run_labels feed vars nb_features layer_sizes nb_labels seed)
    in Hrun.
  destruct (feed_lookup feed 1) as [w|]; [|discriminate].
  destruct (value_fits tf_float32 (Some [None; Some nb_labels]) w) eqn:Hfit;
    [|discriminate].
  injection Hrun as <-. apply value_fits_matrix, Hfit.
Qed.

(** Predictions and labels of one batch have the same shape. *)
Lemma run_same_shape (Pm Lm : matrix) :
  layer_sizes <> [] ->
  session_run feed vars G (nn_predictions nn) = Some (VMatrix Pm) ->
  session_run feed vars G (nn_labels nn) = Some (VMatrix Lm) ->
  length Pm = length Lm ->
  same_shape (Z.to_nat nb_labels) Pm Lm.
Proof.
  intros Hne HP HL Hlen.
  destruct (predictions_rectified _ Hne HP) as [m1 [E1 [_ H1]]].
  destruct (labels_matrix _ HL) as [m2 [E2 H2]].
  injection E1 as <-. injection E2 as <-.
  split; [assumption|]. split; assumption.
Qed.

End AssembledShapes.

Lemma error_rate_scalar (c x : float32) :
  error_rate_value c (Some (VScalar x)) =
    Some (VScalar (f32_of_bool (f32_greater x c))).
Proof. reflexivity. Qed.

(** The two rates computed from one relative error are ordered. *)
Lemma error_rates_ordered_value (R : option value) (e2 e1 : float32) :
  error_rate_value (Fin (2 # 100)) R = Some (VScalar e2) ->
  error_rate_value (Fin (1 # 100)) R = Some (VScalar e1) ->
  f32_greater e2 e1 = false /\
  (forall r, R = Some (VMatrix r) -> concat r <> [] ->
             f32_leb e2 e1 = true).
Proof.
  destruct R as [[x|r|b|m]|]; try discriminate.
  - rewrite !error_rate_scalar. intros H2 H1.
    assert (E2' : e2 = f32_of_bool (f32_greater x (Fin (2 # 100))))
      by congruence.
    assert (E1' : e1 = f32_of_bool (f32_greater x (Fin (1 # 100))))
      by congruence.
    subst e2 e1. clear H2 H1.
    split; [|intros; discriminate].
    destruct (f32_greater x (Fin (2 # 100))) eqn:E2.
    + rewrite (exceeds_2pc_exceeds_1pc x E2). reflexivity.
    + destruct (f32_greater x (Fin (1 # 100))); reflexivity.
  - rewrite !error_rate_matrix. intros H2 H1.
    assert (E2' : e2 = f32_mean (map f32_of_bool
                                   (exceeds_mask (Fin (2 # 100)) r)))
      by congruence.
    assert (E1' : e1 = f32_mean (map f32_of_bool
                                   (exceeds_mask (Fin (1 # 100)) r)))
      by congruence.
    subst e2 e1. clear H2 H1.
    unfold exceeds_mask.
    destruct (error_rates_ordered (concat r)) as [Hgt Hle].
    split; [exact Hgt|].
    intros r' [= <-] Hne. apply Hle, Hne.
Qed.

(** A batch for the network [dense_nn 1 [1] 1 seed]: one feature and one
    label per row, inference mode, every unit kept. *)
Definition batch_feed (xs ls : list Q) : feed_dict :=
  [ (inputs_placeholder 1, VMatrix (map (fun x => [Fin x]) xs));
    (labels_placeholder 1, VMatrix (map (fun x => [Fin x]) ls));
    (training_placeholder, VBool false);
    (pkeep_placeholder, VScalar f32_one) ].

(** C8 -- In every run of a graph assembled by [dense_nn], whatever is fed
    and whatever the variables hold, the value of the predictions is a
    tensor whose every element is the output of the rectifier of the
    prediction head: it is never strictly negative, and it is at least zero
    unless it is not a number. *)
Theorem predictions_never_negative {K : Kernels} (feed : feed_dict)
    (vars : variables) (nb_features : Z) (layer_sizes : list Z)
    (nb_labels seed : Z) (g0 g : Graph) (nn : NeuralNetwork) (v : value) :
  dense_nn nb_features layer_sizes nb_labels seed g0 = Ok (nn, g) ->
  session_run feed vars g (nn_predictions nn) = Some v ->
  exists m,
    v = VMatrix m /\
    all_elements
      (fun y => f32_ltb y f32_zero = false /\
                (y <> NaN -> f32_leb f32_zero y = true)) m.
Proof.
  intros Hnn Hrun.
  destruct (dense_nn_result _ _ _ _ _ _ _ Hnn) as [Hne [-> ->]].
  destruct (predictions_rectified feed vars nb_features layer_sizes
              nb_labels seed v Hne Hrun) as [m [Hv [Hall _]]].
  exists m. split; assumption.
Qed.

Lemma predictions_never_negative_witness :
  exists m,
    VMatrix [[Fin 0]; [Fin 3]] = VMatrix m /\
    all_elements
      (fun y => f32_ltb y f32_zero = false /\
                (y <> NaN -> f32_leb f32_zero y = true)) m.
Proof.
  apply (@predictions_never_negative passthrough_kernels
           (batch_feed [-2; 3]%Q [1; 1]%Q) unit_variables 1 [1] 1 0 empty_graph
           (mkGraph (dense_nn_nodes 1 [1] 1 0) []) (dense_nn_bundle 1 [1] 1)).
  - vm_compute. reflexivity.
  - vm_compute. reflexivity.
Defined.

(** The two error rates of a run, as functions of its predictions and
    labels. *)
Lemma run_error_rates {K : Kernels} (feed : feed_dict) (vars : variables)
    (nb_features : Z) (layer_sizes : list Z) (nb_labels seed : Z)
    (g0 g : Graph) (nn : NeuralNetwork) :
  dense_nn nb_features layer_sizes nb_labels seed g0 = Ok (nn, g) ->
  let R := relative_error_value
             (session_run feed vars g (nn_predictions nn))
             (session_run feed vars g (nn_labels nn)) in
  session_run feed vars g (nn_err_2pc nn) =
    error_rate_value (Fin (2 # 100)) R /\
  session_run feed vars g (nn_err_1pc nn) =
    error_rate_value (Fin (1 # 100)) R.
Proof.
  intros Hnn.
  destruct (dense_nn_result _ _ _ _ _ _ _ Hnn) as [Hne [-> ->]].
  split; [apply run_err_2pc | apply run_err_1pc].
Qed.

(** On predictions and labels of one batch the relative error is computed
    position by position. *)
Lemma run_relative_error_elementwise {K : Kernels} (feed : feed_dict)
    (vars : variables) (nb_features : Z) (layer_sizes : list Z)
    (nb_labels seed : Z) (g0 g : Graph) (nn : NeuralNetwork)
    (Pm Lm : matrix) :
  dense_nn nb_features layer_sizes nb_labels seed g0 = Ok (nn, g) ->
  session_run feed vars g (nn_predictions nn) = Some (VMatrix Pm) ->
  session_run feed vars g (nn_labels nn) = Some (VMatrix Lm) ->
  length Pm = length Lm ->
  exists r,
    relative_error_value (Some (VMatrix Pm)) (Some (VMatrix Lm)) =
      Some (VMatrix r) /\
    length r = length Lm /\
    (forall i j p l,
        elt Pm i j = Some p -> elt Lm i j = Some l ->
        elt r i j = Some (relative_error_elt p l)) /\
    session_run feed vars g (nn_err_2pc nn) =
      Some (VScalar (f32_mean (map f32_of_bool
                                 (exceeds_mask (Fin (2 # 100)) r)))) /\
    session_run feed vars g (nn_err_1pc nn) =
      Some (VScalar (f32_mean (map f32_of_bool
                                 (exceeds_mask (Fin (1 # 100)) r)))).
Proof.
  intros Hnn HP HL Hlen.
  destruct (run_error_rates feed vars _ _ _ _ _ _ _ Hnn)
    as [H2 H1].
  cbv zeta in H2, H1. rewrite HP, HL in H2, H1.
  destruct (dense_nn_result _ _ _ _ _ _ _ Hnn) as [Hne [-> ->]].
  pose proof (run_same_shape feed vars _ _ _ _ Pm Lm Hne HP HL Hlen) as Hs.
  destruct (relative_error_same_shape _ Pm Lm Hs) as [r [Hr [Hshape Helt]]].
  exists r. rewrite Hr, !error_rate_matrix in H2, H1.
  repeat split; try assumption.
  apply Hshape.
Qed.

(** C9 -- In every run whose labels and predictions form one batch, for
    every element whose label is strictly negative the relative error
    [|p - l| / l] is never above zero, whatever the prediction (and at most
    zero when the label is finite and the prediction is a number): both
    tests [> 0.02] and [> 0.01] are false at that element, which therefore
    adds nothing to [err_2pc] nor to [err_1pc]. *)
Theorem negative_label_counts_as_accurate {K : Kernels} (feed : feed_dict)
    (vars : variables) (nb_features : Z) (layer_sizes : list Z)
    (nb_labels seed : Z) (g0 g : Graph) (nn : NeuralNetwork)
    (Pm Lm : matrix) (i j : nat) (p l : float32) :
  dense_nn nb_features layer_sizes nb_labels seed g0 = Ok (nn, g) ->
  session_run feed vars g (nn_predictions nn) = Some (VMatrix Pm) ->
  session_run feed vars g (nn_labels nn) = Some (VMatrix Lm) ->
  length Pm = length Lm ->
  elt Pm i j = Some p -> elt Lm i j = Some l ->
  f32_ltb l f32_zero = true ->
  exists r,
    relative_error_value (Some (VMatrix Pm)) (Some (VMatrix Lm)) =
      Some (VMatrix r) /\
    elt r i j = Some (relative_error_elt p l) /\
    f32_ltb f32_zero (relative_error_elt p l) = false /\
    (forall q, l = Fin q -> p <> NaN ->
               f32_leb (relative_error_elt p l) f32_zero = true) /\
    session_run feed vars g (nn_err_2pc nn) =
      Some (VScalar (f32_mean (map f32_of_bool
                                 (exceeds_mask (Fin (2 # 100)) r)))) /\
    elt (map (map (fun x => f32_greater x (Fin (2 # 100)))) r) i j =
      Some false /\
    session_run feed vars g (nn_err_1pc nn) =
      Some (VScalar (f32_mean (map f32_of_bool
                                 (exceeds_mask (Fin (1 # 100)) r)))) /\
    elt (map (map (fun x => f32_greater x (Fin (1 # 100)))) r) i j =
      Some false.
Proof.
  intros Hnn HP HL Hlen Hp Hl Hneg.
  destruct (run_relative_error_elementwise feed vars _ _ _ _ _ _ _ Pm Lm
              Hnn HP HL Hlen) as [r [Hr [_ [Helt [H2 H1]]]]].
  destruct (relative_error_negative_label p l Hneg) as [Hnp Hle].
  exists r. specialize (Helt i j p l Hp Hl).
  repeat split; try assumption.
  - rewrite (elt_map _ r i j _ Helt).
    rewrite not_positive_not_exceeding; [reflexivity | reflexivity | exact Hnp].
  - rewrite (elt_map _ r i j _ Helt).
    rewrite not_positive_not_exceeding; [reflexivity | reflexivity | exact Hnp].
Qed.

Lemma negative_label_counts_as_accurate_witness :
  exists r,
    relative_error_value (Some (VMatrix [[Fin 5]; [Fin 101]]))
      (Some (VMatrix [[Fin (-4)]; [Fin 100]])) = Some (VMatrix r) /\
    elt r 0 0 = Some (relative_error_elt (Fin 5) (Fin (-4))) /\
    f32_ltb f32_zero (relative_error_elt (Fin 5) (Fin (-4))) = false /\
    (forall q, Fin (-4) = Fin q -> Fin 5 <> NaN ->
               f32_leb (relative_error_elt (Fin 5) (Fin (-4))) f32_zero
               = true) /\
    @session_run passthrough_kernels (batch_feed [5; 101]%Q [-4; 100]%Q)
      unit_variables (mkGraph (dense_nn_nodes 1 [1] 1 0) [])
      (nn_err_2pc (dense_nn_bundle 1 [1] 1)) =
      Some (VScalar (f32_mean (map f32_of_bool
                                 (exceeds_mask (Fin (2 # 100)) r)))) /\
    elt (map (map (fun x => f32_greater x (Fin (2 # 100)))) r) 0 0 =
      Some false /\
    @session_run passthrough_kernels (batch_feed [5; 101]%Q [-4; 100]%Q)
      unit_variables (mkGraph (dense_nn_nodes 1 [1] 1 0) [])
      (nn_err_1pc (dense_nn_bundle 1 [1] 1)) =
      Some (VScalar (f32_mean (map f32_of_bool
                                 (exceeds_mask (Fin (1 # 100)) r)))) /\
    elt (map (map (fun x => f32_greater x (Fin (1 # 100)))) r) 0 0 =
      Some false.
Proof.
  apply (@negative_label_counts_as_accurate passthrough_kernels
           (batch_feed [5; 101]%Q [-4; 100]%Q) unit_variables 1 [1] 1 0
           empty_graph (mkGraph (dense_nn_nodes 1 [1] 1 0) [])
           (dense_nn_bundle 1 [1] 1)).
  - vm_compute. reflexivity.
  - vm_compute. reflexivity.
  - vm_compute. reflexivity.
  - reflexivity.
  - reflexivity.
  - reflexivity.
  - reflexivity.
Defined.

(** C5, as stated, fails: no run of an assembled graph has [err_2pc]
    strictly above [err_1pc]. *)
Lemma err_2pc_never_above_err_1pc :
  ~ (exists (K : Kernels) (feed : feed_dict) (vars : variables)
            (nb_features : Z) (layer_sizes : list Z) (nb_labels seed : Z)
            (g0 g : Graph) (nn : NeuralNetwork) (e2 e1 : float32),
        dense_nn nb_features layer_sizes nb_labels seed g0 = Ok (nn, g) /\
        session_run feed vars g (nn_err_2pc nn) = Some (VScalar e2) /\
        session_run feed vars g (nn_err_1pc nn) = Some (VScalar e1) /\
        f32_greater e2 e1 = true).
Proof.
  intros (K & feed & vars & nf & ls & nl & seed & g0 & g & nn & e2 & e1 &
          Hnn & H2 & H1 & Hgt).
  destruct (run_error_rates feed vars _ _ _ _ _ _ _ Hnn)
    as [R2 R1].
  cbv zeta in R2, R1. rewrite R2 in H2. rewrite R1 in H1.
  destruct (error_rates_ordered_value _ e2 e1 H2 H1) as [Hno _].
  congruence.
Qed.

(** C5, amended -- The inequality [err_2pc <= err_1pc] is guaranteed: in
    every run of an assembled graph the fraction of elements whose relative
    error exceeds 0.02 is never strictly greater than the fraction
    exceeding 0.01, and it is at most that fraction whenever the relative
    error has at least one element (over no element both means are not
    numbers). *)
Theorem err_2pc_at_most_err_1pc {K : Kernels} (feed : feed_dict)
    (vars : variables) (nb_features : Z) (layer_sizes : list Z)
    (nb_labels seed : Z) (g0 g : Graph) (nn : NeuralNetwork)
    (e2 e1 : float32) :
  dense_nn nb_features layer_sizes nb_labels seed g0 = Ok (nn, g) ->
  session_run feed vars g (nn_err_2pc nn) = Some (VScalar e2) ->
  session_run feed vars g (nn_err_1pc nn) = Some (VScalar e1) ->
  f32_greater e2 e1 = false /\
  (forall r,
      relative_error_value (session_run feed vars g (nn_predictions nn))
        (session_run feed vars g (nn_labels nn)) = Some (VMatrix r) ->
      (concat r <> [] -> f32_leb e2 e1 = true) /\
      (concat r = [] -> e2 = NaN /\ e1 = NaN)).
Proof.
  intros Hnn H2 H1.
  destruct (run_error_rates feed vars _ _ _ _ _ _ _ Hnn)
    as [R2 R1].
  cbv zeta in R2, R1. rewrite R2 in H2. rewrite R1 in H1.
  destruct (error_rates_ordered_value _ e2 e1 H2 H1) as [Hno Hle].
  split; [exact Hno|].
  intros r Hr. split.
  - intros Hcat. apply (Hle r Hr Hcat).
  - intros Hcat. rewrite Hr, error_rate_matrix in H2, H1.
    unfold exceeds_mask in H2, H1. rewrite Hcat in H2, H1.
    cbn [map] in H2, H1. rewrite f32_mean_empty in H2, H1.
    split; congruence.
Qed.

Lemma err_2pc_at_most_err_1pc_witness :
  f32_greater (Fin (1 # 3)) (Fin (2 # 3)) = false /\
  (forall r,
      relative_error_value
        (@session_run passthrough_kernels
           (batch_feed [201; 203; 205]%Q [200; 200; 200]%Q) unit_variables
           (mkGraph (dense_nn_nodes 1 [1] 1 0) [])
           (nn_predictions (dense_nn_bundle 1 [1] 1)))
        (@session_run passthrough_kernels
           (batch_feed [201; 203; 205]%Q [200; 200; 200]%Q) unit_variables
           (mkGraph (dense_nn_nodes 1 [1] 1 0) [])
           (nn_labels (dense_nn_bundle 1 [1] 1))) = Some (VMatrix r) ->
      (concat r <> [] -> f32_leb (Fin (1 # 3)) (Fin (2 # 3)) = true) /\
      (concat r = [] -> Fin (1 # 3) = NaN /\ Fin (2 # 3) = NaN)).
Proof.
  apply (@err_2pc_at_most_err_1pc passthrough_kernels
           (batch_feed [201; 203; 205]%Q [200; 200; 200]%Q) unit_variables
           1 [1] 1 0 empty_graph (mkGraph (dense_nn_nodes 1 [1] 1 0) [])
           (dense_nn_bundle 1 [1] 1)).
  - vm_compute. reflexivity.
  - vm_compute. reflexivity.
  - vm_compute. reflexivity.
Defined.

(** C7, as stated, fails: with a zero label the relative error is
    infinite, yet both error metrics are ordinary numbers. *)
Lemma zero_label_metrics_are_numbers :
  let feed := batch_feed [1; 0; 5]%Q [0; 0; 4]%Q in
  let g := mkGraph (dense_nn_nodes 1 [1] 1 0) [] in
  let nn := dense_nn_bundle 1 [1] 1 in
  dense_nn 1 [1] 1 0 empty_graph = Ok (nn, g) /\
  relative_error_value
    (@session_run passthrough_kernels feed unit_variables g
       (nn_predictions nn))
    (@session_run passthrough_kernels feed unit_variables g (nn_labels nn)) =
    Some (VMatrix [[PInf]; [NaN]; [Fin (1 # 4)]]) /\
  @session_run passthrough_kernels feed unit_variables g (nn_err_2pc nn) =
    Some (VScalar (Fin (2 # 3))) /\
  @session_run passthrough_kernels feed unit_variables g (nn_err_1pc nn) =
    Some (VScalar (Fin (2 # 3))) /\
  f32_is_artifact (Fin (2 # 3)) = false.
Proof.
  cbv zeta. repeat split; vm_compute; reflexivity.
Qed.

Lemma exceeds_mask_nonempty (c : float32) (r : matrix) (i j : nat)
    (x : float32) :
  elt r i j = Some x -> exceeds_mask c r <> [].
Proof.
  intros Helt Hnil. apply elt_in_concat in Helt.
  unfold exceeds_mask in Hnil. apply map_eq_nil in Hnil.
  rewrite Hnil in Helt. contradiction.
Qed.

Lemma fraction_true_range (bs : list bool) :
  bs <> [] -> (0 <= fraction_true bs <= 1)%Q.
Proof.
  intros Hne. unfold fraction_true.
  assert (Hpos : (0 < inject_Z (Z.of_nat (length bs)))%Q).
  { change 0%Q with (inject_Z 0). rewrite <- Zlt_Qlt.
    destruct bs; [congruence | cbn [length]; lia]. }
  split.
  - apply Qle_shift_div_l; [exact Hpos|]. rewrite Qmult_0_l.
    change 0%Q with (inject_Z 0). rewrite <- Zle_Qle. lia.
  - apply Qle_shift_div_r; [exact Hpos|]. rewrite Qmult_1_l.
    rewrite <- Zle_Qle. pose proof (count_true_le_length bs). lia.
Qed.

(** C7, amended -- The relative error divides by the raw label with no
    guard: in every run whose labels and predictions form one batch, at
    every element whose label is exactly zero the relative error is an
    infinity or not a number, and the run does not fail for it.  The
    artifact stays in the relative error: the two error metrics of that
    run are ordinary numbers between 0 and 1. *)
Theorem zero_label_relative_error {K : Kernels} (feed : feed_dict)
    (vars : variables) (nb_features : Z) (layer_sizes : list Z)
    (nb_labels seed : Z) (g0 g : Graph) (nn : NeuralNetwork)
    (Pm Lm : matrix) (i j : nat) (p : float32) (q : Q) :
  dense_nn nb_features layer_sizes nb_labels seed g0 = Ok (nn, g) ->
  session_run feed vars g (nn_predictions nn) = Some (VMatrix Pm) ->
  session_run feed vars g (nn_labels nn) = Some (VMatrix Lm) ->
  length Pm = length Lm ->
  elt Pm i j = Some p -> elt Lm i j = Some (Fin q) -> (q == 0)%Q ->
  exists r x e2 e1,
    relative_error_value (Some (VMatrix Pm)) (Some (VMatrix Lm)) =
      Some (VMatrix r) /\
    elt r i j = Some x /\
    f32_is_artifact x = true /\
    session_run feed vars g (nn_err_2pc nn) = Some (VScalar (Fin e2)) /\
    session_run feed vars g (nn_err_1pc nn) = Some (VScalar (Fin e1)) /\
    (0 <= e2 <= 1)%Q /\ (0 <= e1 <= 1)%Q.
Proof.
  intros Hnn HP HL Hlen Hp Hl Hq.
  destruct (run_relative_error_elementwise feed vars _ _ _ _ _ _ _ Pm Lm
              Hnn HP HL Hlen) as [r [Hr [_ [Helt [H2 H1]]]]].
  specialize (Helt i j p (Fin q) Hp Hl).
  pose proof (relative_error_zero_label p q Hq) as Hart.
  destruct (f32_mean_bools (exceeds_mask (Fin (2 # 100)) r)
              (exceeds_mask_nonempty _ r i j _ Helt)) as [e2 [He2 Hf2]].
  destruct (f32_mean_bools (exceeds_mask (Fin (1 # 100)) r)
              (exceeds_mask_nonempty _ r i j _ Helt)) as [e1 [He1 Hf1]].
  exists r, (relative_error_elt p (Fin q)), e2, e1.
  rewrite He2 in H2. rewrite He1 in H1.
  split; [exact Hr|]. split; [exact Helt|]. split; [exact Hart|].
  split; [exact H2|]. split; [exact H1|].
  split.
  - rewrite Hf2. apply fraction_true_range.
    apply (exceeds_mask_nonempty _ r i j _ Helt).
  - rewrite Hf1. apply fraction_true_range.
    apply (exceeds_mask_nonempty _ r i j _ Helt).
Qed.

Lemma zero_label_relative_error_witness :
  exists r x e2 e1,
    relative_error_value (Some (VMatrix [[Fin 1]; [Fin 0]; [Fin 5]]))
      (Some (VMatrix [[Fin 0]; [Fin 0]; [Fin 4]])) = Some (VMatrix r) /\
    elt r 0 0 = Some x /\
    f32_is_artifact x = true /\
    @session_run passthrough_kernels (batch_feed [1; 0; 5]%Q [0; 0; 4]%Q)
      unit_variables (mkGraph (dense_nn_nodes 1 [1] 1 0) [])
      (nn_err_2pc (dense_nn_bundle 1 [1] 1)) = Some (VScalar (Fin e2)) /\
    @session_run passthrough_kernels (batch_feed [1; 0; 5]%Q [0; 0; 4]%Q)
      unit_variables (mkGraph (dense_nn_nodes 1 [1] 1 0) [])
      (nn_err_1pc (dense_nn_bundle 1 [1] 1)) = Some (VScalar (Fin e1)) /\
    (0 <= e2 <= 1)%Q /\ (0 <= e1 <= 1)%Q.
Proof.
  apply (@zero_label_relative_error passthrough_kernels
           (batch_feed [1; 0; 5]%Q [0; 0; 4]%Q) unit_variables 1 [1] 1 0
           empty_graph (mkGraph (dense_nn_nodes 1 [1] 1 0) [])
           (dense_nn_bundle 1 [1] 1) [[Fin 1]; [Fin 0]; [Fin 5]]
           [[Fin 0]; [Fin 0]; [Fin 4]] 0%nat 0%nat (Fin 1) 0%Q).
  - vm_compute. reflexivity.
  - vm_compute. reflexivity.
  - vm_compute. reflexivity.
  - reflexivity.
  - reflexivity.
  - reflexivity.
  - reflexivity.
Defined.

Lemma f32_greater_Fin (a c : Q) :
  f32_greater (Fin a) (Fin c) = true <-> (c < a)%Q.
Proof. unfold f32_greater. apply f32_ltb_Fin. Qed.

Lemma f32_greater_Fin_false (a c : Q) :
  (a <= c)%Q -> f32_greater (Fin a) (Fin c) = false.
Proof.
  intros H. destruct (f32_greater (Fin a) (Fin c)) eqn:E; [|reflexivity].
  apply f32_greater_Fin in E. lra.
Qed.

(** What a run computes for the two error metrics, given the values [P] of
    the predictions and [L] of the labels:
    - each metric is the mean of the cast to float of the elementwise test
      "relative error greater than the threshold", with thresholds 0.02 and
      0.01;
    - on one batch the relative error is [|p - l| / l] position by
      position;
    - over at least one element, [err_2pc] is the fraction of elements
      whose relative error exceeds 0.02 and [err_1pc] the fraction
      exceeding 0.01;
    - on three rows whose relative errors are exactly 0.5%, 1.5% and 2.5%,
      [err_2pc] is 1/3 and [err_1pc] is 2/3. *)
Definition error_metrics_spec {K : Kernels} (feed : feed_dict)
    (vars : variables) (g : Graph) (nn : NeuralNetwork) : Prop :=
  let P := session_run feed vars g (nn_predictions nn) in
  let L := session_run feed vars g (nn_labels nn) in
  let R := bind2 eval_div (bind1 eval_abs (bind2 eval_sub P L)) L in
  let rate := fun c =>
    bind1 eval_mean
      (bind1 (eval_cast tf_float32)
         (bind2 eval_greater R (Some (VScalar c)))) in
  session_run feed vars g (nn_err_2pc nn) = rate (Fin (2 # 100)) /\
  session_run feed vars g (nn_err_1pc nn) = rate (Fin (1 # 100)) /\
  (forall Pm Lm,
      P = Some (VMatrix Pm) -> L = Some (VMatrix Lm) ->
      length Pm = length Lm ->
      exists r,
        R = Some (VMatrix r) /\
        forall i j p l,
          elt Pm i j = Some p -> elt Lm i j = Some l ->
          elt r i j = Some (f32_div (f32_abs (f32_sub p l)) l)) /\
  (forall r,
      R = Some (VMatrix r) -> concat r <> [] ->
      exists q2 q1,
        session_run feed vars g (nn_err_2pc nn) = Some (VScalar (Fin q2)) /\
        session_run feed vars g (nn_err_1pc nn) = Some (VScalar (Fin q1)) /\
        (q2 == fraction_true (exceeds_mask (Fin (2 # 100)) r))%Q /\
        (q1 == fraction_true (exceeds_mask (Fin (1 # 100)) r))%Q) /\
  (forall a b c,
      R = Some (VMatrix [[Fin a]; [Fin b]; [Fin c]]) ->
      (a == 5 # 1000)%Q -> (b == 15 # 1000)%Q -> (c == 25 # 1000)%Q ->
      exists q2 q1,
        session_run feed vars g (nn_err_2pc nn) = Some (VScalar (Fin q2)) /\
        session_run feed vars g (nn_err_1pc nn) = Some (VScalar (Fin q1)) /\
        (q2 == 1 # 3)%Q /\ (q1 == 2 # 3)%Q).

(** C4 -- In every run of a graph assembled by [dense_nn] the error metrics
    satisfy [error_metrics_spec]: relative error [|prediction - label| /
    label] elementwise, each metric the mean of a boolean-to-float cast of
    the test against its threshold, hence the fraction of elements above
    0.02 for [err_2pc] and above 0.01 for [err_1pc]; for a three-row batch
    with relative errors exactly 0.5%, 1.5% and 2.5%, [err_1pc = 2/3] and
    [err_2pc = 1/3]. *)
Theorem error_metrics_are_threshold_fractions {K : Kernels}
    (feed : feed_dict) (vars : variables) (nb_features : Z)
    (layer_sizes : list Z) (nb_labels seed : Z) (g0 g : Graph)
    (nn : NeuralNetwork) :
  dense_nn nb_features layer_sizes nb_labels seed g0 = Ok (nn, g) ->
  error_metrics_spec feed vars g nn.
Proof.
  intros Hnn.
  destruct (run_error_rates feed vars _ _ _ _ _ _ _ Hnn)
    as [R2 R1].
  cbv zeta in R2, R1.
  unfold error_metrics_spec. cbv zeta.
  fold (relative_error_value (session_run feed vars g (nn_predictions nn))
          (session_run feed vars g (nn_labels nn))).
  set (R := relative_error_value _ _) in *.
  fold (error_rate_value (Fin (2 # 100)) R).
  fold (error_rate_value (Fin (1 # 100)) R).
  assert (Hfrac : forall r,
      R = Some (VMatrix r) -> concat r <> [] ->
      exists q2 q1,
        session_run feed vars g (nn_err_2pc nn) = Some (VScalar (Fin q2)) /\
        session_run feed vars g (nn_err_1pc nn) = Some (VScalar (Fin q1)) /\
        (q2 == fraction_true (exceeds_mask (Fin (2 # 100)) r))%Q /\
        (q1 == fraction_true (exceeds_mask (Fin (1 # 100)) r))%Q).
  { intros r Hr Hcat. rewrite R2, R1, Hr, !error_rate_matrix.
    assert (Hmask : forall c, exceeds_mask c r <> []).
    { intros c Hnil. unfold exceeds_mask in Hnil.
      apply map_eq_nil in Hnil. contradiction. }
    destruct (f32_mean_bools _ (Hmask (Fin (2 # 100)))) as [q2 [E2 F2]].
    destruct (f32_mean_bools _ (Hmask (Fin (1 # 100)))) as [q1 [E1 F1]].
    exists q2, q1. rewrite E2, E1. repeat split; assumption. }
  split; [exact R2|]. split; [exact R1|]. split; [|split; [exact Hfrac|]].
  - intros Pm Lm HP HL Hlen.
    destruct (run_relative_error_elementwise feed vars _ _ _ _ _ _ _ Pm Lm
                Hnn HP HL Hlen) as [r [Hr [_ [Helt _]]]].
    exists r. split; [|exact Helt].
    unfold R. rewrite HP, HL. exact Hr.
  - intros a b c Hr Ha Hb Hc.
    destruct (Hfrac _ Hr) as [q2 [q1 [H2 [H1 [F2 F1]]]]]; [discriminate|].
    exists q2, q1. split; [exact H2|]. split; [exact H1|].
    unfold exceeds_mask in F2, F1. cbn [concat app map] in F2, F1.
    assert (Ea2 : f32_greater (Fin a) (Fin (2 # 100)) = false)
      by (apply f32_greater_Fin_false; lra).
    assert (Eb2 : f32_greater (Fin b) (Fin (2 # 100)) = false)
      by (apply f32_greater_Fin_false; lra).
    assert (Ec2 : f32_greater (Fin c) (Fin (2 # 100)) = true)
      by (apply f32_greater_Fin; lra).
    assert (Ea1 : f32_greater (Fin a) (Fin (1 # 100)) = false)
      by (apply f32_greater_Fin_false; lra).
    assert (Eb1 : f32_greater (Fin b) (Fin (1 # 100)) = true)
      by (apply f32_greater_Fin; lra).
    assert (Ec1 : f32_greater (Fin c) (Fin (1 # 100)) = true)
      by (apply f32_greater_Fin; lra).
    rewrite Ea2, Eb2, Ec2 in F2. rewrite Ea1, Eb1, Ec1 in F1.
    split; [rewrite F2 | rewrite F1]; reflexivity.
Qed.

Lemma error_metrics_are_threshold_fractions_witness :
  let feed := batch_feed [201; 203; 205]%Q [200; 200; 200]%Q in
  let g := mkGraph (dense_nn_nodes 1 [1] 1 0) [] in
  let nn := dense_nn_bundle 1 [1] 1 in
  @error_metrics_spec passthrough_kernels feed unit_variables g nn /\
  relative_error_value
    (@session_run passthrough_kernels feed unit_variables g
       (nn_predictions nn))
    (@session_run passthrough_kernels feed unit_variables g (nn_labels nn)) =
    Some (VMatrix [[Fin (1 # 200)]; [Fin (3 # 200)]; [Fin (5 # 200)]]) /\
  @session_run passthrough_kernels feed unit_variables g (nn_err_2pc nn) =
    Some (VScalar (Fin (1 # 3))) /\
  @session_run passthrough_kernels feed unit_variables g (nn_err_1pc nn) =
    Some (VScalar (Fin (2 # 3))).
Proof.
  cbv zeta. split.
  - apply (@error_metrics_are_threshold_fractions passthrough_kernels
             (batch_feed [201; 203; 205]%Q [200; 200; 200]%Q) unit_variables
             1 [1] 1 0 empty_graph).
    + vm_compute. reflexivity.
  - repeat split; vm_compute; reflexivity.
Defined.

(** * Further properties of the builders *)

(** ** [dense_relu]: the exceptions raised on the static shape of the input *)

(** X2 -- [dense_relu] reads the second static dimension of its input
    before it opens its name scope, so that, whatever the unit count, the
    seed, the name and the graph, an input of unknown rank raises
    [ValueError] (at [as_list()]) and an input of rank below two raises
    [IndexError] (at [[1]]).  An input whose second dimension is unknown or
    zero makes the call raise as well, and return no handle: [2.0/dim_in]
    is not defined for it. *)
Theorem dense_relu_input_errors (inputs : Tensor) (units seed : Z)
    (name : string) (g : Graph) :
  (tensor_shape inputs = None ->
   dense_relu inputs units seed name g = Raise ValueError) /\
  (forall dims,
      tensor_shape inputs = Some dims -> (length dims < 2)%nat ->
      dense_relu inputs units seed name g = Raise IndexError) /\
  (forall dims,
      tensor_shape inputs = Some dims ->
      nth_error dims 1 = Some None \/ nth_error dims 1 = Some (Some 0) ->
      exists e, dense_relu inputs units seed name g = Raise e).
Proof.
  unfold dense_relu, bind, lift, as_list.
  split; [intros ->; reflexivity|].
  split; intros dims -> H.
  - change 1 with (Z.of_nat 1).
    rewrite py_getitem_short by lia. reflexivity.
  - change 1 with (Z.of_nat 1).
    destruct H as [H|H].
    + rewrite (py_getitem_nth dims 1 None H). eexists. reflexivity.
    + rewrite (py_getitem_nth dims 1 (Some 0) H). eexists. reflexivity.
Qed.

Lemma dense_relu_input_errors_witness :
  let g := mkGraph (placeholder_nodes 10 1) [] in
  dense_relu pkeep_placeholder 32 7 "dense_relu" g = Raise ValueError /\
  dense_relu (mkTensor 0 tf_float32 (Some [Some 10])) 32 7 "dense_relu" g =
    Raise IndexError /\
  (exists e,
     dense_relu (mkTensor 0 tf_float32 (Some [Some 10; None])) 32 7
       "dense_relu" g = Raise e) /\
  (exists e,
     dense_relu (mkTensor 0 tf_float32 (Some [None; Some 0])) 32 7
       "dense_relu" g = Raise e).
Proof.
  cbv zeta. split; [|split; [|split]].
  - apply (proj1 (dense_relu_input_errors pkeep_placeholder 32 7 "dense_relu"
                    (mkGraph (placeholder_nodes 10 1) []))).
    reflexivity.
  - apply (proj1 (proj2 (dense_relu_input_errors
                           (mkTensor 0 tf_float32 (Some [Some 10])) 32 7
                           "dense_relu"
                           (mkGraph (placeholder_nodes 10 1) [])))
             [Some 10]).
    + reflexivity.
    + simpl. lia.
  - apply (proj2 (proj2 (dense_relu_input_errors
                           (mkTensor 0 tf_float32 (Some [Some 10; None])) 32
                           7 "dense_relu"
                           (mkGraph (placeholder_nodes 10 1) [])))
             [Some 10; None]).
    + reflexivity.
    + left. reflexivity.
  - apply (proj2 (proj2 (dense_relu_input_errors
                           (mkTensor 0 tf_float32 (Some [None; Some 0])) 32
                           7 "dense_relu"
                           (mkGraph (placeholder_nodes 10 1) [])))
             [None; Some 0]).
    + reflexivity.
    + right. reflexivity.
Defined.

(** ** [dense_nn]: the topologies it builds *)

(** X1 -- [dense_nn] returns a bundle only for a topology with a positive
    feature count, at least one hidden layer, hidden widths that are all
    positive, a label count that is not negative, none of them above
    [2^63 - 1], and kernels that fit: the product of two consecutive
    numbers of the chain feature count, hidden widths, label count is at
    most [2^63 - 1].  For every other topology it raises, whatever the seed
    and the graph that was current. *)
Theorem dense_nn_returns_only_if (nb_features : Z) (layer_sizes : list Z)
    (nb_labels seed : Z) (g g' : Graph) (nn : NeuralNetwork) :
  dense_nn nb_features layer_sizes nb_labels seed g = Ok (nn, g') ->
  0 < nb_features <= dim_max /\
  layer_sizes <> [] /\
  Forall (fun units => 0 < units <= dim_max) layer_sizes /\
  0 <= nb_labels <= dim_max /\
  kernels_fit nb_features (layer_sizes ++ [nb_labels]).
Proof.
  intros H.
  destruct (dense_nn_inv _ _ _ _ _ _ H) as [[Hf Hs Hl Hk] Hne].
  split; [exact Hf|]. split; [exact Hne|]. split; [exact Hs|].
  split; [|exact Hk].
  unfold valid_dim in Hl. apply andb_prop in Hl. destruct Hl as [H0 H1].
  apply Z.leb_le in H0. apply Z.leb_le in H1. split; assumption.
Qed.

Lemma dense_nn_returns_only_if_witness :
  dense_nn 10 [32; 16] 0 7 empty_graph =
    Ok (dense_nn_bundle 10 [32; 16] 0,
        mkGraph (dense_nn_nodes 10 [32; 16] 0 7) []) /\
  0 < 10 <= dim_max /\
  [32; 16] <> [] /\
  Forall (fun units => 0 < units <= dim_max) [32; 16] /\
  0 <= 0 <= dim_max /\
  kernels_fit 10 ([32; 16] ++ [0]).
Proof.
  assert (Hrun : dense_nn 10 [32; 16] 0 7 empty_graph =
                 Ok (dense_nn_bundle 10 [32; 16] 0,
                     mkGraph (dense_nn_nodes 10 [32; 16] 0 7) []))
    by (vm_compute; reflexivity).
  split; [exact Hrun|].
  exact (dense_nn_returns_only_if 10 [32; 16] 0 7 empty_graph _ _ Hrun).
Defined.

(** A width of zero is accepted where it is given and breaks the layer
    that reads it: that layer divides by its number of input columns. *)
Lemma hidden_loop_zero_width (seed : Z) (training_phase pkeep : Tensor)
    (rest built : list Z) :
  forall (layers : list Tensor) (previous : Tensor) (dim_in : Z) (g : Graph),
    loop_ready g training_phase pkeep layers built previous dim_in ->
    Forall (fun units => valid_dim (Some units) = true) rest ->
    kernels_fit dim_in rest ->
    In 0 (removelast (dim_in :: rest)) ->
    for_each (map Z.of_nat (seq (length built - 1) (length rest)))
      (hidden_layer_step (built ++ rest) seed training_phase pkeep) layers g =
      Raise ZeroDivisionError.
Proof.
  revert built.
  induction rest as [|units rest IH];
    intros built layers previous dim_in g Hready Hvalid Hfit Hzero.
  - cbn in Hzero. contradiction.
  - inversion Hvalid as [|? ? Hunits Hrest]; subst.
    destruct Hfit as [Hfit Hfits].
    assert (Hlayer : valid_units dim_in units = true)
      by (unfold valid_units; rewrite Hunits; exact Hfit).
    rewrite (loop_indices built rest units (lr_built _ _ _ _ _ _ _ Hready)).
    cbn [for_each]. unfold bind at 1.
    destruct (Z.eq_dec dim_in 0) as [->|Hnz].
    + pose proof Hready as [Hlen Hprev Hne Hsc Hin Hdt Hsh _ Htp Htpd Hpk Hpkd].
      assert (Hpos : (0 < length built)%nat)
        by (destruct built; [congruence | cbn; lia]).
      unfold hidden_layer_step, bind at 1, lift at 1.
      rewrite (py_getitem_nth layers _ previous Hprev).
      unfold bind at 1, lift at 1.
      replace (Z.of_nat (length built - 1) + 1)
        with (Z.of_nat (length built)) by lia.
      rewrite (py_getitem_nth (built ++ units :: rest) (length built) units)
        by (rewrite nth_error_app2, Nat.sub_diag by lia; reflexivity).
      unfold bind at 1, dense_relu_bn_drop, with_name_scope, bind at 1.
      rewrite dense_relu_zero_dim by assumption. reflexivity.
    + pose proof (valid_dim_positive dim_in (lr_dim _ _ _ _ _ _ _ Hready) Hnz)
        as Hdim.
      rewrite (hidden_layer_step_ok seed training_phase pkeep built rest units
                 layers previous dim_in g Hready Hdim Hlayer).
      replace (built ++ units :: rest) with ((built ++ [units]) ++ rest)
        by (rewrite <- app_assoc; reflexivity).
      apply (IH (built ++ [units]) _ (layer_output (length (nodes g)) units)
               units).
      * apply loop_ready_next; assumption.
      * exact Hrest.
      * exact Hfits.
      * change (removelast (dim_in :: units :: rest))
          with (dim_in :: removelast (units :: rest)) in Hzero.
        destruct Hzero as [Hz|Hz]; [congruence | exact Hz].
Qed.

Lemma chain_ok_no_zero (d : Z) (rest : list Z) :
  Forall (fun units => valid_dim (Some units) = true) (d :: rest) ->
  kernels_fit d rest ->
  ~ In 0 (removelast (d :: rest)) -> chain_ok d rest.
Proof.
  revert d. induction rest as [|u rest IH]; intros d Hv Hfit Hz; [exact I|].
  inversion Hv as [|? ? Hd Hrest]; subst.
  inversion Hrest as [|? ? Hu _]; subst.
  destruct Hfit as [Hfit Hfits].
  change (removelast (d :: u :: rest)) with (d :: removelast (u :: rest))
    in Hz.
  cbn [chain_ok]. split.
  - apply valid_dim_positive; [exact Hd|].
    intros ->. apply Hz. left. reflexivity.
  - split; [unfold valid_units; rewrite Hu; exact Hfit|].
    apply IH; [exact Hrest | exact Hfits |].
    intros H. apply Hz. right. exact H.
Qed.

Lemma in_removelast_or_last (l : list Z) (x d : Z) :
  In x l -> In x (removelast l) \/ last l d = x.
Proof.
  induction l as [|a l IH]; [contradiction|].
  intros [->|H].
  - destruct l; [right; reflexivity | left; left; reflexivity].
  - destruct l as [|b l]; [contradiction|].
    destruct (IH H) as [H1|H1]; [left; right; exact H1 | right; exact H1].
Qed.

Lemma valid_dim_range (n : Z) :
  0 <= n <= dim_max -> valid_dim (Some n) = true.
Proof.
  intros [H0 H1]. unfold valid_dim.
  apply andb_true_intro. split; apply Z.leb_le; assumption.
Qed.

(** X5 -- When the feature count, every hidden width and the label count
    are dimensions (zero allowed), every kernel fits (the product of two
    consecutive numbers of the chain feature count, hidden widths, label
    count is at most [2^63 - 1]) and there is at least one hidden layer, a
    zero among the feature count and the hidden widths makes [dense_nn]
    raise [ZeroDivisionError]: the zero is accepted as a number of columns
    or of units where it is given, and the layer that reads these columns
    (the next hidden layer, or the prediction head after the last one)
    divides by it in [sqrt(2.0/dim_in)]. *)
Theorem dense_nn_zero_width (nb_features : Z) (layer_sizes : list Z)
    (nb_labels seed : Z) (g : Graph) :
  0 <= nb_features <= dim_max ->
  Forall (fun units => 0 <= units <= dim_max) layer_sizes ->
  0 <= nb_labels <= dim_max ->
  kernels_fit nb_features (layer_sizes ++ [nb_labels]) ->
  layer_sizes <> [] ->
  In 0 (nb_features :: layer_sizes) ->
  dense_nn nb_features layer_sizes nb_labels seed g = Raise ZeroDivisionError.
Proof.
  intros Hf Hs Hl Hk Hne Hzero.
  apply valid_dim_range in Hf. apply valid_dim_range in Hl.
  assert (Hs' : Forall (fun units => valid_dim (Some units) = true)
                  layer_sizes)
    by (eapply Forall_impl; [|exact Hs]; intros u; apply valid_dim_range).
  clear Hs.
  destruct layer_sizes as [|u0 us]; [congruence|].
  inversion Hs' as [|? ? Hu0 Hus]; subst.
  cbn [app kernels_fit] in Hk. destruct Hk as [Hk0 Hk].
  apply kernels_fit_app in Hk. destruct Hk as [Hks _].
  assert (Hfirst : valid_units nb_features u0 = true)
    by (unfold valid_units; rewrite Hu0; exact Hk0).
  unfold dense_nn, bind at 1, tf_reset_default_graph.
  unfold bind at 1.
  rewrite tf_placeholder_ok by (apply valid_shape_matrix, Hf).
  unfold add_op at 1, empty_graph. cbn [nodes scopes app length].
  unfold bind at 1.
  rewrite tf_placeholder_ok by (apply valid_shape_matrix, Hl).
  unfold add_op at 1. cbn [nodes scopes app length].
  unfold bind at 1.
  rewrite tf_placeholder_ok by reflexivity.
  unfold add_op at 1. cbn [nodes scopes app length].
  unfold bind at 1.
  rewrite tf_placeholder_ok by reflexivity.
  unfold add_op at 1. cbn [nodes scopes app length].
  unfold bind at 1, lift at 1.
  change 0 with (Z.of_nat 0) at 1.
  rewrite (py_getitem_nth (u0 :: us) 0 u0 eq_refl).
  fold (inputs_placeholder nb_features) (labels_placeholder nb_labels)
    training_placeholder pkeep_placeholder
    (placeholder_nodes nb_features nb_labels).
  unfold bind at 1.
  destruct (Z.eq_dec nb_features 0) as [->|Hnz].
  { unfold dense_relu_bn_drop, with_name_scope, bind at 1.
    rewrite dense_relu_zero_dim by reflexivity. reflexivity. }
  pose proof (valid_dim_positive nb_features Hf Hnz) as Hpos.
  rewrite (regularized_nodes_dense_nn _ _ nb_features u0);
    try assumption; try reflexivity.
  cbn [nodes scopes app length].
  change (length (placeholder_nodes nb_features nb_labels)) with 4%nat.
  replace (py_range (Z.of_nat (S (length us)) - 1))
    with (map Z.of_nat (seq (length [u0] - 1) (length us)))
    by (unfold py_range; cbn [length];
        replace (Z.of_nat (S (length us)) - 1) with (Z.of_nat (length us))
          by lia;
        rewrite Nat2Z.id; reflexivity).
  change (u0 :: us) with ([u0] ++ us) at 1.
  unfold bind at 1.
  destruct (in_dec Z.eq_dec 0 (removelast (u0 :: us))) as [Hin|Hnin].
  { rewrite (hidden_loop_zero_width seed training_placeholder
               pkeep_placeholder us [u0] _ (layer_output 4 u0) u0 _
               (loop_ready_first nb_features nb_labels u0 seed Hu0) Hus Hks
               Hin).
    reflexivity. }
  rewrite (hidden_loop_ok seed training_placeholder pkeep_placeholder us [u0]
             _ (layer_output 4 u0) u0 _
             (loop_ready_first nb_features nb_labels u0 seed Hu0)
             (chain_ok_no_zero u0 us Hs' Hks Hnin)).
  unfold bind at 1, lift at 1.
  change ([layer_output 4 u0] ++ stack_outputs _ us)
    with (stack_outputs 4 (u0 :: us)).
  rewrite (py_getitem_minus_one _ (inputs_placeholder nb_features))
    by discriminate.
  rewrite (stack_outputs_last_hidden (u0 :: us)) by discriminate.
  assert (Hlast : last (u0 :: us) 0 = 0).
  { destruct Hzero as [Hz|Hz]; [congruence|].
    destruct (in_removelast_or_last (u0 :: us) 0 0 Hz) as [H|H];
      [contradiction | exact H]. }
  unfold bind at 1.
  rewrite dense_relu_zero_dim; [reflexivity|].
  unfold last_hidden_output, layer_output. cbn [tensor_shape].
  rewrite Hlast. reflexivity.
Qed.

Lemma dense_nn_zero_width_witness :
  dense_nn 10 [32; 0; 16] 1 7 empty_graph = Raise ZeroDivisionError.
Proof.
  apply (dense_nn_zero_width 10 [32; 0; 16] 1 7 empty_graph).
  - unfold dim_max. lia.
  - unfold dim_max. repeat (apply Forall_cons; [lia|]). apply Forall_nil.
  - unfold dim_max. lia.
  - simpl. repeat split.
  - discriminate.
  - simpl. right. right. left. reflexivity.
Defined.

(** ** [dense_nn]: how the layers are chained *)

(** The dense layers of a graph in creation order: the handle each reads,
    its unit count and the standard deviation of its initializer. *)
Definition dense_layers (ns : list node)
  : list (Tensor * Z * PyFloat.float) :=
  flat_map (fun n => match node_op n with
                     | Dense x units _ (truncated_normal_initializer sd _) =>
                         [(x, units, sd)]
                     | _ => []
                     end) ns.

(** The handles of the dropout operations of a graph whose first operation
    has position [base], in creation order. *)
Fixpoint dropout_handles_from (base : nat) (ns : list node) : list Tensor :=
  match ns with
  | [] => []
  | n :: rest =>
      match node_op n with
      | Dropout _ _ => [mkTensor base (node_dtype n) (node_shape n)]
      | _ => []
      end ++ dropout_handles_from (S base) rest
  end.

Definition dropout_handles (ns : list node) : list Tensor :=
  dropout_handles_from 0 ns.

Lemma dense_layers_app (a b : list node) :
  dense_layers (a ++ b) = dense_layers a ++ dense_layers b.
Proof. unfold dense_layers. apply flat_map_app. Qed.

Lemma dropout_handles_from_app (base : nat) (a b : list node) :
  dropout_handles_from base (a ++ b) =
    dropout_handles_from base a ++
    dropout_handles_from (base + length a) b.
Proof.
  revert base. induction a as [|n a IH]; intros base.
  - cbn. rewrite Nat.add_0_r. reflexivity.
  - cbn [app dropout_handles_from length]. rewrite IH, <- app_assoc.
    replace (S base + length a)%nat with (base + S (length a))%nat by lia.
    reflexivity.
Qed.

(** The dense layers of the hidden stack. *)
Fixpoint stack_layers (base : nat) (previous : Tensor) (dim_in : Z)
    (sizes : list Z) : list (Tensor * Z * PyFloat.float) :=
  match sizes with
  | [] => []
  | units :: rest =>
      (previous, units, he_stddev_value dim_in)
      :: stack_layers (base + 3) (layer_output base units) units rest
  end.

Lemma hidden_stack_dense_layers seed tp pk base previous dim_in i sizes :
  dense_layers (hidden_stack seed tp pk base previous dim_in i sizes) =
    stack_layers base previous dim_in sizes.
Proof.
  revert base previous dim_in i.
  induction sizes as [|u rest IH]; intros; [reflexivity|].
  cbn [hidden_stack stack_layers]. rewrite dense_layers_app, IH.
  reflexivity.
Qed.

Lemma hidden_stack_dropout_handles seed tp pk base previous dim_in i sizes :
  dropout_handles_from base
    (hidden_stack seed tp pk base previous dim_in i sizes) =
    stack_outputs base sizes.
Proof.
  revert base previous dim_in i.
  induction sizes as [|u rest IH]; intros; [reflexivity|].
  cbn [hidden_stack stack_outputs]. rewrite dropout_handles_from_app.
  cbn [length regularized_nodes]. rewrite IH.
  unfold layer_output. cbn.
  replace (S (S base)) with (base + 2)%nat by lia.
  replace (S (S (S base))) with (base + 3)%nat by lia.
  reflexivity.
Qed.

Lemma stack_layers_inputs (base : nat) (previous : Tensor) (dim_in : Z)
    (sizes : list Z) (d : Tensor) :
  map (fun l => fst (fst l)) (stack_layers base previous dim_in sizes) ++
    [last (previous :: stack_outputs base sizes) d] =
    previous :: stack_outputs base sizes.
Proof.
  revert base previous dim_in.
  induction sizes as [|u rest IH]; intros base previous dim_in;
    [reflexivity|].
  cbn [stack_layers stack_outputs map fst].
  change (last (previous :: ?a :: ?l) d) with (last (a :: l) d).
  rewrite <- app_comm_cons, IH. reflexivity.
Qed.

Lemma stack_layers_units (base : nat) (previous : Tensor) (dim_in : Z)
    (sizes : list Z) :
  map (fun l => snd (fst l)) (stack_layers base previous dim_in sizes) =
    sizes.
Proof.
  revert base previous dim_in.
  induction sizes as [|u rest IH]; intros; [reflexivity|].
  cbn [stack_layers map fst snd]. rewrite IH. reflexivity.
Qed.

Lemma stack_layers_stddev (base : nat) (previous x : Tensor) (dim_in n : Z)
    (sizes : list Z) :
  Forall positive_dim (dim_in :: sizes) ->
  Forall2 (fun d l => he_stddev (Some d) = Ok (snd l)) (dim_in :: sizes)
    (stack_layers base previous dim_in sizes ++
       [(x, n, he_stddev_value (last sizes dim_in))]).
Proof.
  revert base previous dim_in.
  induction sizes as [|u rest IH]; intros base previous dim_in Hall;
    inversion Hall as [|? ? Hd Hrest]; subst.
  - constructor; [|constructor].
    apply he_stddev_positive_dim, Hd.
  - cbn [stack_layers app]. constructor.
    + apply he_stddev_positive_dim, Hd.
    + rewrite last_cons. apply IH, Hrest.
Qed.

Lemma dense_nn_nodes_dense_layers (nb_features : Z) (layer_sizes : list Z)
    (nb_labels seed : Z) :
  dense_layers (dense_nn_nodes nb_features layer_sizes nb_labels seed) =
    stack_layers 4 (inputs_placeholder nb_features) nb_features layer_sizes
    ++ [(last_hidden_output layer_sizes, nb_labels,
         he_stddev_value (last layer_sizes 0))].
Proof.
  unfold dense_nn_nodes. cbv zeta.
  rewrite !dense_layers_app, hidden_stack_dense_layers.
  reflexivity.
Qed.

Lemma dense_nn_nodes_dropout_handles (nb_features : Z) (layer_sizes : list Z)
    (nb_labels seed : Z) :
  dropout_handles (dense_nn_nodes nb_features layer_sizes nb_labels seed) =
    stack_outputs 4 layer_sizes.
Proof.
  unfold dropout_handles, dense_nn_nodes. cbv zeta.
  rewrite dropout_handles_from_app.
  change (dropout_handles_from 0 (placeholder_nodes nb_features nb_labels))
    with (@nil Tensor).
  cbn [app length placeholder_nodes Nat.add].
  rewrite dropout_handles_from_app, hidden_stack_dropout_handles.
  rewrite <- (app_nil_r (stack_outputs 4 layer_sizes)) at 2.
  f_equal.
Qed.

(** X6 -- In every graph [dense_nn] returns there is one dense layer per
    hidden width plus the prediction head, in this order.  The first reads
    the input placeholder and each of the others reads the output of the
    dropout of the layer before it, the head that of the last hidden
    layer; their unit counts are the hidden widths followed by the label
    count; and the standard deviation of the initializer of each is
    [sqrt(2.0/d)] for [d] the number of columns it reads: the feature count
    for the first, the width of the layer before for the others. *)
Theorem dense_nn_layer_chain (nb_features : Z) (layer_sizes : list Z)
    (nb_labels seed : Z) (g g' : Graph) (nn : NeuralNetwork) :
  dense_nn nb_features layer_sizes nb_labels seed g = Ok (nn, g') ->
  let layers := dense_layers (nodes g') in
  map (fun l => fst (fst l)) layers =
    nn_inputs nn :: dropout_handles (nodes g') /\
  map (fun l => snd (fst l)) layers = layer_sizes ++ [nb_labels] /\
  Forall2 (fun d l => he_stddev (Some d) = Ok (snd l))
    (nb_features :: layer_sizes) layers.
Proof.
  intros H. cbv zeta.
  destruct (dense_nn_inv _ _ _ _ _ _ H) as [[Hf Hs _] _].
  destruct (dense_nn_result _ _ _ _ _ _ _ H) as [Hne [-> ->]].
  cbn [nodes nn_inputs dense_nn_bundle].
  rewrite dense_nn_nodes_dense_layers, dense_nn_nodes_dropout_handles.
  split; [|split].
  - rewrite map_app. cbn [map fst].
    rewrite <- (stack_outputs_last_hidden layer_sizes
                  (inputs_placeholder nb_features) Hne).
    rewrite <- (last_cons (inputs_placeholder nb_features)
                  (inputs_placeholder nb_features)).
    apply stack_layers_inputs.
  - rewrite map_app, stack_layers_units. reflexivity.
  - destruct layer_sizes as [|u0 us]; [congruence|].
    rewrite (last_cons u0 0 us), <- (last_cons u0 nb_features us).
    apply stack_layers_stddev. constructor; assumption.
Qed.

Lemma dense_nn_layer_chain_witness :
  let g' := mkGraph (dense_nn_nodes 10 [32; 16] 1 7) [] in
  let layers := dense_layers (nodes g') in
  map (fun l => fst (fst l)) layers =
    [inputs_placeholder 10; layer_output 4 32; layer_output 7 16] /\
  dropout_handles (nodes g') = [layer_output 4 32; layer_output 7 16] /\
  map (fun l => snd (fst l)) layers = [32; 16; 1] /\
  Forall2 (fun d l => he_stddev (Some d) = Ok (snd l)) [10; 32; 16] layers.
Proof.
  cbv zeta.
  assert (Hrun : dense_nn 10 [32; 16] 1 7 empty_graph =
                 Ok (dense_nn_bundle 10 [32; 16] 1,
                     mkGraph (dense_nn_nodes 10 [32; 16] 1 7) []))
    by (vm_compute; reflexivity).
  destruct (dense_nn_layer_chain 10 [32; 16] 1 7 empty_graph _ _ Hrun)
    as [Hin [Hunits Hstd]].
  split; [|split; [|split]].
  - rewrite Hin. reflexivity.
  - reflexivity.
  - exact Hunits.
  - exact Hstd.
Defined.

(** ** [dense_nn]: one training flag and one keep probability *)

(** The attributes of the normalizations of a graph, in creation order:
    [center], [scale] and the handle of the training flag. *)
Definition normalizations (ns : list node) : list (bool * bool * Tensor) :=
  flat_map (fun n => match node_op n with
                     | BatchNormalization _ center scale training =>
                         [(center, scale, training)]
                     | _ => []
                     end) ns.

(** The keep probabilities of the dropouts of a graph, in creation
    order. *)
Definition keep_probabilities (ns : list node) : list Tensor :=
  flat_map (fun n => match node_op n with
                     | Dropout _ keep_prob => [keep_prob]
                     | _ => []
                     end) ns.

Lemma hidden_stack_normalizations seed tp pk base previous dim_in i sizes :
  normalizations (hidden_stack seed tp pk base previous dim_in i sizes) =
    repeat (true, true, tp) (length sizes).
Proof.
  revert base previous dim_in i.
  induction sizes as [|u rest IH]; intros; [reflexivity|].
  cbn [hidden_stack length repeat]. unfold normalizations in *.
  rewrite flat_map_app, IH. reflexivity.
Qed.

Lemma hidden_stack_keep_probabilities seed tp pk base previous dim_in i sizes :
  keep_probabilities (hidden_stack seed tp pk base previous dim_in i sizes) =
    repeat pk (length sizes).
Proof.
  revert base previous dim_in i.
  induction sizes as [|u rest IH]; intros; [reflexivity|].
  cbn [hidden_stack length repeat]. unfold keep_probabilities in *.
  rewrite flat_map_app, IH. reflexivity.
Qed.

(** X7 -- In every graph [dense_nn] returns there are as many
    normalizations and as many dropouts as hidden layers, none for the
    prediction head; every normalization is centered and scaled and
    switched by the one training-phase placeholder of the bundle, and every
    dropout takes its keep probability from the one [pkeep] placeholder of
    the bundle. *)
Theorem dense_nn_shared_regularization (nb_features : Z)
    (layer_sizes : list Z) (nb_labels seed : Z) (g g' : Graph)
    (nn : NeuralNetwork) :
  dense_nn nb_features layer_sizes nb_labels seed g = Ok (nn, g') ->
  normalizations (nodes g') =
    repeat (true, true, nn_training_phase nn) (length layer_sizes) /\
  keep_probabilities (nodes g') =
    repeat (nn_pkeep nn) (length layer_sizes) /\
  length (dense_layers (nodes g')) = S (length layer_sizes).
Proof.
  intros H.
  destruct (dense_nn_result _ _ _ _ _ _ _ H) as [_ [-> ->]].
  cbn [nodes nn_training_phase nn_pkeep dense_nn_bundle].
  split; [|split].
  - unfold dense_nn_nodes, normalizations. cbv zeta.
    rewrite !flat_map_app.
    fold (normalizations
            (hidden_stack seed training_placeholder pkeep_placeholder 4
               (inputs_placeholder nb_features) nb_features 0 layer_sizes)).
    rewrite hidden_stack_normalizations.
    cbn. rewrite app_nil_r. reflexivity.
  - unfold dense_nn_nodes, keep_probabilities. cbv zeta.
    rewrite !flat_map_app.
    fold (keep_probabilities
            (hidden_stack seed training_placeholder pkeep_placeholder 4
               (inputs_placeholder nb_features) nb_features 0 layer_sizes)).
    rewrite hidden_stack_keep_probabilities.
    cbn. rewrite app_nil_r. reflexivity.
  - rewrite dense_nn_nodes_dense_layers, length_app.
    rewrite <- (length_map (fun l => snd (fst l))), stack_layers_units.
    cbn [length]. lia.
Qed.

Lemma dense_nn_shared_regularization_witness :
  let g' := mkGraph (dense_nn_nodes 10 [32; 16] 1 7) [] in
  normalizations (nodes g') =
    [(true, true, training_placeholder); (true, true, training_placeholder)] /\
  keep_probabilities (nodes g') = [pkeep_placeholder; pkeep_placeholder] /\
  length (dense_layers (nodes g')) = 3%nat.
Proof.
  cbv zeta.
  assert (Hrun : dense_nn 10 [32; 16] 1 7 empty_graph =
                 Ok (dense_nn_bundle 10 [32; 16] 1,
                     mkGraph (dense_nn_nodes 10 [32; 16] 1 7) []))
    by (vm_compute; reflexivity).
  exact (dense_nn_shared_regularization 10 [32; 16] 1 7 empty_graph _ _ Hrun).
Defined.

(** ** [dense_nn]: the name scopes *)





(** ** [dense_nn]: the handles of the bundle *)






(** ** The loss of a run *)

Lemma nth_error_combine {A B : Type} (l1 : list A) (l2 : list B) (i : nat)
    (a : A) (b : B) :
  nth_error (combine l1 l2) i = Some (a, b) ->
  nth_error l1 i = Some a /\ nth_error l2 i = Some b.
Proof.
  revert l2 i. induction l1 as [|x l1 IH]; intros l2 i H;
    [destruct i; discriminate|].
  destruct l2 as [|y l2]; [destruct i; discriminate|].
  destruct i as [|i]; cbn in *.
  - injection H as -> ->. split; reflexivity.
  - apply IH, H.
Qed.

Lemma elt_zip_matrix_inv {C : Type} (f : float32 -> float32 -> C)
    (m1 m2 : matrix) (i j : nat) (c : C) :
  elt (zip_matrix f m1 m2) i j = Some c ->
  exists a b, elt m1 i j = Some a /\ elt m2 i j = Some b /\ c = f a b.
Proof.
  unfold elt, zip_matrix, zip_rows. rewrite nth_error_map.
  destruct (nth_error (combine m1 m2) i) as [[r1 r2]|] eqn:E;
    [|discriminate].
  cbn [option_map fst snd]. rewrite nth_error_map.
  destruct (nth_error (combine r1 r2) j) as [[a b]|] eqn:E';
    [|discriminate].
  cbn [option_map fst snd]. intros Hc.
  apply nth_error_combine in E. apply nth_error_combine in E'.
  destruct E as [-> ->]. destruct E' as [Ha Hb].
  exists a, b. split; [exact Ha|]. split; [exact Hb|]. congruence.
Qed.

Lemma in_concat_elt {A : Type} (m : list (list A)) (x : A) :
  In x (concat m) -> exists i j, elt m i j = Some x.
Proof.
  intros H. apply in_concat in H. destruct H as [row [Hrow Hx]].
  apply In_nth_error in Hrow. apply In_nth_error in Hx.
  destruct Hrow as [i Hi]. destruct Hx as [j Hj].
  exists i, j. unfold elt. rewrite Hi. exact Hj.
Qed.

Lemma elt_all_elements (Q : float32 -> Prop) (m : matrix) (i j : nat)
    (x : float32) :
  all_elements Q m -> elt m i j = Some x -> Q x.
Proof.
  unfold all_elements, elt. intros Hall H.
  destruct (nth_error m i) as [row|] eqn:E; [|discriminate].
  apply nth_error_In in E. apply nth_error_In in H.
  rewrite Forall_forall in Hall. specialize (Hall row E).
  rewrite Forall_forall in Hall. apply Hall, H.
Qed.

Lemma elt_same_shape (n : nat) (m1 m2 : matrix) (i j : nat) (b : float32) :
  same_shape n m1 m2 -> elt m2 i j = Some b ->
  exists a, elt m1 i j = Some a.
Proof.
  intros [Hlen [H1 H2]]. unfold elt.
  destruct (nth_error m2 i) as [r2|] eqn:E2; [|discriminate].
  intros Hj.
  assert (Hi : (i < length m1)%nat)
    by (rewrite Hlen; apply nth_error_Some; congruence).
  destruct (nth_error m1 i) as [r1|] eqn:E1;
    [|apply nth_error_None in E1; lia].
  assert (L1 : length r1 = n)
    by (rewrite Forall_forall in H1; apply H1; eapply nth_error_In, E1).
  assert (L2 : length r2 = n)
    by (rewrite Forall_forall in H2; apply H2; eapply nth_error_In, E2).
  assert (Hlt : (j < length r1)%nat)
    by (rewrite L1, <- L2; apply nth_error_Some; congruence).
  destruct (nth_error r1 j) as [a|] eqn:Ea;
    [exists a; reflexivity | apply nth_error_None in Ea; lia].
Qed.

(** Every element is a number: neither an infinity nor [NaN]. *)
Definition finite_matrix (m : matrix) : Prop :=
  all_elements (fun x => f32_is_artifact x = false) m.

Lemma finite_Fin (x : float32) :
  f32_is_artifact x = false -> exists q, x = Fin q.
Proof. destruct x; try discriminate. intros _. eexists. reflexivity. Qed.

Lemma finite_list (xs : list float32) :
  Forall (fun x => f32_is_artifact x = false) xs ->
  exists qs, xs = map Fin qs.
Proof.
  induction 1 as [|x xs Hx _ [qs ->]]; [exists []; reflexivity|].
  destruct (finite_Fin x Hx) as [q ->]. exists (q :: qs). reflexivity.
Qed.

(** A sum of squares of numbers is a number, at least what it started
    from, and equal to it only if every term is zero. *)
Lemma f32_sum_squares_from (ds : list Q) (a : Q) :
  exists s,
    fold_left f32_add (map (fun x => f32_mul x x) (map Fin ds)) (Fin a) =
      Fin s /\
    (a <= s)%Q /\
    ((s == a)%Q <-> Forall (fun d => (d == 0)%Q) ds).
Proof.
  revert a. induction ds as [|d ds IH]; intros a.
  - exists a. split; [reflexivity|]. split; [apply Qle_refl|].
    split; [constructor | reflexivity].
  - cbn [map fold_left f32_add f32_mul].
    destruct (IH (a + d * d)%Q) as [s [Hs [Hle Hiff]]].
    exists s. split; [exact Hs|].
    assert (Hsq : (0 <= d * d)%Q).
    { destruct (Qlt_le_dec d 0) as [Hneg|Hpos].
      - setoid_replace (d * d)%Q with ((- d) * (- d))%Q by ring.
        apply Qmult_le_0_compat; lra.
      - apply Qmult_le_0_compat; assumption. }
    split; [lra|]. split.
    + intros Heq.
      assert (Hz : (d * d == 0)%Q) by lra.
      constructor.
      * destruct (Qmult_integral _ _ Hz); assumption.
      * apply Hiff. lra.
    + intros Hall. inversion Hall as [|? ? Hd Hrest]; subst.
      apply Hiff in Hrest. rewrite Hrest, Hd. ring.
Qed.

Lemma f32_mean_squares (ds : list Q) :
  ds <> [] ->
  exists q,
    f32_mean (map (fun x => f32_mul x x) (map Fin ds)) = Fin q /\
    (0 <= q)%Q /\
    ((q == 0)%Q <-> Forall (fun d => (d == 0)%Q) ds).
Proof.
  intros Hne. unfold f32_mean, f32_sum, f32_zero, f32_of_nat.
  destruct (f32_sum_squares_from ds 0) as [s [-> [Hle Hiff]]].
  rewrite !length_map.
  set (N := inject_Z (Z.of_nat (length ds))).
  assert (Hlen : (0 < length ds)%nat)
    by (destruct ds; [congruence | cbn; lia]).
  assert (HN : (0 < N)%Q).
  { unfold N. change 0%Q with (inject_Z 0). rewrite <- Zlt_Qlt. lia. }
  pose proof (inject_nat_pos _ Hlen) as Hc. fold N in Hc.
  unfold f32_div. rewrite Hc.
  exists (s / N)%Q. split; [reflexivity|]. split.
  - apply Qle_shift_div_l; [exact HN|]. lra.
  - rewrite <- Hiff. split; intros H.
    + assert (HNz : ~ (N == 0)%Q) by lra.
      apply Qeq_trans with (s / N * N)%Q; [field; exact HNz|].
      apply Qeq_trans with (0 * N)%Q;
        [apply Qmult_comp; [exact H | reflexivity] | ring].
    + unfold Qdiv.
      apply Qeq_trans with (0 * / N)%Q;
        [apply Qmult_comp; [exact H | reflexivity] | ring].
Qed.

Lemma loss_value_same_shape (n : nat) (Pm Lm : matrix) :
  same_shape n Pm Lm ->
  loss_value (Some (VMatrix Pm)) (Some (VMatrix Lm)) =
    Some (VScalar
            (f32_mean (map (fun d => f32_mul d d)
                         (concat (zip_matrix f32_sub Pm Lm))))).
Proof.
  intros Hs. unfold loss_value, bind2, eval_sub, eval_binary.
  rewrite (broadcast_matrix_same_shape f32_sub n Pm Lm Hs).
  cbn [option_map bind1 eval_square eval_unary eval_mean].
  rewrite <- concat_map. reflexivity.
Qed.

Lemma loss_finite_batch (n : nat) (Pm Lm : matrix) (i0 j0 : nat)
    (l0 : float32) :
  same_shape n Pm Lm -> finite_matrix Pm -> finite_matrix Lm ->
  elt Lm i0 j0 = Some l0 ->
  exists q,
    loss_value (Some (VMatrix Pm)) (Some (VMatrix Lm)) =
      Some (VScalar (Fin q)) /\
    (0 <= q)%Q /\
    ((q == 0)%Q <->
     forall i j a b,
       elt Pm i j = Some (Fin a) -> elt Lm i j = Some (Fin b) -> (a == b)%Q).
Proof.
  intros Hs HP HL Hl0.
  rewrite (loss_value_same_shape n Pm Lm Hs).
  assert (HD : Forall (fun x => f32_is_artifact x = false)
                 (concat (zip_matrix f32_sub Pm Lm))).
  { apply Forall_forall. intros x Hx.
    apply in_concat_elt in Hx. destruct Hx as [i [j Hx]].
    apply elt_zip_matrix_inv in Hx. destruct Hx as [a [b [Ha [Hb ->]]]].
    apply (elt_all_elements _ _ _ _ _ HP) in Ha.
    apply (elt_all_elements _ _ _ _ _ HL) in Hb.
    destruct a, b; try discriminate. reflexivity. }
  destruct (finite_list _ HD) as [ds Hds].
  assert (Hne : ds <> []).
  { destruct (elt_same_shape n Pm Lm i0 j0 l0 Hs Hl0) as [p0 Hp0].
    pose proof (elt_in_concat _ _ _ _
                  (elt_zip_matrix f32_sub Pm Lm i0 j0 p0 l0 Hp0 Hl0))
      as Hin.
    rewrite Hds in Hin. intros ->. exact Hin. }
  rewrite Hds.
  destruct (f32_mean_squares ds Hne) as [q [Hq [Hpos Hiff]]].
  exists q. split; [rewrite Hq; reflexivity|]. split; [exact Hpos|].
  rewrite Hiff. split.
  - intros Hall i j a b Ha Hb.
    pose proof (elt_in_concat _ _ _ _
                  (elt_zip_matrix f32_sub Pm Lm i j _ _ Ha Hb)) as Hin.
    rewrite Hds in Hin. apply in_map_iff in Hin.
    destruct Hin as [d [Hd Hin]].
    rewrite Forall_forall in Hall. specialize (Hall d Hin).
    unfold f32_sub, f32_neg, f32_add in Hd.
    assert (Ed : d = (a + - b)%Q) by congruence.
    rewrite Ed in Hall. lra.
  - intros Heq. apply Forall_forall. intros d Hd.
    assert (Hin : In (Fin d) (concat (zip_matrix f32_sub Pm Lm)))
      by (rewrite Hds; apply in_map, Hd).
    apply in_concat_elt in Hin. destruct Hin as [i [j Hx]].
    apply elt_zip_matrix_inv in Hx. destruct Hx as [a [b [Ha [Hb Hd']]]].
    pose proof (elt_all_elements _ _ _ _ _ HP Ha) as Fa.
    pose proof (elt_all_elements _ _ _ _ _ HL Hb) as Fb.
    destruct a as [qa| | |]; try discriminate.
    destruct b as [qb| | |]; try discriminate.
    unfold f32_sub, f32_neg, f32_add in Hd'.
    assert (Ed : d = (qa + - qb)%Q) by congruence.
    specialize (Heq i j qa qb Ha Hb). rewrite Ed. lra.
Qed.

(** The element is not below zero: a number that is at least zero, the
    positive infinity, or not a number. *)
Definition not_negative (x : float32) : Prop :=
  match x with
  | Fin q => (0 <= q)%Q
  | PInf | NaN => True
  | NInf => False
  end.

Lemma f32_square_not_negative (x : float32) : not_negative (f32_mul x x).
Proof.
  destruct x as [q| | |]; cbn [f32_mul not_negative]; try exact I.
  destruct (Qlt_le_dec q 0) as [Hneg|Hpos].
  - setoid_replace (q * q)%Q with ((- q) * (- q))%Q by ring.
    apply Qmult_le_0_compat; lra.
  - apply Qmult_le_0_compat; assumption.
Qed.

Lemma f32_add_not_negative (x y : float32) :
  not_negative x -> not_negative y -> not_negative (f32_add x y).
Proof.
  destruct x as [a| | |], y as [b| | |]; cbn [f32_add not_negative];
    try tauto.
  intros Ha Hb. lra.
Qed.

Lemma f32_sum_not_negative (xs : list float32) :
  forall a, not_negative a -> Forall not_negative xs ->
            not_negative (fold_left f32_add xs a).
Proof.
  induction xs as [|x xs IH]; intros a Ha Hxs; [exact Ha|].
  inversion Hxs as [|? ? Hx Hrest]; subst.
  cbn [fold_left]. apply IH; [|exact Hrest].
  apply f32_add_not_negative; assumption.
Qed.

(** The mean of elements that are not below zero is not below zero. *)
Lemma f32_mean_not_negative (xs : list float32) :
  Forall not_negative xs -> not_negative (f32_mean xs).
Proof.
  intros Hxs. unfold f32_mean, f32_sum, f32_of_nat.
  pose proof (f32_sum_not_negative xs f32_zero (Qle_refl 0) Hxs) as Hs.
  set (N := inject_Z (Z.of_nat (length xs))).
  assert (HN : (0 <= N)%Q).
  { unfold N. change 0%Q with (inject_Z 0). rewrite <- Zle_Qle. lia. }
  destruct (fold_left f32_add xs f32_zero) as [a| | |];
    cbn [not_negative] in Hs; unfold f32_div.
  - destruct (N ?= 0)%Q eqn:EN.
    + destruct (a ?= 0)%Q eqn:Ea; cbn [f32_inf_of not_negative];
        try exact I.
      apply Qlt_alt in Ea. lra.
    + apply Qlt_alt in EN. lra.
    + apply Qgt_alt in EN. cbn [not_negative].
      apply Qle_shift_div_l; [exact EN | lra].
  - destruct (N ?= 0)%Q eqn:EN; try exact I.
    apply Qlt_alt in EN. lra.
  - contradiction.
  - exact I.
Qed.

Lemma not_negative_not_below_zero (x : float32) :
  not_negative x -> f32_ltb x f32_zero = false.
Proof.
  destruct x as [q| | |]; cbn [not_negative]; intros H;
    try reflexivity; try contradiction.
  unfold f32_ltb, f32_zero.
  destruct (q ?= 0)%Q eqn:E; try reflexivity.
  apply Qlt_alt in E. lra.
Qed.

(** X10 -- In every run whose predictions and labels form one batch the
    loss is the mean, over all elements, of the squared difference between
    prediction and label.  It is never below zero, whatever the
    predictions and the labels are.  When all predictions and labels are
    numbers, there is at least one element and every prediction has the
    value of its label, the loss is zero. *)
Theorem loss_mean_squared_error {K : Kernels} (feed : feed_dict)
    (vars : variables) (nb_features : Z) (layer_sizes : list Z)
    (nb_labels seed : Z) (g0 g : Graph) (nn : NeuralNetwork)
    (Pm Lm : matrix) :
  dense_nn nb_features layer_sizes nb_labels seed g0 = Ok (nn, g) ->
  session_run feed vars g (nn_predictions nn) = Some (VMatrix Pm) ->
  session_run feed vars g (nn_labels nn) = Some (VMatrix Lm) ->
  length Pm = length Lm ->
  exists loss,
    session_run feed vars g (nn_loss nn) = Some (VScalar loss) /\
    loss = f32_mean (map (fun d => f32_mul d d)
                       (concat (zip_matrix f32_sub Pm Lm))) /\
    f32_ltb loss f32_zero = false /\
    (forall i0 j0 l0,
        finite_matrix Pm -> finite_matrix Lm -> elt Lm i0 j0 = Some l0 ->
        (forall i j a b,
            elt Pm i j = Some (Fin a) -> elt Lm i j = Some (Fin b) ->
            (a == b)%Q) ->
        exists q, loss = Fin q /\ (q == 0)%Q).
Proof.
  intros Hnn HP HL Hlen.
  destruct (dense_nn_result _ _ _ _ _ _ _ Hnn) as [Hne [-> ->]].
  pose proof (run_same_shape feed vars _ _ _ _ Pm Lm Hne HP HL Hlen) as Hs.
  pose proof (run_loss feed vars nb_features layer_sizes nb_labels seed)
    as Hloss.
  rewrite HP, HL in Hloss.
  eexists. split; [rewrite Hloss; apply (loss_value_same_shape _ _ _ Hs)|].
  split; [reflexivity|]. split.
  - apply not_negative_not_below_zero, f32_mean_not_negative.
    apply Forall_map, Forall_forall. intros d _.
    apply f32_square_not_negative.
  - intros i0 j0 l0 FP FL Hl0 Heq.
    destruct (loss_finite_batch _ Pm Lm i0 j0 l0 Hs FP FL Hl0)
      as [q [Hq [_ Hiff]]].
    rewrite (loss_value_same_shape _ _ _ Hs) in Hq.
    injection Hq as Hq.
    exists q. split; [exact Hq | apply Hiff, Heq].
Qed.

Lemma loss_mean_squared_error_witness :
  let feed := batch_feed [1; 2]%Q [1; 2]%Q in
  let g := mkGraph (dense_nn_nodes 1 [1] 1 0) [] in
  let nn := dense_nn_bundle 1 [1] 1 in
  exists loss,
    @session_run passthrough_kernels feed unit_variables g (nn_loss nn) =
      Some (VScalar loss) /\
    loss = f32_mean
             (map (fun d => f32_mul d d)
                (concat (zip_matrix f32_sub [[Fin 1]; [Fin 2]]
                           [[Fin 1]; [Fin 2]]))) /\
    f32_ltb loss f32_zero = false /\
    exists q, loss = Fin q /\ (q == 0)%Q.
Proof.
  cbv zeta.
  destruct (@loss_mean_squared_error passthrough_kernels
              (batch_feed [1; 2]%Q [1; 2]%Q) unit_variables 1 [1] 1 0
              empty_graph (mkGraph (dense_nn_nodes 1 [1] 1 0) [])
              (dense_nn_bundle 1 [1] 1) [[Fin 1]; [Fin 2]]
              [[Fin 1]; [Fin 2]]) as [loss [Hrun [Hmean [Hpos Hzero]]]].
  - vm_compute. reflexivity.
  - vm_compute. reflexivity.
  - vm_compute. reflexivity.
  - reflexivity.
  - exists loss.
    split; [exact Hrun|]. split; [exact Hmean|]. split; [exact Hpos|].
    apply (Hzero 0%nat 0%nat (Fin 1)).
    + repeat constructor.
    + repeat constructor.
    + reflexivity.
    + intros i j a b Ha Hb. rewrite Ha in Hb.
      injection Hb as <-. reflexivity.
Defined.

(** ** The metrics of an empty batch *)

Lemma concat_length_rows {A : Type} (n : nat) (m : list (list A)) :
  Forall (fun row => length row = n) m ->
  length (concat m) = (length m * n)%nat.
Proof.
  induction 1 as [|row m Hrow _ IH]; [reflexivity|].
  cbn [concat length]. rewrite length_app, IH, Hrow. lia.
Qed.

Lemma same_shape_concat_length (n : nat) (m1 m2 : matrix) :
  same_shape n m1 m2 -> length (concat m1) = length (concat m2).
Proof.
  intros [Hlen [H1 H2]].
  rewrite (concat_length_rows n m1 H1), (concat_length_rows n m2 H2), Hlen.
  reflexivity.
Qed.

Lemma same_shape_concat_nil (n : nat) (m1 m2 : matrix) :
  same_shape n m1 m2 -> concat m2 = [] -> concat m1 = [].
Proof.
  intros Hs Hnil. apply length_zero_iff_nil.
  rewrite (same_shape_concat_length n m1 m2 Hs), Hnil. reflexivity.
Qed.

(** X11 -- On a batch without elements (no row, or a label count of zero)
    the run does not fail and the loss and both error rates have the value
    [NaN]: each is a mean over zero elements, and nothing in the graph
    guards it. *)
Theorem empty_batch_metrics {K : Kernels} (feed : feed_dict)
    (vars : variables) (nb_features : Z) (layer_sizes : list Z)
    (nb_labels seed : Z) (g0 g : Graph) (nn : NeuralNetwork)
    (Pm Lm : matrix) :
  dense_nn nb_features layer_sizes nb_labels seed g0 = Ok (nn, g) ->
  session_run feed vars g (nn_predictions nn) = Some (VMatrix Pm) ->
  session_run feed vars g (nn_labels nn) = Some (VMatrix Lm) ->
  length Pm = length Lm ->
  concat Lm = [] ->
  session_run feed vars g (nn_loss nn) = Some (VScalar NaN) /\
  session_run feed vars g (nn_err_2pc nn) = Some (VScalar NaN) /\
  session_run feed vars g (nn_err_1pc nn) = Some (VScalar NaN).
Proof.
  intros Hnn HP HL Hlen Hnil.
  destruct (run_error_rates feed vars _ _ _ _ _ _ _ Hnn) as [H2 H1].
  cbv zeta in H2, H1. rewrite HP, HL in H2, H1.
  destruct (dense_nn_result _ _ _ _ _ _ _ Hnn) as [Hne [-> ->]].
  pose proof (run_same_shape feed vars _ _ _ _ Pm Lm Hne HP HL Hlen) as Hs.
  pose proof (run_loss feed vars nb_features layer_sizes nb_labels seed)
    as Hloss.
  rewrite HP, HL, (loss_value_same_shape _ _ _ Hs) in Hloss.
  rewrite (same_shape_concat_nil _ _ _
             (zip_matrix_shape f32_sub _ _ _ Hs) Hnil) in Hloss.
  destruct (relative_error_same_shape _ Pm Lm Hs) as [r [Hr [Hshape _]]].
  rewrite Hr, error_rate_matrix in H2, H1.
  unfold exceeds_mask in H2, H1.
  rewrite (same_shape_concat_nil _ _ _ Hshape Hnil) in H2, H1.
  split; [exact Hloss|]. split; [exact H2 | exact H1].
Qed.

Lemma empty_batch_metrics_witness :
  let feed := batch_feed [] [] in
  let g := mkGraph (dense_nn_nodes 1 [1] 1 0) [] in
  let nn := dense_nn_bundle 1 [1] 1 in
  @session_run passthrough_kernels feed unit_variables g (nn_predictions nn) =
    Some (VMatrix []) /\
  @session_run passthrough_kernels feed unit_variables g (nn_loss nn) =
    Some (VScalar NaN) /\
  @session_run passthrough_kernels feed unit_variables g (nn_err_2pc nn) =
    Some (VScalar NaN) /\
  @session_run passthrough_kernels feed unit_variables g (nn_err_1pc nn) =
    Some (VScalar NaN).
Proof.
  cbv zeta.
  assert (HP : @session_run passthrough_kernels (batch_feed [] [])
                 unit_variables (mkGraph (dense_nn_nodes 1 [1] 1 0) [])
                 (nn_predictions (dense_nn_bundle 1 [1] 1)) =
               Some (VMatrix [])) by (vm_compute; reflexivity).
  split; [exact HP|].
  apply (@empty_batch_metrics passthrough_kernels (batch_feed [] [])
           unit_variables 1 [1] 1 0 empty_graph
           (mkGraph (dense_nn_nodes 1 [1] 1 0) []) (dense_nn_bundle 1 [1] 1)
           [] []).
  - vm_compute. reflexivity.
  - exact HP.
  - vm_compute. reflexivity.
  - reflexivity.
  - reflexivity.
Defined.

(** ** The error rates of exact predictions *)

(** Two elements have the same value. *)
Definition f32_same (x y : float32) : Prop :=
  match x, y with
  | Fin a, Fin b => (a == b)%Q
  | PInf, PInf | NInf, NInf | NaN, NaN => True
  | _, _ => False
  end.

Lemma relative_error_same (p l : float32) (c : Q) :
  f32_same p l -> (0 < c)%Q ->
  f32_greater (relative_error_elt p l) (Fin c) = false.
Proof.
  destruct p as [a| | |], l as [b| | |]; cbn [f32_same];
    try contradiction; intros H Hc; try reflexivity.
  unfold relative_error_elt, f32_sub, f32_neg, f32_add, f32_abs, f32_div.
  assert (Hz : (Qabs (a + - b) == 0)%Q).
  { assert (E : (a + - b == 0)%Q) by lra.
    rewrite E. reflexivity. }
  destruct (b ?= 0)%Q.
  - apply Qeq_alt in Hz. rewrite Hz. reflexivity.
  - apply f32_greater_Fin_false. unfold Qdiv. rewrite Hz. lra.
  - apply f32_greater_Fin_false. unfold Qdiv. rewrite Hz. lra.
Qed.

Lemma count_true_none (bs : list bool) :
  Forall (fun b => b = false) bs -> count_true bs = 0%nat.
Proof.
  induction 1 as [|b bs Hb _ IH]; [reflexivity|].
  subst b. exact IH.
Qed.

Lemma same_shape_sym (n : nat) (m1 m2 : matrix) :
  same_shape n m1 m2 -> same_shape n m2 m1.
Proof. intros [H [H1 H2]]. split; [symmetry; exact H|]. split; assumption. Qed.

(** X12 -- In every run whose predictions have, element by element, the
    value of the labels, both error rates are zero over at least one
    element, whatever the labels are: an element whose label is zero gives
    the relative error [0/0], which is not a number and exceeds no
    threshold. *)
Theorem exact_predictions_error_rates {K : Kernels} (feed : feed_dict)
    (vars : variables) (nb_features : Z) (layer_sizes : list Z)
    (nb_labels seed : Z) (g0 g : Graph) (nn : NeuralNetwork)
    (Pm Lm : matrix) (i0 j0 : nat) (l0 : float32) :
  dense_nn nb_features layer_sizes nb_labels seed g0 = Ok (nn, g) ->
  session_run feed vars g (nn_predictions nn) = Some (VMatrix Pm) ->
  session_run feed vars g (nn_labels nn) = Some (VMatrix Lm) ->
  length Pm = length Lm ->
  (forall i j p l,
      elt Pm i j = Some p -> elt Lm i j = Some l -> f32_same p l) ->
  elt Lm i0 j0 = Some l0 ->
  exists e2 e1,
    session_run feed vars g (nn_err_2pc nn) = Some (VScalar (Fin e2)) /\
    session_run feed vars g (nn_err_1pc nn) = Some (VScalar (Fin e1)) /\
    (e2 == 0)%Q /\ (e1 == 0)%Q.
Proof.
  intros Hnn HP HL Hlen Hsame Hl0.
  destruct (run_error_rates feed vars _ _ _ _ _ _ _ Hnn) as [H2 H1].
  cbv zeta in H2, H1. rewrite HP, HL in H2, H1.
  destruct (dense_nn_result _ _ _ _ _ _ _ Hnn) as [Hne [-> ->]].
  pose proof (run_same_shape feed vars _ _ _ _ Pm Lm Hne HP HL Hlen) as Hs.
  destruct (relative_error_same_shape _ Pm Lm Hs) as [r [Hr [Hshape Helt]]].
  rewrite Hr, error_rate_matrix in H2, H1.
  assert (Hnone : forall c, (0 < c)%Q ->
            Forall (fun b => b = false) (exceeds_mask (Fin c) r)).
  { intros c Hc. unfold exceeds_mask. apply Forall_map, Forall_forall.
    intros x Hx. apply in_concat_elt in Hx. destruct Hx as [i [j Hx]].
    destruct (elt_same_shape _ _ _ i j x (same_shape_sym _ _ _ Hshape) Hx)
      as [l Hl].
    destruct (elt_same_shape _ _ _ i j l Hs Hl) as [p Hp].
    rewrite (Helt i j p l Hp Hl) in Hx.
    assert (Ex : x = relative_error_elt p l) by congruence.
    rewrite Ex. apply relative_error_same; [|exact Hc].
    apply (Hsame i j); assumption. }
  destruct (elt_same_shape _ _ _ i0 j0 l0 Hs Hl0) as [p0 Hp0].
  pose proof (Helt i0 j0 p0 l0 Hp0 Hl0) as Hr0.
  destruct (f32_mean_bools (exceeds_mask (Fin (2 # 100)) r)
              (exceeds_mask_nonempty _ r i0 j0 _ Hr0)) as [e2 [He2 Hf2]].
  destruct (f32_mean_bools (exceeds_mask (Fin (1 # 100)) r)
              (exceeds_mask_nonempty _ r i0 j0 _ Hr0)) as [e1 [He1 Hf1]].
  exists e2, e1. rewrite He2 in H2. rewrite He1 in H1.
  split; [exact H2|]. split; [exact H1|].
  unfold fraction_true in Hf2, Hf1.
  rewrite (count_true_none _ (Hnone (2 # 100)%Q eq_refl)) in Hf2.
  rewrite (count_true_none _ (Hnone (1 # 100)%Q eq_refl)) in Hf1.
  split; [rewrite Hf2 | rewrite Hf1]; unfold Qdiv; cbn [Z.of_nat];
    apply Qmult_0_l.
Qed.

Lemma exact_predictions_error_rates_witness :
  let feed := batch_feed [0; 3]%Q [0; 3]%Q in
  let g := mkGraph (dense_nn_nodes 1 [1] 1 0) [] in
  let nn := dense_nn_bundle 1 [1] 1 in
  relative_error_value
    (@session_run passthrough_kernels feed unit_variables g
       (nn_predictions nn))
    (@session_run passthrough_kernels feed unit_variables g (nn_labels nn)) =
    Some (VMatrix [[NaN]; [Fin (0 # 3)]]) /\
  exists e2 e1,
    @session_run passthrough_kernels feed unit_variables g (nn_err_2pc nn) =
      Some (VScalar (Fin e2)) /\
    @session_run passthrough_kernels feed unit_variables g (nn_err_1pc nn) =
      Some (VScalar (Fin e1)) /\
    (e2 == 0)%Q /\ (e1 == 0)%Q.
Proof.
  cbv zeta. split; [vm_compute; reflexivity|].
  apply (@exact_predictions_error_rates passthrough_kernels
           (batch_feed [0; 3]%Q [0; 3]%Q) unit_variables 1 [1] 1 0
           empty_graph (mkGraph (dense_nn_nodes 1 [1] 1 0) [])
           (dense_nn_bundle 1 [1] 1) [[Fin 0]; [Fin 3]] [[Fin 0]; [Fin 3]]
           0%nat 0%nat (Fin 0)).
  - vm_compute. reflexivity.
  - vm_compute. reflexivity.
  - vm_compute. reflexivity.
  - reflexivity.
  - intros i j p l Hp Hl. rewrite Hp in Hl. injection Hl as <-.
    destruct p; simpl; try exact I. reflexivity.
  - reflexivity.
Defined.

(** ** What a fetch depends on *)

(** Insertion of a position into a strictly increasing list of
    positions. *)
Fixpoint insert_id (k : nat) (l : list nat) : list nat :=
  match l with
  | [] => [k]
  | x :: rest =>
      if (k <? x)%nat then k :: l
      else if (k =? x)%nat then l
      else x :: insert_id k rest
  end.

Definition union_ids (a b : list nat) : list nat := fold_right insert_id b a.

(** The placeholders the operation [o], registered at position [id],
    depends on, given those the operations before it depend on: a
    placeholder depends on itself, any other operation on what the
    operations it reads depend on. *)
Definition support_of (acc : list (list nat)) (id : nat) (o : op)
  : list nat :=
  match o with
  | Placeholder _ _ _ => [id]
  | _ =>
      fold_right (fun t s => union_ids (nth (tensor_id t) acc []) s) []
        (op_inputs o)
  end.

(** The placeholders each operation depends on, in creation order. *)
Fixpoint supports_from (ns : list node) (acc : list (list nat))
  : list (list nat) :=
  match ns with
  | [] => acc
  | n :: rest =>
      supports_from rest (acc ++ [support_of acc (length acc) (node_op n)])
  end.

(** The placeholders from which a chain of operations, each reading the
    output of the one before, leads to the handle [t]: what a run has to
    feed to compute [t]. *)
Definition placeholders_read (ns : list node) (t : Tensor) : list nat :=
  nth (tensor_id t) (supports_from ns []) [].

Lemma supports_from_app (a b : list node) (acc : list (list nat)) :
  supports_from (a ++ b) acc = supports_from b (supports_from a acc).
Proof.
  revert acc. induction a as [|n a IH]; intros acc; [reflexivity|].
  cbn [app supports_from]. apply IH.
Qed.

Lemma supports_from_extends (ns : list node) :
  forall acc, exists extra,
    supports_from ns acc = acc ++ extra /\ length extra = length ns.
Proof.
  induction ns as [|n ns IH]; intros acc.
  - exists []. rewrite app_nil_r. split; reflexivity.
  - cbn [supports_from].
    destruct (IH (acc ++ [support_of acc (length acc) (node_op n)]))
      as [extra [E Hlen]].
    exists (support_of acc (length acc) (node_op n) :: extra).
    rewrite E, <- app_assoc. split; [reflexivity|].
    cbn [length]. rewrite Hlen. reflexivity.
Qed.

Lemma supports_from_length (ns : list node) (acc : list (list nat)) :
  length (supports_from ns acc) = (length acc + length ns)%nat.
Proof.
  destruct (supports_from_extends ns acc) as [extra [-> Hlen]].
  rewrite length_app, Hlen. reflexivity.
Qed.

(** What an operation depends on is not changed by the operations that
    follow. *)
Lemma supports_from_old (ns : list node) (acc : list (list nat)) (i : nat) :
  (i < length acc)%nat -> nth i (supports_from ns acc) [] = nth i acc [].
Proof.
  intros H. destruct (supports_from_extends ns acc) as [extra [-> _]].
  apply app_nth1, H.
Qed.

Lemma nth_snoc {A : Type} (l : list A) (x d : A) (n : nat) :
  length l = n -> nth n (l ++ [x]) d = x.
Proof.
  intros <-. rewrite app_nth2 by lia. rewrite Nat.sub_diag. reflexivity.
Qed.

Lemma support_of_ext (acc1 acc2 : list (list nat)) (id : nat) (o : op) :
  Forall (fun t => nth (tensor_id t) acc1 [] = nth (tensor_id t) acc2 [])
    (op_inputs o) ->
  support_of acc1 id o = support_of acc2 id o.
Proof.
  intros H. destruct o; cbn [op_inputs support_of fold_right] in *;
    repeat match goal with
           | H : Forall _ (_ :: _) |- _ => inversion H; clear H; subst
           | H : nth _ acc1 [] = _ |- _ => rewrite H; clear H
           end;
    reflexivity.
Qed.

(** In a graph whose operations read only operations created before
    them, every operation depends on what [support_of] gives from the
    dependencies of the graph itself. *)
Lemma supports_at (ns : list node) (i : nat) (n : node) (t : Tensor) :
  nth_error ns i = Some n ->
  tensor_id t = i ->
  Forall (fun x => (tensor_id x < i)%nat) (op_inputs (node_op n)) ->
  placeholders_read ns t = support_of (supports_from ns []) i (node_op n).
Proof.
  intros Hnth Hid Hinputs. unfold placeholders_read. rewrite Hid.
  destruct (nth_error_split ns i Hnth) as [pre [post [-> Hlen]]].
  rewrite supports_from_app. cbn [supports_from].
  set (acc0 := supports_from pre []).
  assert (Hl0 : length acc0 = i)
    by (unfold acc0; rewrite supports_from_length; cbn; lia).
  rewrite supports_from_old by (rewrite length_app; cbn [length]; lia).
  rewrite (nth_snoc acc0 _ [] i Hl0), Hl0.
  apply support_of_ext.
  eapply Forall_impl; [|exact Hinputs].
  intros x Hx. cbn beta in Hx. symmetry.
  rewrite supports_from_old by (rewrite length_app; cbn [length]; lia).
  apply app_nth1. lia.
Qed.

(** One hidden layer: the dense layer depends on what its input depends
    on, the normalization on the training flag as well, the dropout on
    the keep probability as well. *)
Lemma regularized_supports (scope : list string) (acc : list (list nat))
    (base : nat) (previous : Tensor) (units seed : Z)
    (dims : list Dimension) (dim_in : Z) (P : list nat) :
  length acc = base -> (3 < base)%nat ->
  nth 2 acc [] = [2%nat] -> nth 3 acc [] = [3%nat] ->
  nth (tensor_id previous) acc [] = P ->
  supports_from
    (regularized_nodes scope base previous units seed training_placeholder
       pkeep_placeholder dims dim_in) acc =
    acc ++ [ union_ids P [];
             union_ids (union_ids P []) [2%nat];
             union_ids (union_ids (union_ids P []) [2%nat]) [3%nat] ].
Proof.
  intros Hlen Hbase H2 H3 HP.
  unfold regularized_nodes, dense_relu_node.
  cbn [supports_from node_op support_of op_inputs fold_right tensor_id
         training_placeholder pkeep_placeholder].
  rewrite HP.
  rewrite (nth_snoc acc _ [] base Hlen).
  rewrite (app_nth1 acc _ [] (n := 2)) by lia.
  rewrite H2.
  rewrite (nth_snoc _ _ [] (S base))
    by (rewrite length_app; cbn [length]; lia).
  rewrite (app_nth1 (acc ++ _) _ [] (n := 3))
    by (rewrite length_app; cbn [length]; lia).
  rewrite (app_nth1 acc _ [] (n := 3)) by lia.
  rewrite H3.
  rewrite <- !app_assoc. reflexivity.
Qed.

(** A stack of hidden layers on an input that depends on the inputs
    placeholder alone, or on it, the training flag and the keep
    probability: the output of its last layer depends on these three. *)
Lemma hidden_stack_supports (seed : Z) (sizes : list Z) :
  forall (acc : list (list nat)) (base : nat) (previous : Tensor)
         (dim_in : Z) (i : nat),
    length acc = base -> (3 < base)%nat ->
    nth 2 acc [] = [2%nat] -> nth 3 acc [] = [3%nat] ->
    (tensor_id previous < base)%nat ->
    nth (tensor_id previous) acc [] = [0%nat] \/
    nth (tensor_id previous) acc [] = [0; 2; 3]%nat ->
    sizes <> [] ->
    nth (tensor_id (last (stack_outputs base sizes) previous))
      (supports_from
         (hidden_stack seed training_placeholder pkeep_placeholder base
            previous dim_in i sizes) acc) [] = [0; 2; 3]%nat.
Proof.
  induction sizes as [|u rest IH];
    intros acc base previous dim_in i Hlen Hbase H2 H3 Hprev HP Hne;
    [congruence|].
  cbn [hidden_stack stack_outputs]. rewrite last_cons, supports_from_app.
  set (P := nth (tensor_id previous) acc []) in *.
  rewrite (regularized_supports _ acc base previous u seed _ dim_in P
             Hlen Hbase H2 H3 eq_refl).
  assert (Hout : union_ids (union_ids (union_ids P []) [2%nat]) [3%nat] =
                 [0; 2; 3]%nat)
    by (destruct HP as [-> | ->]; reflexivity).
  rewrite Hout.
  set (acc' := acc ++ [union_ids P []; union_ids (union_ids P []) [2%nat];
                       [0; 2; 3]%nat]).
  assert (Hlen' : length acc' = (base + 3)%nat)
    by (unfold acc'; rewrite length_app; cbn [length]; lia).
  assert (Hlayer : nth (tensor_id (layer_output base u)) acc' [] =
                   [0; 2; 3]%nat).
  { unfold acc', layer_output. cbn [tensor_id].
    rewrite app_nth2 by lia.
    replace (base + 2 - length acc)%nat with 2%nat by lia.
    reflexivity. }
  destruct rest as [|v rest'].
  - cbn [hidden_stack stack_outputs supports_from last]. exact Hlayer.
  - apply IH; try assumption.
    + lia.
    + unfold acc'. rewrite app_nth1 by lia. exact H2.
    + unfold acc'. rewrite app_nth1 by lia. exact H3.
    + unfold layer_output. cbn [tensor_id]. lia.
    + right. exact Hlayer.
    + discriminate.
Qed.

Section AssembledDependencies.

Variables (nb_features : Z) (layer_sizes : list Z) (nb_labels seed : Z).

Let ns : list node := dense_nn_nodes nb_features layer_sizes nb_labels seed.
Let nn : NeuralNetwork := dense_nn_bundle nb_features layer_sizes nb_labels.

#[local] Abbreviation p := (prediction_id layer_sizes).
#[local] Abbreviation shape := (Some [None; Some nb_labels]).

Lemma labels_placeholders_read :
  placeholders_read ns (labels_placeholder nb_labels) = [1%nat].
Proof.
  rewrite (supports_at ns 1
             (mkNode []
                (Placeholder tf_float32 (Some [None; Some nb_labels])
                   "labels")
                tf_float32 (Some [None; Some nb_labels]))).
  - reflexivity.
  - reflexivity.
  - reflexivity.
  - apply Forall_nil.
Qed.

Lemma last_hidden_placeholders_read :
  layer_sizes <> [] ->
  placeholders_read ns (last_hidden_output layer_sizes) = [0; 2; 3]%nat.
Proof.
  intros Hne. unfold placeholders_read, ns, dense_nn_nodes. cbv zeta.
  rewrite supports_from_app.
  change (supports_from (placeholder_nodes nb_features nb_labels) [])
    with [[0%nat]; [1%nat]; [2%nat]; [3%nat]].
  rewrite supports_from_app.
  rewrite supports_from_old.
  - rewrite <- (stack_outputs_last_hidden layer_sizes
                  (inputs_placeholder nb_features) Hne).
    apply hidden_stack_supports; try reflexivity; try assumption.
    + cbn [length]. lia.
    + cbn [tensor_id inputs_placeholder length]. lia.
    + left. reflexivity.
  - rewrite supports_from_length, hidden_stack_length.
    unfold last_hidden_output, layer_output. cbn [tensor_id length].
    destruct layer_sizes; [congruence | cbn [length]; lia].
Qed.

Lemma predictions_placeholders_read :
  layer_sizes <> [] ->
  placeholders_read ns (nn_predictions nn) = [0; 2; 3]%nat.
Proof.
  intros Hne.
  rewrite (supports_at ns p (prediction_node layer_sizes nb_labels seed)).
  - cbn [prediction_node dense_relu_node node_op support_of op_inputs
           fold_right].
    fold (placeholders_read ns (last_hidden_output layer_sizes)).
    rewrite (last_hidden_placeholders_read Hne). reflexivity.
  - apply dense_nn_nodes_prediction.
  - reflexivity.
  - cbn [prediction_node dense_relu_node node_op op_inputs].
    apply Forall_cons; [|apply Forall_nil].
    unfold last_hidden_output, layer_output, prediction_id.
    cbn [tensor_id].
    destruct layer_sizes; [congruence | cbn [length]; lia].
Qed.

Ltac inputs_before :=
  cbn [node_op op_inputs];
  repeat (apply Forall_cons;
          [ cbn [tensor_id prediction_tensor labels_placeholder];
            unfold prediction_id; lia | ]);
  apply Forall_nil.

(** Unfolds what the operation number [k] of the loss block depends
    on. *)
Ltac loss_support k t :=
  rewrite (supports_at ns (p + 1 + k) _ t
             (eq_trans (dense_nn_nodes_loss nb_features layer_sizes
                          nb_labels seed k ltac:(lia)) eq_refl));
  [ cbn [node_op support_of op_inputs fold_right]
  | unfold nn, dense_nn_bundle; cbn [tensor_id nn_loss]; lia
  | inputs_before ].

(** Unfolds what the operation number [k] of the accuracy block depends
    on. *)
Ltac accuracy_support k t :=
  rewrite (supports_at ns (p + 5 + k) _ t
             (eq_trans (dense_nn_nodes_accuracy nb_features layer_sizes
                          nb_labels seed k) eq_refl));
  [ cbn [node_op support_of op_inputs fold_right]
  | unfold nn, dense_nn_bundle;
    cbn [tensor_id nn_err_2pc nn_err_1pc]; lia
  | inputs_before ].

Lemma loss_placeholders_read :
  layer_sizes <> [] ->
  placeholders_read ns (nn_loss nn) = [0; 1; 2; 3]%nat.
Proof.
  intros Hne.
  loss_support 2%nat (nn_loss nn).
  fold (placeholders_read ns (mkTensor (p + 1 + 1) tf_float32 shape)).
  loss_support 1%nat (mkTensor (p + 1 + 1) tf_float32 shape).
  fold (placeholders_read ns (mkTensor (p + 1) tf_float32 shape)).
  loss_support 0%nat (mkTensor (p + 1) tf_float32 shape).
  fold (placeholders_read ns (prediction_tensor layer_sizes nb_labels)).
  fold (placeholders_read ns (labels_placeholder nb_labels)).
  rewrite labels_placeholders_read.
  change (prediction_tensor layer_sizes nb_labels) with (nn_predictions nn).
  rewrite (predictions_placeholders_read Hne). reflexivity.
Qed.

Lemma relative_error_placeholders_read (t : Tensor) :
  layer_sizes <> [] -> tensor_id t = (p + 5 + 2)%nat ->
  placeholders_read ns t = [0; 1; 2; 3]%nat.
Proof.
  intros Hne Hid.
  accuracy_support 2%nat t.
  fold (placeholders_read ns (mkTensor (p + 5 + 1) tf_float32 shape)).
  fold (placeholders_read ns (labels_placeholder nb_labels)).
  accuracy_support 1%nat (mkTensor (p + 5 + 1) tf_float32 shape).
  fold (placeholders_read ns (mkTensor (p + 5 + 0) tf_float32 shape)).
  accuracy_support 0%nat (mkTensor (p + 5 + 0) tf_float32 shape).
  fold (placeholders_read ns (prediction_tensor layer_sizes nb_labels)).
  fold (placeholders_read ns (labels_placeholder nb_labels)).
  rewrite labels_placeholders_read.
  change (prediction_tensor layer_sizes nb_labels) with (nn_predictions nn).
  rewrite (predictions_placeholders_read Hne). reflexivity.
Qed.

Lemma err_2pc_placeholders_read :
  layer_sizes <> [] ->
  placeholders_read ns (nn_err_2pc nn) = [0; 1; 2; 3]%nat.
Proof.
  intros Hne.
  accuracy_support 6%nat (nn_err_2pc nn).
  fold (placeholders_read ns (mkTensor (p + 5 + 5) tf_float32 shape)).
  accuracy_support 5%nat (mkTensor (p + 5 + 5) tf_float32 shape).
  fold (placeholders_read ns (mkTensor (p + 5 + 4) tf_bool shape)).
  accuracy_support 4%nat (mkTensor (p + 5 + 4) tf_bool shape).
  fold (placeholders_read ns (mkTensor (p + 5 + 2) tf_float32 shape)).
  fold (placeholders_read ns (mkTensor (p + 5 + 3) tf_float32 (Some []))).
  accuracy_support 3%nat (mkTensor (p + 5 + 3) tf_float32 (Some [])).
  rewrite (relative_error_placeholders_read
             (mkTensor (p + 5 + 2) tf_float32 shape) Hne eq_refl).
  reflexivity.
Qed.

Lemma err_1pc_placeholders_read :
  layer_sizes <> [] ->
  placeholders_read ns (nn_err_1pc nn) = [0; 1; 2; 3]%nat.
Proof.
  intros Hne.
  accuracy_support 11%nat (nn_err_1pc nn).
  fold (placeholders_read ns (mkTensor (p + 5 + 10) tf_float32 shape)).
  accuracy_support 10%nat (mkTensor (p + 5 + 10) tf_float32 shape).
  fold (placeholders_read ns (mkTensor (p + 5 + 9) tf_bool shape)).
  accuracy_support 9%nat (mkTensor (p + 5 + 9) tf_bool shape).
  fold (placeholders_read ns (mkTensor (p + 5 + 2) tf_float32 shape)).
  fold (placeholders_read ns (mkTensor (p + 5 + 8) tf_float32 (Some []))).
  accuracy_support 8%nat (mkTensor (p + 5 + 8) tf_float32 (Some [])).
  rewrite (relative_error_placeholders_read
             (mkTensor (p + 5 + 2) tf_float32 shape) Hne eq_refl).
  reflexivity.
Qed.

End AssembledDependencies.

(** X14 -- In every graph [dense_nn] returns, the predictions are computed
    from the [inputs], [training_phase] and [pkeep] placeholders and from
    no other: no chain of operations leads from the labels to the
    predictions.  The loss and both error rates are computed from all
    four placeholders of the bundle. *)
Theorem bundle_placeholders (nb_features : Z) (layer_sizes : list Z)
    (nb_labels seed : Z) (g g' : Graph) (nn : NeuralNetwork) :
  dense_nn nb_features layer_sizes nb_labels seed g = Ok (nn, g') ->
  placeholders_read (nodes g') (nn_predictions nn) =
    [ tensor_id (nn_inputs nn); tensor_id (nn_training_phase nn);
      tensor_id (nn_pkeep nn) ] /\
  Forall (fun t =>
            placeholders_read (nodes g') t =
              [ tensor_id (nn_inputs nn); tensor_id (nn_labels nn);
                tensor_id (nn_training_phase nn); tensor_id (nn_pkeep nn) ])
    [nn_loss nn; nn_err_2pc nn; nn_err_1pc nn].
Proof.
  intros H.
  destruct (dense_nn_result _ _ _ _ _ _ _ H) as [Hne [-> ->]].
  cbn [nodes nn_inputs nn_labels nn_training_phase nn_pkeep dense_nn_bundle
         tensor_id inputs_placeholder labels_placeholder
         training_placeholder pkeep_placeholder].
  split; [apply (predictions_placeholders_read _ _ _ _ Hne)|].
  apply Forall_cons; [apply (loss_placeholders_read _ _ _ _ Hne)|].
  apply Forall_cons; [apply (err_2pc_placeholders_read _ _ _ _ Hne)|].
  apply Forall_cons; [apply (err_1pc_placeholders_read _ _ _ _ Hne)|].
  apply Forall_nil.
Qed.

Lemma bundle_placeholders_witness :
  let nn := dense_nn_bundle 10 [32; 16] 1 in
  let ns := dense_nn_nodes 10 [32; 16] 1 7 in
  dense_nn 10 [32; 16] 1 7 empty_graph = Ok (nn, mkGraph ns []) /\
  placeholders_read ns (nn_predictions nn) = [0; 2; 3]%nat /\
  Forall (fun t => placeholders_read ns t = [0; 1; 2; 3]%nat)
    [nn_loss nn; nn_err_2pc nn; nn_err_1pc nn].
Proof.
  cbv zeta.
  assert (Hrun : dense_nn 10 [32; 16] 1 7 empty_graph =
                 Ok (dense_nn_bundle 10 [32; 16] 1,
                     mkGraph (dense_nn_nodes 10 [32; 16] 1 7) []))
    by (vm_compute; reflexivity).
  split; [exact Hrun|].
  exact (bundle_placeholders 10 [32; 16] 1 7 empty_graph _ _ Hrun).
Defined.
(** ** The values of a run fit the static shapes of the bundle *)

Lemma rows_fit_of_lengths (n : Z) (m : matrix) :
  0 <= n -> Forall (fun row => length row = Z.to_nat n) m ->
  rows_fit (Some [None; Some n]) m = true.
Proof.
  intros Hn Hall. unfold rows_fit.
  apply andb_true_intro. split.
  - destruct m as [|row rows]; [reflexivity|].
    inversion Hall as [|? ? Hrow Hrows]; subst.
    cbn [rectangular]. apply forallb_forall. intros r Hr.
    rewrite Forall_forall in Hrows.
    rewrite (Hrows r Hr), Hrow. apply Nat.eqb_refl.
  - cbn [dim_matches andb]. apply forallb_forall. intros r Hr.
    rewrite Forall_forall in Hall. rewrite (Hall r Hr).
    unfold dim_matches. rewrite Z2Nat.id by exact Hn. apply Z.eqb_refl.
Qed.

Lemma eval_mean_scalar (x : option value) (v : value) :
  bind1 eval_mean x = Some v -> exists y, v = VScalar y.
Proof.
  destruct x as [[a|m|b|m]|]; cbn [bind1 eval_mean]; try discriminate;
    intros H; eexists; symmetry; injection H as H; exact H.
Qed.

(** X17 -- In every run of a graph [dense_nn] returns, whatever is fed and
    whatever the variables hold, a value obtained for [predictions] fits
    the type and the static shape of that handle, a float matrix of
    [nb_labels] columns, and a value obtained for [loss], [err_2pc] or
    [err_1pc] is a float scalar, as the static shape of these handles
    says. *)
Theorem run_values_fit_handles {K : Kernels} (feed : feed_dict)
    (vars : variables) (nb_features : Z) (layer_sizes : list Z)
    (nb_labels seed : Z) (g0 g : Graph) (nn : NeuralNetwork) :
  dense_nn nb_features layer_sizes nb_labels seed g0 = Ok (nn, g) ->
  (forall v,
      session_run feed vars g (nn_predictions nn) = Some v ->
      value_fits (tensor_dtype (nn_predictions nn))
        (tensor_shape (nn_predictions nn)) v = true /\
      exists m, v = VMatrix m /\
                Forall (fun row => length row = Z.to_nat nb_labels) m) /\
  Forall (fun t =>
            tensor_shape t = Some [] /\
            forall v, session_run feed vars g t = Some v ->
                      value_fits (tensor_dtype t) (tensor_shape t) v = true /\
                      exists x, v = VScalar x)
    [nn_loss nn; nn_err_2pc nn; nn_err_1pc nn].
Proof.
  intros Hnn.
  destruct (dense_nn_inv _ _ _ _ _ _ Hnn) as [[_ _ Hl] _].
  destruct (dense_nn_result _ _ _ _ _ _ _ Hnn) as [Hne [-> ->]].
  split.
  - intros v Hv.
    destruct (predictions_rectified feed vars nb_features layer_sizes
                nb_labels seed v Hne Hv) as [m [-> [_ Hrows]]].
    split; [|exists m; split; [reflexivity | exact Hrows]].
    cbn [nn_predictions dense_nn_bundle prediction_tensor tensor_dtype
           tensor_shape value_fits].
    apply rows_fit_of_lengths; [|exact Hrows].
    unfold valid_dim in Hl. apply andb_prop in Hl. destruct Hl as [H0 _].
    apply Z.leb_le, H0.
  - repeat apply Forall_cons; try apply Forall_nil;
      (split; [reflexivity|]); intros v Hv.
    + rewrite (run_loss feed vars nb_features layer_sizes nb_labels seed)
        in Hv.
      destruct (eval_mean_scalar _ _ Hv) as [x ->].
      split; [reflexivity | exists x; reflexivity].
    + rewrite (run_err_2pc feed vars nb_features layer_sizes nb_labels seed)
        in Hv.
      destruct (eval_mean_scalar _ _ Hv) as [x ->].
      split; [reflexivity | exists x; reflexivity].
    + rewrite (run_err_1pc feed vars nb_features layer_sizes nb_labels seed)
        in Hv.
      destruct (eval_mean_scalar _ _ Hv) as [x ->].
      split; [reflexivity | exists x; reflexivity].
Qed.

Lemma run_values_fit_handles_witness :
  let feed := batch_feed [-2; 3]%Q [1; 1]%Q in
  let g := mkGraph (dense_nn_nodes 1 [1] 1 0) [] in
  let nn := dense_nn_bundle 1 [1] 1 in
  @session_run passthrough_kernels feed unit_variables g (nn_predictions nn) =
    Some (VMatrix [[Fin 0]; [Fin 3]]) /\
  value_fits tf_float32 (Some [None; Some 1]) (VMatrix [[Fin 0]; [Fin 3]]) =
    true /\
  exists m, VMatrix [[Fin 0]; [Fin 3]] = VMatrix m /\
            Forall (fun row => length row = Z.to_nat 1) m.
Proof.
  cbv zeta.
  assert (HP : @session_run passthrough_kernels
                 (batch_feed [-2; 3]%Q [1; 1]%Q) unit_variables
                 (mkGraph (dense_nn_nodes 1 [1] 1 0) [])
                 (nn_predictions (dense_nn_bundle 1 [1] 1)) =
               Some (VMatrix [[Fin 0]; [Fin 3]]))
    by (vm_compute; reflexivity).
  split; [exact HP|].
  destruct (@run_values_fit_handles passthrough_kernels
              (batch_feed [-2; 3]%Q [1; 1]%Q) unit_variables 1 [1] 1 0
              empty_graph (mkGraph (dense_nn_nodes 1 [1] 1 0) [])
              (dense_nn_bundle 1 [1] 1)) as [Hpred _].
  - vm_compute. reflexivity.
  - exact (Hpred _ HP).
Defined.

(** ** Between the two error rates *)





